(** * osl-dynamics (vrad / ohba_models): simulation engine, data container
      and M-DyNeMo observation model

    A shallow embedding of

    - [src/vrad/data/_base.py]         (class [Data]),
    - [src/ohba_models/models/mdynemo_obs.py] (class [Config],
      [_model_structure]),
    - [src/vrad/simulation/_base.py]   (class [Simulation]),
    - [osl_dynamics/utils/plotting.py] ([rough_square_axes]),
    - [src/vrad/utils/topoplots.py]    (class [Topology]: the layout table,
      [keep_channels] and the bounding box),

    followed by the properties established about them.

    Conventions.  Python exceptions are values of [Py.exception]; a call
    that may raise returns a [Py.result]; a method that mutates its object
    is a function in the state-and-exception monad [Py.M].  Floating-point
    numbers are idealised: finite values are elements of a real closed
    field and arithmetic on them is exact, while the IEEE special values
    (nan, +inf, -inf) and the rules that create and propagate them are kept
    ([Numpy.npfloat]).  Rounding, overflow and the sign of zero are not
    modelled. *)

From HB Require Import structures.
From Stdlib Require Import String.
From mathcomp Require Import boot order algebra.
From mathcomp Require Import algC.

Set Implicit Arguments.
Unset Strict Implicit.
Unset Printing Implicit Defensive.

Import GRing.Theory Num.Theory Order.Theory.

HB.instance Definition _ := hasDecEq.Build string String.eqb_spec.

(* ===================================================================== *)
(** * Python runtime: exceptions, results, the state-and-exception monad *)
(* ===================================================================== *)

Module Py.

Inductive exception : Type :=
| ValueError (msg : string)
| NameError (msg : string)
| AttributeError (msg : string)
| TypeError (msg : string)
| IndexError (msg : string).

Inductive result (A : Type) : Type :=
| Ok (a : A)
| Raise (e : exception).

Arguments Ok {A} a.
Arguments Raise {A} e.

Definition rbind {A B} (r : result A) (k : A -> result B) : result B :=
  match r with
  | Ok a => k a
  | Raise e => Raise e
  end.

(** A computation over a mutable state [S].  The state is returned in both
    outcomes: what an interrupted Python method has already written to its
    object stays written. *)
Definition M (S A : Type) : Type := S -> result A * S.

Definition ret {S A} (a : A) : M S A := fun s => (Ok a, s).

Definition raise {S A} (e : exception) : M S A := fun s => (Raise e, s).

Definition bind {S A B} (c : M S A) (k : A -> M S B) : M S B :=
  fun s => match c s with
           | (Ok a, s') => k a s'
           | (Raise e, s') => (Raise e, s')
           end.

Definition get {S} : M S S := fun s => (Ok s, s).

Definition put {S} (s : S) : M S unit := fun _ => (Ok tt, s).

Definition modify {S} (f : S -> S) : M S unit := fun s => (Ok tt, f s).

Definition lift {S A} (r : result A) : M S A := fun s => (r, s).

(** [for x in xs: body x] *)
Fixpoint for_each {S A} (xs : seq A) (body : A -> M S unit) : M S unit :=
  match xs with
  | [::] => ret tt
  | x :: xs' => bind (body x) (fun _ => for_each xs' body)
  end.

(** [[f x for x in xs]] where [f] may raise. *)
Fixpoint traverse {A B} (f : A -> result B) (xs : seq A) : result (seq B) :=
  match xs with
  | [::] => Ok [::]
  | x :: xs' =>
      rbind (f x) (fun y => rbind (traverse f xs') (fun ys => Ok (y :: ys)))
  end.

End Py.

Import Py.

Declare Scope py_scope.
Delimit Scope py_scope with py.
Notation "x <- c ;; k" := (bind c (fun x => k))
  (at level 100, c at next level, right associativity) : py_scope.
Notation "c ;;; k" := (bind c (fun _ => k))
  (at level 100, right associativity) : py_scope.
Notation "x <~ r ;; k" := (rbind r (fun x => k))
  (at level 100, r at next level, right associativity) : py_scope.

(* ===================================================================== *)
(** * vrad/data/_base.py: class Data                                      *)
(* ===================================================================== *)

Module VradData.
Section Data.

Local Open Scope py_scope.
Local Open Scope string_scope.

(** Element type of numpy arrays and the type of sampling frequencies;
    neither is inspected by [Data]. *)
Variable dtype : Type.
Variable frequency : Type.

(** A numpy array: its shape and its row-major buffer. *)
Record ndarray : Type := NdArray { shape : seq nat; buffer : seq dtype }.

Definition ndim (a : ndarray) : nat := size (shape a).

(** One entry of a list of subjects: a file name or an array. *)
Inductive item : Type :=
| ItemStr (s : string)
| ItemArray (a : ndarray).

(** [subjects : Union[str, list, np.ndarray]] *)
Inductive subjects_arg : Type :=
| SubjStr (s : string)
| SubjList (l : seq item)
| SubjArray (a : ndarray).

(** vrad.data.subject.Subject is not part of the sources: its constructor
    is a parameter.  The second argument is the keyword under which the
    identifier is passed ([_id] in [__init__], [_ids] in [add]). *)
Variable Subject : Type.
Variable Subject_init : item -> string -> nat -> frequency -> result Subject.

(** [ids : Union[int, list, np.ndarray, str]], and the [range] object that
    [prepare] builds for "all". *)
Inductive ids_arg : Type :=
| IdsInt (i : int)
| IdsSeq (l : seq int)
| IdsStr (s : string)
| IdsRange (start stop : nat).

(** vrad.data.manipulation.prepare is not part of the sources. *)
Variable manipulation_prepare :
  seq Subject -> ids_arg -> option nat -> option nat -> bool -> option nat ->
  result (seq Subject).

(** Instance attributes of a [Data] object. *)
Record Data : Type := mkData {
  n_subjects : nat;
  subjects : seq Subject;
  prepared : bool
}.

(** The object together with the records sent to the root logger. *)
Record process : Type := mkProcess {
  self : Data;
  root_log : seq (string * string)
}.

Definition logging_warning (msg : string) : M process unit :=
  modify (fun p => mkProcess (self p) (rcons (root_log p) ("WARNING", msg))).

Definition check_message : string :=
  "A 2D (single subject) or 3D (multiple subject) array must be passed.".

(** [Data.check], lines 45-62. *)
Definition check (subjects : subjects_arg) : result subjects_arg :=
  let subjects :=
    if subjects is SubjStr s then SubjList [:: ItemStr s] else subjects in
  if subjects is SubjArray a then
    if (ndim a != 2) || (ndim a != 3) then Raise (ValueError check_message)
    else if ndim a == 2 then Ok (SubjArray (NdArray (1 :: shape a) (buffer a)))
    else Ok subjects
  else Ok subjects.

(** [len(subjects)] *)
Definition len (subjects : subjects_arg) : result nat :=
  match subjects with
  | SubjStr s => Ok (String.length s)
  | SubjList l => Ok (size l)
  | SubjArray a =>
      if shape a is n :: _ then Ok n
      else Raise (TypeError "len() of unsized object")
  end.

(** [subjects[i]] for [0 <= i] *)
Definition getitem (subjects : subjects_arg) (i : nat) : result item :=
  match subjects with
  | SubjStr s =>
      if i < String.length s then Ok (ItemStr (substring i 1 s))
      else Raise (IndexError "string index out of range")
  | SubjList l =>
      if nth None [seq Some x | x <- l] i is Some x then Ok x
      else Raise (IndexError "list index out of range")
  | SubjArray a =>
      if shape a is n :: sh then
        if i < n then
          let stride := foldr muln 1 sh in
          Ok (ItemArray
                (NdArray sh (take stride (drop (i * stride) (buffer a)))))
        else Raise (IndexError "index is out of bounds for axis 0")
      else Raise (IndexError "too many indices for array")
  end.

(** [Data.__init__], lines 19-39. *)
Definition __init__ (subjects : subjects_arg) (sampling_frequency : frequency)
  : result Data :=
  subjects <~ check subjects ;;
  n <~ len subjects ;;
  loaded <~ traverse
              (fun i => x <~ getitem subjects i ;;
                        Subject_init x "_id" (i + 1) sampling_frequency)
              (iota 0 n) ;;
  Ok (mkData n loaded false).

(** [Data.add], lines 64-86. *)
Definition add (new_subjects : subjects_arg) (sampling_frequency : frequency)
  : M process unit :=
  new_subjects <- lift (check new_subjects) ;;
  n_new_subjects <- lift (len new_subjects) ;;
  modify (fun p =>
    mkProcess (mkData (n_subjects (self p) + n_new_subjects)
                      (subjects (self p)) (prepared (self p)))
              (root_log p)) ;;;
  for_each (iota 0 n_new_subjects) (fun i =>
    x <- lift (getitem new_subjects i) ;;
    p <- get ;;
    s <- lift (Subject_init x "_ids" (n_subjects (self p) + i + 1)
                 sampling_frequency) ;;
    put (mkProcess (mkData (n_subjects (self p))
                           (rcons (subjects (self p)) s)
                           (prepared (self p)))
                   (root_log p))).

Definition unknown_ids_message (ids : string) : string :=
  "ids=" ++ ids ++ " unknown in data preparation.".

Definition already_prepared_message : string :=
  "Data has already been prepared. No changes made.".

(** [Data.prepare], lines 95-121. *)
Definition prepare (ids : ids_arg) (n_embeddings n_pca_components : option nat)
    (whiten : bool) (random_seed : option nat) : M process unit :=
  let ids := if ids is IdsInt i then IdsSeq [:: i] else ids in
  ids <- (if ids is IdsStr s then
            if s == "all" then
              p <- get ;; ret (IdsRange 1 (n_subjects (self p) + 1))
            else raise (ValueError (unknown_ids_message s))
          else ret ids) ;;
  p <- get ;;
  if prepared (self p) then logging_warning already_prepared_message
  else
    prepared_subjects <-
      lift (manipulation_prepare (subjects (self p)) ids n_embeddings
              n_pca_components whiten random_seed) ;;
    p <- get ;;
    put (mkProcess (mkData (n_subjects (self p)) prepared_subjects
                           (prepared (self p))) (root_log p)) ;;;
    p <- get ;;
    put (mkProcess (mkData (n_subjects (self p)) (subjects (self p)) true)
                   (root_log p)).

(** Subject.__str__ is not part of the sources. *)
Variable Subject_str : Subject -> result string.

(** [l[i]] for a list [l] and [0 <= i]. *)
Definition list_getitem (A : Type) (l : seq A) (i : nat) : result A :=
  if nth None [seq Some x | x <- l] i is Some x then Ok x
  else Raise (IndexError "list index out of range").

(** The newline character (code 10) and the separator of line 43. *)
Definition newline : Ascii.ascii :=
  Ascii.Ascii false true false true false false false false.

Definition blank_line : string := String newline (String newline EmptyString).

(** [Data.__str__], lines 41-43. *)
Definition __str__ (self : Data) : result string :=
  return_string <~ traverse
                     (fun i => s <~ list_getitem (subjects self) i ;;
                               Subject_str s)
                     (iota 0 (n_subjects self)) ;;
  Ok (String.concat blank_line return_string).

(** [del l[i]]: a negative index counts from the end of the list. *)
Definition list_delitem (A : Type) (l : seq A) (i : int) : result (seq A) :=
  let k := (if i < 0 then i + (size l)%:Z else i)%R in
  if ((0 <= k) && (k < (size l)%:Z))%R
  then Ok (take `|k|%N l ++ drop `|k|%N.+1 l)%SEQ
  else Raise (IndexError "list assignment index out of range").

(** What [for i in ids] yields: the elements of a list or of a range, or
    the characters of a string; an int cannot be iterated. *)
Inductive id_item : Type :=
| IdInt (i : int)
| IdChar (c : Ascii.ascii).

Definition iter (ids : ids_arg) : result (seq id_item) :=
  match ids with
  | IdsInt _ => Raise (TypeError "'int' object is not iterable")
  | IdsSeq l => Ok [seq IdInt i | i <- l]
  | IdsStr s => Ok [seq IdChar c | c <- list_ascii_of_string s]
  | IdsRange start stop =>
      Ok [seq IdInt (Posz k) | k <- iota start (stop - start)]
  end.

Definition minus_message : string :=
  "unsupported operand type(s) for -: 'str' and 'int'".

(** [Data.remove], lines 88-93. *)
Definition remove (ids : ids_arg) : M process unit :=
  let ids := if ids is IdsInt i then IdsSeq [:: i] else ids in
  items <- lift (iter ids) ;;
  for_each items (fun i =>
    match i with
    | IdInt i =>
        p <- get ;;
        remaining <- lift (list_delitem (subjects (self p)) (i - 1)%R) ;;
        put (mkProcess (mkData (n_subjects (self p)) remaining
                               (prepared (self p)))
                       (root_log p))
    | IdChar _ => raise (TypeError minus_message)
    end).

End Data.
End VradData.

(* ===================================================================== *)
(** * Symmetric, positive semi-definite and positive definite matrices    *)
(* ===================================================================== *)

Module LinAlg.
Section Definitions.

Local Open Scope ring_scope.

Variable R : realFieldType.

Definition symmetric (n : nat) (A : 'M[R]_n) : Prop := A^T = A.

(** The quadratic form [x A x^T]. *)
Definition quad (n : nat) (A : 'M[R]_n) (x : 'rV[R]_n) : R :=
  (x *m A *m x^T) 0 0.

Definition psd (n : nat) (A : 'M[R]_n) : Prop :=
  symmetric A /\ forall x : 'rV[R]_n, 0 <= quad A x.

Definition pd (n : nat) (A : 'M[R]_n) : Prop :=
  symmetric A /\ forall x : 'rV[R]_n, x != 0 -> 0 < quad A x.

Definition diagonal (n : nat) (A : 'M[R]_n) : Prop :=
  forall i j : 'I_n, i != j -> A i j = 0.

End Definitions.
End LinAlg.

(* ===================================================================== *)
(** * ohba_models/models/mdynemo_obs.py                                   *)
(* ===================================================================== *)

Module MDynemoObs.

Section Config.

Local Open Scope py_scope.
Local Open Scope string_scope.

(** numpy arrays of the [initial_*] fields, and the fields declared by
    mod_base.BaseModelConfig (not part of the sources). *)
Variable ndarray : Type.
Variable BaseModelConfig : Type.

(** The dataclass [Config], lines 22-69.  A field left at its default
    [None] is [None] here. *)
Record Config : Type := mkConfig {
  base : BaseModelConfig;
  multiple_dynamics : bool;
  learn_means : option bool;
  learn_stds : option bool;
  learn_fcs : option bool;
  initial_means : option ndarray;
  initial_stds : option ndarray;
  initial_fcs : option ndarray
}.

(** Validators inherited from BaseModelConfig (not part of the sources). *)
Variable validate_dimension_parameters : Config -> result unit.
Variable validate_training_parameters : Config -> result unit.

Definition missing_flags_message : string :=
  "learn_means, learn_stds and learn_fcs must be passed.".

(** [Config.validate_observation_model_parameters], lines 76-82. *)
Definition validate_observation_model_parameters (self : Config)
  : result unit :=
  if (learn_means self == None) || (learn_stds self == None)
     || (learn_fcs self == None)
  then Raise (ValueError missing_flags_message)
  else Ok tt.

(** [Config.__post_init__], lines 71-74. *)
Definition __post_init__ (self : Config) : result unit :=
  _ <~ validate_observation_model_parameters self ;;
  _ <~ validate_dimension_parameters self ;;
  validate_training_parameters self.

(** The [__init__] that [@dataclass] generates: store the fields, then
    call [__post_init__]. *)
Definition Config_init (fields : Config) : result Config :=
  _ <~ __post_init__ fields ;; Ok fields.

End Config.

Section ModelStructure.

Local Open Scope ring_scope.

Variable R : realFieldType.
Variables n_modes n_channels : nat.

(** A position in the batch: (sequence, timestep). *)
Variable timestep : Type.

(** Modelled from the spec: MixVectorsLayer (ohba_models.inference.layers)
    is missing; 4.3 gives mixed[t] = sum_j coefficients[t,j] * vectors[j]. *)
Definition mix_vectors (coefficients : timestep -> 'rV[R]_n_modes)
    (vectors : 'I_n_modes -> 'rV[R]_n_channels)
  : timestep -> 'rV[R]_n_channels :=
  fun t => \sum_j coefficients t 0 j *: vectors j.

(** Modelled from the spec: MixMatricesLayer (ohba_models.inference.layers)
    is missing; 4.3 gives the identical weighted sum over matrices. *)
Definition mix_matrices (coefficients : timestep -> 'rV[R]_n_modes)
    (matrices : 'I_n_modes -> 'M[R]_n_channels)
  : timestep -> 'M[R]_n_channels :=
  fun t => \sum_j coefficients t 0 j *: matrices j.

(** Modelled from the spec: MatMulLayer (ohba_models.inference.layers) is
    missing; 4.3 gives combine(G, F) = C with C[t] = G[t] . F[t] . G[t]^T
    per timestep. *)
Definition combine (m n : nat) (G : timestep -> 'M[R]_(m, n))
    (F : timestep -> 'M[R]_n) : timestep -> 'M[R]_m :=
  fun t => G t *m F t *m (G t)^T.

(** The product of the three arguments in the order of the call
    [matmul_layer([G, F, G])] of line 179, without a transposition. *)
Definition matmul3 (n : nat) (A B C : timestep -> 'M[R]_n)
  : timestep -> 'M[R]_n :=
  fun t => A t *m B t *m C t.

(** Data flow of [_model_structure], lines 171-181: the mean and the
    covariance handed to the log-likelihood layer.  [mu], [E] and [D] are
    the outputs of the means, stds and fcs layers. *)
Definition _model_structure
    (mu : 'I_n_modes -> 'rV[R]_n_channels)
    (E D : 'I_n_modes -> 'M[R]_n_channels)
    (alpha gamma : timestep -> 'rV[R]_n_modes)
  : (timestep -> 'rV[R]_n_channels) * (timestep -> 'M[R]_n_channels) :=
  let m := mix_vectors alpha mu in
  let G := mix_matrices alpha E in
  let F := mix_matrices gamma D in
  let C := combine G F in
  (m, C).

End ModelStructure.

End MDynemoObs.

(* ===================================================================== *)
(** * numpy: floating-point values and reductions along axis 0            *)
(* ===================================================================== *)

Module Numpy.
Section Float.

Local Open Scope ring_scope.

Variable F : rcfType.

(** A floating-point number: a finite value or one of the special values. *)
Inductive npfloat : Type :=
| Fin (x : F)
| PInf
| NInf
| NaN.

Definition inf_of_sign (positive : bool) : npfloat :=
  if positive then PInf else NInf.

Definition fadd (a b : npfloat) : npfloat :=
  match a, b with
  | Fin x, Fin y => Fin (x + y)
  | NaN, _ | _, NaN => NaN
  | PInf, NInf | NInf, PInf => NaN
  | PInf, _ | _, PInf => PInf
  | NInf, _ | _, NInf => NInf
  end.

Definition fopp (a : npfloat) : npfloat :=
  match a with
  | Fin x => Fin (- x)
  | PInf => NInf
  | NInf => PInf
  | NaN => NaN
  end.

Definition fsub (a b : npfloat) : npfloat := fadd a (fopp b).

Definition fmul (a b : npfloat) : npfloat :=
  match a, b with
  | Fin x, Fin y => Fin (x * y)
  | NaN, _ | _, NaN => NaN
  | Fin x, PInf | PInf, Fin x => if x == 0 then NaN else inf_of_sign (0 < x)
  | Fin x, NInf | NInf, Fin x => if x == 0 then NaN else inf_of_sign (x < 0)
  | PInf, PInf | NInf, NInf => PInf
  | PInf, NInf | NInf, PInf => NInf
  end.

(** True division.  A zero divisor is taken to be +0. *)
Definition fdiv (a b : npfloat) : npfloat :=
  match a, b with
  | Fin x, Fin y =>
      if y == 0 then (if x == 0 then NaN else inf_of_sign (0 < x))
      else Fin (x / y)
  | NaN, _ | _, NaN => NaN
  | Fin _, PInf | Fin _, NInf => Fin 0
  | PInf, Fin y => inf_of_sign (0 <= y)
  | NInf, Fin y => inf_of_sign (y < 0)
  | PInf, PInf | PInf, NInf | NInf, PInf | NInf, NInf => NaN
  end.

Definition fsqrt (a : npfloat) : npfloat :=
  match a with
  | Fin x => if x < 0 then NaN else Fin (Num.sqrt x)
  | PInf => PInf
  | NInf => NaN
  | NaN => NaN
  end.

(** [np.sum(..., axis=0)] of scalars. *)
Definition fsum (I : Type) (r : seq I) (E : I -> npfloat) : npfloat :=
  \big[fadd/Fin 0]_(i <- r) E i.

Section Axis0.

Variable n : nat.

(** An array of shape [(len X, n)] is the list [X] of its rows; an array
    of shape [(len C, n, n)] is the list [C] of its matrices. *)

(** [np.sum(X, axis=0)] *)
Definition np_sum0 (X : seq 'rV[npfloat]_n) : 'rV[npfloat]_n :=
  \row_j fsum X (fun x : 'rV[npfloat]_n => x 0 j).

(** [np.mean(X, axis=0)]: the sum divided by the number of rows. *)
Definition np_mean0 (X : seq 'rV[npfloat]_n) : 'rV[npfloat]_n :=
  \row_j fdiv (np_sum0 X 0 j) (Fin (size X)%:R).

(** [np.var(X, axis=0)] with [ddof=0]: mean of the squared deviations from
    the mean. *)
Definition np_var0 (X : seq 'rV[npfloat]_n) : 'rV[npfloat]_n :=
  let arrmean := np_mean0 X in
  \row_j fdiv (fsum X (fun x : 'rV[npfloat]_n =>
                       let d := fsub (x 0 j) (arrmean 0 j) in fmul d d))
              (Fin (size X)%:R).

(** [np.std(X, axis=0)] *)
Definition np_std0 (X : seq 'rV[npfloat]_n) : 'rV[npfloat]_n :=
  \row_j fsqrt (np_var0 X 0 j).

(** [X -= v] and [X /= v] with [v] of shape [(n,)] broadcast over rows. *)
Definition isub_rows (X : seq 'rV[npfloat]_n) (v : 'rV[npfloat]_n)
  : seq 'rV[npfloat]_n :=
  map (fun x : 'rV[npfloat]_n => \row_j fsub (x 0 j) (v 0 j)) X.

Definition idiv_rows (X : seq 'rV[npfloat]_n) (v : 'rV[npfloat]_n)
  : seq 'rV[npfloat]_n :=
  map (fun x : 'rV[npfloat]_n => \row_j fdiv (x 0 j) (v 0 j)) X.

(** [np.outer(u, v)] *)
Definition np_outer (u v : 'rV[npfloat]_n) : 'M[npfloat]_n :=
  \matrix_(i, j) fmul (u 0 i) (v 0 j).

(** [C /= D[np.newaxis, ...]] with [D] of shape [(n, n)]. *)
Definition idiv_matrices (C : seq 'M[npfloat]_n) (D : 'M[npfloat]_n)
  : seq 'M[npfloat]_n :=
  map (fun A : 'M[npfloat]_n => \matrix_(i, j) fdiv (A i j) (D i j)) C.

(** [np.trace(A)] *)
Definition np_trace (A : 'M[npfloat]_n) : npfloat :=
  \big[fadd/Fin 0]_(i < n) A i i.

(** Embedding of exact arrays. *)
Definition lift_mx (m p : nat) (A : 'M[F]_(m, p)) : 'M[npfloat]_(m, p) :=
  map_mx Fin A.

End Axis0.

(** numpy broadcasting along one axis: lengths agree, or one of them is 1. *)
Definition broadcast2 (A B C : Type) (f : A -> B -> C) (xs : seq A)
    (ys : seq B) : option (seq C) :=
  if size xs == size ys then Some [seq f p.1 p.2 | p <- zip xs ys]
  else if xs is [:: x] then Some [seq f x y | y <- ys]
  else if ys is [:: y] then Some [seq f x y | x <- xs]
  else None.

End Float.

Arguments PInf {F}.
Arguments NInf {F}.
Arguments NaN {F}.

End Numpy.

(* ===================================================================== *)
(** * vrad/simulation/_base.py: class Simulation                          *)
(* ===================================================================== *)

Module VradSimulation.

(** An entry of the instance [__dict__]: absent, or bound to a value. *)
Inductive attribute (A : Type) : Type :=
| Unset
| Bound (v : A).

Arguments Unset {A}.
Arguments Bound {A} v.

Section Simulation.

Local Open Scope ring_scope.
Local Open Scope py_scope.

Variable F : rcfType.
Local Notation npfloat := (Numpy.npfloat F).
Local Notation Fin := (@Numpy.Fin F).

(** The constructor argument [n_channels].  The shapes of the arrays of a
    simulation depend on it, so it is fixed for the whole class; the
    [covariances] argument has the documented shape
    [(n_states, n_channels, n_channels)]. *)
Variable n_channels : nat.

(** numpy.random.Generator: its state, [default_rng(seed)], one draw from
    the standard normal distribution, and one draw from the multivariate
    normal distribution with the given mean and covariance. *)
Variable Generator : Type.
Variable default_rng : option nat -> Generator.
Variable standard_normal : Generator -> F * Generator.
Variable multivariate_normal_draw :
  'rV[npfloat]_n_channels -> 'M[npfloat]_n_channels -> Generator ->
  'rV[npfloat]_n_channels * Generator.

(** ** The array store

    numpy arrays are mutable objects that attributes refer to.  The store
    maps references to contents, one map per shape:
    [(n_channels,)], [(n, n_channels)] and [(n, n_channels, n_channels)]. *)

Definition ref : Type := nat.

Record heap : Type := mkHeap {
  arrays1 : ref -> 'rV[npfloat]_n_channels;
  arrays2 : ref -> seq 'rV[npfloat]_n_channels;
  arrays3 : ref -> seq 'M[npfloat]_n_channels;
  next_ref : ref
}.

Definition update (A : Type) (f : ref -> A) (l : ref) (a : A) : ref -> A :=
  fun l' => if l' == l then a else f l'.

(** ** The object *)

(** A state time course of shape [(len rows, stc_width)]. *)
Record stc_array : Type := StcArray {
  stc_width : nat;
  stc_rows : seq (stc_width.-tuple F)
}.

(** The instance attributes.  The first five are assigned from the
    constructor arguments by lines 53-58 and never reassigned
    ([n_channels] is the section variable).  The others are assigned later
    in [__init__] or by methods; [None] is [Bound None]. *)
Record Simulation : Type := mkSimulation {
  n_samples : nat;
  n_states : nat;
  sim_varying_means : bool;
  random_covariance_weights : bool;
  observation_error : F;
  state_time_course : attribute (option stc_array);
  covariances : attribute ref;
  time_series : attribute (option ref);
  _rng : attribute Generator;
  means : attribute ref;
  standard_deviations : attribute ref
}.

Definition set_state_time_course v (s : Simulation) : Simulation :=
  mkSimulation (n_samples s) (n_states s) (sim_varying_means s)
    (random_covariance_weights s) (observation_error s)
    v (covariances s) (time_series s) (_rng s) (means s)
    (standard_deviations s).

Definition set_covariances v (s : Simulation) : Simulation :=
  mkSimulation (n_samples s) (n_states s) (sim_varying_means s)
    (random_covariance_weights s) (observation_error s)
    (state_time_course s) v (time_series s) (_rng s) (means s)
    (standard_deviations s).

Definition set_time_series v (s : Simulation) : Simulation :=
  mkSimulation (n_samples s) (n_states s) (sim_varying_means s)
    (random_covariance_weights s) (observation_error s)
    (state_time_course s) (covariances s) v (_rng s) (means s)
    (standard_deviations s).

Definition set__rng v (s : Simulation) : Simulation :=
  mkSimulation (n_samples s) (n_states s) (sim_varying_means s)
    (random_covariance_weights s) (observation_error s)
    (state_time_course s) (covariances s) (time_series s) v (means s)
    (standard_deviations s).

Definition set_means v (s : Simulation) : Simulation :=
  mkSimulation (n_samples s) (n_states s) (sim_varying_means s)
    (random_covariance_weights s) (observation_error s)
    (state_time_course s) (covariances s) (time_series s) (_rng s) v
    (standard_deviations s).

Definition set_standard_deviations v (s : Simulation) : Simulation :=
  mkSimulation (n_samples s) (n_states s) (sim_varying_means s)
    (random_covariance_weights s) (observation_error s)
    (state_time_course s) (covariances s) (time_series s) (_rng s)
    (means s) v.

(** The store and the object. *)
Record state : Type := mkState { mem : heap; self : Simulation }.

Definition setattr (f : Simulation -> Simulation) : M state unit :=
  modify (fun st => mkState (mem st) (f (self st))).

Definition alloc1 (v : 'rV[npfloat]_n_channels) : M state ref :=
  fun st =>
    let h := mem st in
    (Ok (next_ref h),
     mkState (mkHeap (update (arrays1 h) (next_ref h) v) (arrays2 h)
                     (arrays3 h) (next_ref h).+1) (self st)).

Definition alloc2 (X : seq 'rV[npfloat]_n_channels) : M state ref :=
  fun st =>
    let h := mem st in
    (Ok (next_ref h),
     mkState (mkHeap (arrays1 h) (update (arrays2 h) (next_ref h) X)
                     (arrays3 h) (next_ref h).+1) (self st)).

Definition alloc3 (C : seq 'M[npfloat]_n_channels) : M state ref :=
  fun st =>
    let h := mem st in
    (Ok (next_ref h),
     mkState (mkHeap (arrays1 h) (arrays2 h)
                     (update (arrays3 h) (next_ref h) C) (next_ref h).+1)
             (self st)).

(** In-place writes: the reference stays, the contents change. *)
Definition write2 (l : ref) (X : seq 'rV[npfloat]_n_channels)
  : M state unit :=
  modify (fun st =>
    let h := mem st in
    mkState (mkHeap (arrays1 h) (update (arrays2 h) l X) (arrays3 h)
                    (next_ref h)) (self st)).

Definition write3 (l : ref) (C : seq 'M[npfloat]_n_channels)
  : M state unit :=
  modify (fun st =>
    let h := mem st in
    mkState (mkHeap (arrays1 h) (arrays2 h) (update (arrays3 h) l C)
                    (next_ref h)) (self st)).

(** ** Attribute lookup *)

(** What an attribute lookup can return.  [VForeign] is an attribute of
    the time-series array itself, which numpy provides. *)
Variable foreign : Type.
Variable ndarray_getattr :
  seq 'rV[npfloat]_n_channels -> string -> result foreign.

Inductive value : Type :=
| VNone
| VInt (n : nat)
| VBool (b : bool)
| VFloat (x : F)
| VStateTimeCourse (a : stc_array)
| VArray1 (l : ref)
| VArray2 (l : ref)
| VArray3 (l : ref)
| VGenerator (g : Generator)
| VMethod (name : string)
| VForeign (v : foreign).

Definition bound (A : Type) (inj : A -> value) (a : attribute A)
  : option value :=
  if a is Bound v then Some (inj v) else None.

Definition optional (A : Type) (inj : A -> value) (v : option A) : value :=
  if v is Some x then inj x else VNone.

(** The instance [__dict__]. *)
Definition instance_dict (s : Simulation) (attr : string) : option value :=
  if attr == "n_samples"%string then Some (VInt (n_samples s))
  else if attr == "n_channels"%string then Some (VInt n_channels)
  else if attr == "n_states"%string then Some (VInt (n_states s))
  else if attr == "sim_varying_means"%string
    then Some (VBool (sim_varying_means s))
  else if attr == "random_covariance_weights"%string
    then Some (VBool (random_covariance_weights s))
  else if attr == "observation_error"%string
    then Some (VFloat (observation_error s))
  else if attr == "state_time_course"%string
    then bound (optional VStateTimeCourse) (state_time_course s)
  else if attr == "covariances"%string then bound VArray3 (covariances s)
  else if attr == "time_series"%string
    then bound (optional VArray2) (time_series s)
  else if attr == "_rng"%string then bound VGenerator (_rng s)
  else if attr == "means"%string then bound VArray1 (means s)
  else if attr == "standard_deviations"%string
    then bound VArray1 (standard_deviations s)
  else None.

(** Names defined by the class body. *)
Definition class_attributes : seq string :=
  [:: "__init__"; "simulate"; "__array__"; "__iter__"; "__getattr__";
      "__len__"; "generate_states"; "plot_alphas"; "create_covariances";
      "simulate_data"; "standardize"; "plot_data"]%string.

Definition class_dict (attr : string) : option value :=
  if attr \in class_attributes then Some (VMethod attr) else None.

Definition not_yet_created : string :=
  "time_series has not yet been created.".

(** [self.time_series]: the instance [__dict__], then the class, then
    [__getattr__("time_series")], which raises at lines 83-84. *)
Definition getattr_time_series (st : state) : result value :=
  match instance_dict (self st) "time_series" with
  | Some v => Ok v
  | None => Raise (NameError not_yet_created)
  end.

(** [getattr(v, attr)] for the value [v] of [self.time_series]. *)
Definition getattr_of (st : state) (v : value) (attr : string)
  : result value :=
  match v with
  | VArray2 l =>
      x <~ ndarray_getattr (arrays2 (mem st) l) attr ;; Ok (VForeign x)
  | _ =>
      Raise (AttributeError
               ("'NoneType' object has no attribute '" ++ attr ++ "'")%string)
  end.

(** [Simulation.__getattr__], lines 82-87; it runs only when the normal
    lookup has failed. *)
Definition __getattr__ (st : state) (attr : string) : result value :=
  if attr == "time_series"%string then Raise (NameError not_yet_created)
  else if substring 0 2 attr == "__"%string
    then Raise (AttributeError ("No attribute called " ++ attr ++ ".")%string)
  else ts <~ getattr_time_series st ;; getattr_of st ts attr.

(** [getattr(self, attr)], i.e. [self.attr]. *)
Definition getattr (st : state) (attr : string) : result value :=
  match instance_dict (self st) attr with
  | Some v => Ok v
  | None =>
      match class_dict attr with
      | Some v => Ok v
      | None => __getattr__ st attr
      end
  end.

(** [Simulation.__array__], lines 76-77. *)
Definition __array__ (st : state) : result value := getattr st "time_series".

(** [Simulation.__iter__], lines 79-80: the one-element list iterated. *)
Definition __iter__ (st : state) : result (seq value) :=
  ts <~ getattr st "time_series" ;; Ok [:: ts].

(** [Simulation.__len__], lines 89-90. *)
Definition __len__ (st : state) : nat := 1.

(** Using the result of a lookup where the code needs a particular kind
    of object; any other kind cannot take part in the operation. *)
Definition as_generator (v : value) : result Generator :=
  if v is VGenerator g then Ok g
  else Raise (AttributeError "object has no attribute 'normal'").

Definition as_array3 (v : value) : result ref :=
  if v is VArray3 l then Ok l
  else Raise (TypeError "unsupported operand type(s)").

Definition axis_message : string :=
  "axis 0 is out of bounds for array of dimension 0".

(** The array argument of a reduction along axis 0.  [None] becomes a
    0-dimensional array, for which axis 0 is out of bounds (numpy's
    AxisError is a ValueError). *)
Definition as_array2 (v : value) : result ref :=
  match v with
  | VArray2 l => Ok l
  | VNone => Raise (ValueError axis_message)
  | _ => Raise (TypeError "unsupported operand type(s)")
  end.

Definition as_state_time_course (v : value) : result stc_array :=
  match v with
  | VStateTimeCourse a => Ok a
  | VNone => Raise (ValueError axis_message)
  | _ => Raise (TypeError "unsupported operand type(s)")
  end.

(** [self._rng], as the receiver of a sampling call. *)
Definition get_rng : M state Generator :=
  st <- get ;;
  v <- lift (getattr st "_rng") ;;
  lift (as_generator v).

(** [k] successive standard normal draws; the generator advances. *)
Fixpoint normal_draws (k : nat) (g : Generator) : seq F * Generator :=
  if k is k'.+1 then
    let: (z, g1) := standard_normal g in
    let: (zs, g2) := normal_draws k' g1 in
    (z :: zs, g2)
  else ([::], g).

(** [self._rng.normal(size=k)] flattened: draws and stores the advanced
    generator back in the object. *)
Definition rng_normal (k : nat) : M state (seq F) :=
  g <- get_rng ;;
  let: (zs, g') := normal_draws k g in
  setattr (set__rng (Bound g')) ;;;
  ret zs.

(** ** create_covariances *)

Definition fill_diagonal_message : string :=
  "All dimensions of input must be of equal length".

(** [np.fill_diagonal(a, val=1)] for a view [a] of the given 3-d shape:
    numpy requires all dimensions to be equal. *)
Definition fill_diagonal_check (shape : seq nat) : bool :=
  all (fun d => d == head 0%N shape) shape.

(** The structured weights of lines 135-141: zeros with a one written at
    [k, k, k] through the view [[:n_states, :n_states, :n_states]], whose
    shape along an axis of length [d] is [minn n_states d]. *)
Definition structured_weights (ns : nat) : result (seq 'M[F]_n_channels) :=
  if fill_diagonal_check
       [:: minn ns ns; minn ns n_channels; minn ns n_channels]
  then Ok [seq \matrix_(i, j) ((i == k :> nat) && (j == k :> nat))%:R
          | k <- iota 0 ns]
  else Raise (ValueError fill_diagonal_message).

(** The random weights of lines 131-133: [n_states * n_channels * n_channels]
    draws laid out in row-major order. *)
Definition random_weights (ns : nat) : M state (seq 'M[F]_n_channels) :=
  zs <- rng_normal (ns * (n_channels * n_channels))%N ;;
  ret [seq \matrix_(i, j)
             nth 0 zs (k * (n_channels * n_channels) + i * n_channels + j)%N
      | k <- iota 0 ns].

(** Lines 143-145 for one state: [np.eye(n_channels) * identity_factor]. *)
Definition scaled_identity (identity_factor : F) : 'M[F]_n_channels :=
  \matrix_(i, j) ((i == j)%:R * identity_factor).

(** Lines 146-148 for one state: [W @ W^T + scaled_identity]. *)
Definition unnormalised_covariance (identity_factor : F)
    (W : 'M[F]_n_channels) : 'M[F]_n_channels :=
  W *m W^T + scaled_identity identity_factor.

(** Lines 150-151 for one state: division by the trace. *)
Definition normalise (A : 'M[F]_n_channels) : 'M[npfloat]_n_channels :=
  \matrix_(i, j) Numpy.fdiv (Fin (A i j)) (Fin (\tr A)).

(** [Simulation.create_covariances], lines 115-152.  The operands of the
    products and sums are finite, so they are computed in [F]; the
    division by the trace is a floating-point division. *)
Definition create_covariances (identity_factor : F) : M state ref :=
  st <- get ;;
  tilde_cov_weights <-
    (if random_covariance_weights (self st)
     then random_weights (n_states (self st))
     else lift (structured_weights (n_states (self st)))) ;;
  let covariances_sim :=
    [seq unnormalised_covariance identity_factor W | W <- tilde_cov_weights] in
  alloc3 [seq normalise A | A <- covariances_sim].

(** The default [identity_factor=0.0001]. *)
Definition default_identity_factor : F := (10000%:R)^-1.

(** ** simulate_data *)

Definition broadcast_message : string :=
  "operands could not be broadcast together".

Definition of_broadcast (A : Type) (o : option A) : M state A :=
  if o is Some a then ret a else raise (ValueError broadcast_message).

(** Lexicographic order on rows. *)
Fixpoint lexi_le (s t : seq F) : bool :=
  match s, t with
  | [::], _ => true
  | _ :: _, [::] => false
  | x :: s', y :: t' => (x < y) || ((x == y) && lexi_le s' t')
  end.

(** [np.unique(stc, axis=0)]: the distinct rows, sorted. *)
Definition np_unique_rows (a : stc_array)
  : seq ((stc_width a).-tuple F) :=
  sort (fun s t : tuple_of (stc_width a) F => lexi_le s t)
       (undup (stc_rows a)).

(** [data[mask] = samples]: the k-th sample goes to the k-th row selected
    by the mask. *)
Fixpoint mask_assign (A : Type) (mask : seq bool) (samples data : seq A)
  : seq A :=
  match mask, data with
  | b :: mask', d :: data' =>
      if b then head d samples :: mask_assign mask' (behead samples) data'
      else d :: mask_assign mask' samples data'
  | _, _ => data
  end.

Fixpoint multivariate_normal_draws (k : nat) (mu : 'rV[npfloat]_n_channels)
    (sigma : 'M[npfloat]_n_channels) (g : Generator)
  : seq 'rV[npfloat]_n_channels * Generator :=
  if k is k'.+1 then
    let: (x, g1) := multivariate_normal_draw mu sigma g in
    let: (xs, g2) := multivariate_normal_draws k' mu sigma g1 in
    (x :: xs, g2)
  else ([::], g).

(** [self._rng.multivariate_normal(mu, sigma, size=k)]: numpy rejects a
    mean whose length differs from the side of the covariance. *)
Definition rng_multivariate_normal (mu : seq F)
    (sigma : 'M[npfloat]_n_channels) (k : nat)
  : M state (seq 'rV[npfloat]_n_channels) :=
  g <- get_rng ;;
  if size mu != n_channels
  then raise (ValueError "mean and cov must have same length")
  else
    let: (xs, g') :=
      multivariate_normal_draws k (\row_j Fin (nth 0 mu j)) sigma g in
    setattr (set__rng (Bound g')) ;;;
    ret xs.

(** Lines 163-166.  The result is a pair (number of columns, rows).
    [normal((n_states, n_channels))] passes the pair as [loc], with the
    default [scale=1.0] and no [size]: it returns the 1-d array
    [[n_states + z1, n_channels + z2]], which broadcasts as one row of
    length 2.  [np.zeros((n_states, n_channels))] has [n_states] rows. *)
Definition simulate_means : M state (nat * seq (seq F)) :=
  st <- get ;;
  if sim_varying_means (self st) then
    zs <- rng_normal 2 ;;
    ret (2%N, [:: [:: (n_states (self st))%:R + nth 0 zs 0;
                      n_channels%:R + nth 0 zs 1]])
  else ret (n_channels, nseq (n_states (self st)) (nseq n_channels 0)).

(** The body of the loop of lines 176-186 for one unique row [alpha]. *)
Definition simulate_segment (mus_sim : nat * seq (seq F)) (stc : stc_array)
    (data_sim : seq 'rV[npfloat]_n_channels)
    (alpha : (stc_width stc).-tuple F)
  : M state (seq 'rV[npfloat]_n_channels) :=
  (* mu = np.sum(mus_sim * alpha[:, np.newaxis], axis=0) *)
  weighted <- of_broadcast
    (Numpy.broadcast2 (fun (row : seq F) (a : F) => [seq x * a | x <- row])
       mus_sim.2 alpha) ;;
  let mu := [seq \sum_(row <- weighted) nth 0 row j | j <- iota 0 mus_sim.1] in
  (* sigma = np.sum(self.covariances * alpha[:, np.newaxis, np.newaxis],
                    axis=0) *)
  st <- get ;;
  c <- lift (getattr st "covariances") ;;
  l <- lift (as_array3 c) ;;
  scaled <- of_broadcast
    (Numpy.broadcast2
       (fun (C : 'M[npfloat]_n_channels) (a : F) =>
          map_mx (fun x => Numpy.fmul x (Fin a)) C)
       (arrays3 (mem st) l) alpha) ;;
  let sigma : 'M[npfloat]_n_channels :=
    \matrix_(i, j) Numpy.fsum scaled
                     (fun C : 'M[npfloat]_n_channels => C i j) in
  (* np.all(stc == alpha, axis=1) *)
  let mask := [seq row == alpha | row <- stc_rows stc] in
  samples <- rng_multivariate_normal mu sigma (count id mask) ;;
  if size mask != size data_sim
  then raise (IndexError "boolean index did not match indexed array")
  else ret (mask_assign mask samples data_sim).

Arguments simulate_segment : clear implicits.

(** [for x in xs: acc = body acc x] *)
Fixpoint for_fold (A B : Type) (body : B -> A -> M state B) (xs : seq A)
    (acc : B) : M state B :=
  match xs with
  | [::] => ret acc
  | x :: xs' => b <- body acc x ;; for_fold body xs' b
  end.

(** [Simulation.simulate_data], lines 154-191. *)
Definition simulate_data : M state ref :=
  mus_sim <- simulate_means ;;
  st <- get ;;
  v <- lift (getattr st "state_time_course") ;;
  let data_sim : seq 'rV[npfloat]_n_channels :=
    nseq (n_samples (self st)) (const_mx (Fin 0)) in
  stc <- lift (as_state_time_course v) ;;
  data_sim <- for_fold (simulate_segment mus_sim stc) (np_unique_rows stc)
                data_sim ;;
  (* data_sim += self._rng.normal(scale=self.observation_error,
                                  size=data_sim.shape) *)
  _ <- get_rng ;;
  if observation_error (self st) < 0 then raise (ValueError "scale < 0")
  else
    zs <- rng_normal (size data_sim * n_channels)%N ;;
    let noisy :=
      map (fun p : nat * 'rV[npfloat]_n_channels =>
             \row_j Numpy.fadd (p.2 0 j)
                      (Fin (observation_error (self st)
                            * nth 0 zs (p.1 * n_channels + j)%N)))
          (zip (iota 0 (size data_sim)) data_sim) in
    (* data_sim.astype(np.float32) is a new array *)
    alloc2 noisy.

(** ** simulate and __init__ *)

(** [generate_states] is abstract: the method of the subclass. *)
Variable generate_states : M state stc_array.

(** [Simulation.simulate], lines 72-74. *)
Definition simulate : M state unit :=
  stc <- generate_states ;;
  setattr (set_state_time_course (Bound (Some stc))) ;;;
  ts <- simulate_data ;;
  setattr (set_time_series (Bound (Some ts))).

(** [Simulation.__init__], lines 40-70, run on a store that may already
    hold the array passed as [covariances]. *)
Definition __init__ (n_samples n_states : nat) (sim_varying_means : bool)
    (covariances : option ref) (observation_error : F)
    (random_covariance_weights simulate_now : bool) (random_seed : option nat)
    (h : heap) : result unit * state :=
  (setattr (set_state_time_course (Bound None)) ;;;
   c <- (if covariances is Some c then ret c
         else create_covariances default_identity_factor) ;;
   setattr (set_covariances (Bound c)) ;;;
   setattr (set_time_series (Bound None)) ;;;
   setattr (set__rng (Bound (default_rng random_seed))) ;;;
   if simulate_now then simulate else ret tt)
  (mkState h
     (mkSimulation n_samples n_states sim_varying_means
        random_covariance_weights observation_error
        Unset Unset Unset Unset Unset Unset)).

(** ** standardize *)

Definition as_array1 (v : value) : result ref :=
  if v is VArray1 l then Ok l
  else Raise (TypeError "unsupported operand type(s)").

(** [Simulation.standardize], lines 193-209. *)
Definition standardize : M state unit :=
  (* self.means = np.mean(self.time_series, axis=0) *)
  st <- get ;;
  ts <- lift (getattr st "time_series") ;;
  l <- lift (as_array2 ts) ;;
  m <- alloc1 (Numpy.np_mean0 (arrays2 (mem st) l)) ;;
  setattr (set_means (Bound m)) ;;;
  (* self.standard_deviations = np.std(self.time_series, axis=0) *)
  st <- get ;;
  ts <- lift (getattr st "time_series") ;;
  l <- lift (as_array2 ts) ;;
  sd <- alloc1 (Numpy.np_std0 (arrays2 (mem st) l)) ;;
  setattr (set_standard_deviations (Bound sd)) ;;;
  (* self.time_series -= self.means *)
  st <- get ;;
  ts <- lift (getattr st "time_series") ;;
  l <- lift (as_array2 ts) ;;
  v <- lift (getattr st "means") ;;
  m <- lift (as_array1 v) ;;
  write2 l (Numpy.isub_rows (arrays2 (mem st) l) (arrays1 (mem st) m)) ;;;
  setattr (set_time_series (Bound (Some l))) ;;;
  (* self.time_series /= self.standard_deviations *)
  st <- get ;;
  ts <- lift (getattr st "time_series") ;;
  l <- lift (as_array2 ts) ;;
  v <- lift (getattr st "standard_deviations") ;;
  sd <- lift (as_array1 v) ;;
  write2 l (Numpy.idiv_rows (arrays2 (mem st) l) (arrays1 (mem st) sd)) ;;;
  setattr (set_time_series (Bound (Some l))) ;;;
  (* self.covariances /= np.outer(sd, sd)[np.newaxis, ...] *)
  st <- get ;;
  c <- lift (getattr st "covariances") ;;
  lc <- lift (as_array3 c) ;;
  v <- lift (getattr st "standard_deviations") ;;
  sd <- lift (as_array1 v) ;;
  v' <- lift (getattr st "standard_deviations") ;;
  sd' <- lift (as_array1 v') ;;
  write3 lc (Numpy.idiv_matrices (arrays3 (mem st) lc)
               (Numpy.np_outer (arrays1 (mem st) sd)
                  (arrays1 (mem st) sd'))) ;;;
  setattr (set_covariances (Bound lc)).

End Simulation.
End VradSimulation.

(* ===================================================================== *)
(** * osl_dynamics/utils/plotting.py: rough_square_axes                   *)
(* ===================================================================== *)

Module Plotting.
Section RoughSquareAxes.

Local Open Scope ring_scope.

(** Floating-point numbers, idealised as a real closed field in which
    floor and ceiling exist. *)
Variable F : archiRcfType.

(** [rough_square_axes], lines 102-127, for a non-negative integer
    [n_plots]; [n_plots ** 0.5] is its square root. *)
Definition rough_square_axes (n_plots : nat) : int * int * int :=
  let long := Num.floor (Num.sqrt (n_plots%:R : F)) in
  let short := Num.ceil (Num.sqrt (n_plots%:R : F)) in
  let short := if short * long < Posz n_plots then short + 1 else short in
  let empty := short * long - Posz n_plots in
  (short, long, empty).

End RoughSquareAxes.
End Plotting.

(* ===================================================================== *)
(** * vrad/utils/topoplots.py: class Topology                             *)
(* ===================================================================== *)

Module Topoplots.
Section Topology.

Local Open Scope ring_scope.

Variable F : rcfType.
Local Notation npfloat := (Numpy.npfloat F).

(** One row of the table that [read_lay] builds (lines 116-118): the six
    columns of a .lay file (channel_id, x, y, width, height,
    channel_name) and the flag [present]. *)
Record sensor : Type := Sensor {
  channel_id : int;
  x : F;
  y : F;
  sensor_width : F;
  sensor_height : F;
  channel_name : string;
  present : bool
}.

(** One block of an .outline file: a list of points. *)
Definition outline_block : Type := seq (F * F).

(** The attributes of a constructed [Topology]: [outline] stays None when
    the layout has no outline file (lines 55-59). *)
Record Topology : Type := mkTopology {
  layout : seq sensor;
  outline : option (seq outline_block)
}.

(** [Topology.keep_channels], lines 131-147: the rows whose name is not
    among [channel_names] get [present = False]. *)
Definition keep_channels (channel_names : seq string) (self : Topology)
  : Topology :=
  mkTopology
    [seq if channel_name s \notin channel_names
         then Sensor (channel_id s) (x s) (y s) (sensor_width s)
                (sensor_height s) (channel_name s) false
         else s
    | s <- layout self]
    (outline self).

(** [self.layout.loc[self.layout["present"], ...]] *)
Definition present_rows (self : Topology) : seq sensor :=
  [seq s <- layout self | present s].

(** The properties of lines 71-81 and 99-101. *)
Definition sensor_positions (self : Topology) : seq (F * F) :=
  [seq (x s, y s) | s <- present_rows self].

Definition sensor_deltas (self : Topology) : seq (F * F) :=
  [seq (sensor_width s, sensor_height s) | s <- present_rows self].

Definition sensor_names (self : Topology) : seq string :=
  [seq channel_name s | s <- present_rows self].

Definition channel_ids (self : Topology) : seq int :=
  [seq channel_id s | s <- present_rows self].

(** [Series.min()] and [Series.max()]: nan for an empty selection. *)
Definition series_min (values : seq F) : npfloat :=
  if values is v :: values' then Numpy.Fin (foldr Num.min v values')
  else Numpy.NaN.

Definition series_max (values : seq F) : npfloat :=
  if values is v :: values' then Numpy.Fin (foldr Num.max v values')
  else Numpy.NaN.

(** The properties of lines 83-97. *)
Definition min_x (self : Topology) : npfloat :=
  series_min [seq x s | s <- present_rows self].

Definition min_y (self : Topology) : npfloat :=
  series_min [seq y s | s <- present_rows self].

Definition max_x (self : Topology) : npfloat :=
  series_max [seq x s | s <- present_rows self].

Definition max_y (self : Topology) : npfloat :=
  series_max [seq y s | s <- present_rows self].

(** The properties [width] and [height], lines 61-69. *)
Definition width (self : Topology) : npfloat :=
  Numpy.fsub (max_x self) (min_x self).

Definition height (self : Topology) : npfloat :=
  Numpy.fsub (max_y self) (min_y self).

(** ** [Topology.plot_data], lines 149-291 *)

Section PlotData.

Local Open Scope py_scope.
Local Open Scope string_scope.

(** matplotlib is not part of the sources.  What [plot_data] asks of it is
    a parameter: a call may change the state of the library ([world]) and
    may raise. *)
Variables (world figure axes colormap mappable pyobject : Type).

(** [plt.subplots(figsize=(15, 15))], [axis.get_figure()],
    [axis.set_aspect(...)] and [matplotlib.cm.get_cmap(...)]. *)
Variable plt_subplots : M world (figure * axes).
Variable get_figure : axes -> M world figure.
Variable set_aspect : axes -> string -> M world unit.
Variable cm_get_cmap : string -> M world colormap.

(** The attribute [matplotlib.cm.ScalarMappable]: looking it up may raise,
    and what it gives is called with two arguments. *)
Variable cm_ScalarMappable : result (pyobject -> colormap -> M world mappable).

(** Lines 201-289, which draw on [axis] with the [mappable] of line 199. *)
Variable draw :
  Topology -> seq npfloat -> bool -> bool -> option string -> bool -> bool ->
  figure -> axes -> mappable -> M world unit.

(** The names bound at the top level of the module (lines 1-47), and the
    names every module has. *)
Definition module_globals : seq string :=
  [:: "logging"; "Path"; "List"; "Union"; "matplotlib"; "plt"; "np"; "pd";
      "make_axes_locatable"; "griddata"; "_logger"; "available_layouts";
      "get_layout"; "available_outlines"; "get_outline"; "Topology";
      "__name__"; "__doc__"; "__package__"; "__loader__"; "__spec__";
      "__file__"; "__cached__"; "__builtins__"].

(** The names of Python's [builtins] module and the objects that the
    global and built-in names stand for. *)
Variable builtins : seq string.
Variable global_value : string -> pyobject.

(** Reading, in the body of a function, a name that the function binds
    nowhere (it is no parameter and no target of an assignment, loop or
    import): the module's globals, then the built-ins. *)
Definition load_global (name : string) : result pyobject :=
  if (name \in module_globals) || (name \in builtins)
  then Ok (global_value name)
  else Raise (NameError ("name '" ++ name ++ "' is not defined")).

(** [Topology.plot_data].  [max_value] and [min_value] are read by no
    statement: the one that did, line 193, is a comment, and it was the
    one that bound [norm]. *)
Definition plot_data (self : Topology) (data : seq npfloat)
    (plot_boxes show_names : bool) (title : option string)
    (show_deleted_sensors colorbar : bool) (axis : option axes)
    (max_value min_value : option F) : M world figure :=
  fig_axis <- (if axis is Some axis
               then fig <- get_figure axis ;; ret (fig, axis)
               else plt_subplots) ;;
  let: (fig, axis) := fig_axis in
  set_aspect axis "equal" ;;;
  cmap <- cm_get_cmap "plasma" ;;
  ScalarMappable <- lift cm_ScalarMappable ;;
  norm <- lift (load_global "norm") ;;
  mappable <- ScalarMappable norm cmap ;;
  draw self data plot_boxes show_names title show_deleted_sensors colorbar
    fig axis mappable ;;;
  ret fig.

End PlotData.

End Topology.
End Topoplots.

(* ===================================================================== *)
(** * Vocabulary of the statements                                        *)
(* ===================================================================== *)

Section DataVocabulary.

Import VradData.

Variable Subject : Type.

(** The [ids] that [prepare] accepts: anything but a string other than
    "all". *)
Definition ids_known (ids : ids_arg) : bool :=
  if ids is IdsStr s then s == "all"%string else true.

(** What lines 104-111 turn an accepted [ids] into. *)
Definition normalised_ids (n_subjects : nat) (ids : ids_arg) : ids_arg :=
  match ids with
  | IdsInt i => IdsSeq [:: i]
  | IdsStr _ => IdsRange 1 (n_subjects + 1)
  | _ => ids
  end.

(** The process after the warning of line 115 has been logged. *)
Definition warned (p : process Subject) : process Subject :=
  mkProcess (self p)
    (rcons (root_log p) ("WARNING"%string, already_prepared_message)).

(** The process in which [subs] has become the list of subjects. *)
Definition with_subjects (subs : seq Subject) (p : process Subject)
  : process Subject :=
  mkProcess (mkData (n_subjects (self p)) subs (prepared (self p)))
            (root_log p).

(** The entries of [l] whose 1-based position is not in [ks]; [kept_from]
    is the same for a list whose first entry has position [first + 1]. *)
Definition kept_from (A : Type) (first : nat) (ks : seq nat) (l : seq A)
  : seq A :=
  mask [seq i.+1 \notin ks | i <- iota first (size l)] l.

Definition without (A : Type) (ks : seq nat) (l : seq A) : seq A :=
  kept_from 0 ks l.

End DataVocabulary.

Section ConcreteContainers.

Import VradData.

(** Subjects represented by the identifier they were given; the
    constructor [numbered_unless bad] fails for the identifier [bad]. *)
Definition numbered (_ : item unit) (_ : string) (id : nat) (_ : unit)
  : result nat :=
  Ok id.

Definition numbered_unless (bad : nat) (_ : item unit) (_ : string)
    (id : nat) (_ : unit) : result nat :=
  if id == bad then Raise (TypeError "unexpected keyword argument") else Ok id.

Definition described (_ : nat) : result string := Ok "subject"%string.

Definition two_files : seq (item unit) :=
  [:: ItemStr unit "a"; ItemStr unit "b"].

Definition one_subject : process nat :=
  mkProcess (mkData 1 [:: 1%N] false) [::].

Definition three_subjects : process nat :=
  mkProcess (mkData 3 [:: 10; 20; 30]%N false) [::].

End ConcreteContainers.

Section ExactStatistics.

Import Numpy.
Local Open Scope ring_scope.

Variable F : rcfType.
Variable n : nat.

(** Column mean, variance (ddof = 0) and standard deviation of exact data,
    and the z-transform. *)
Definition mean0 (X : seq 'rV[F]_n) : 'rV[F]_n :=
  \row_j ((\sum_(x <- X) x 0 j) / (size X)%:R).

Definition var0 (X : seq 'rV[F]_n) : 'rV[F]_n :=
  \row_j ((\sum_(x <- X) (x 0 j - mean0 X 0 j) ^+ 2) / (size X)%:R).

Definition std0 (X : seq 'rV[F]_n) : 'rV[F]_n :=
  \row_j Num.sqrt (var0 X 0 j).

Definition zscore (X : seq 'rV[F]_n) : seq 'rV[F]_n :=
  map (fun x : 'rV[F]_n => \row_j ((x 0 j - mean0 X 0 j) / std0 X 0 j)) X.

(** Exact data as floating-point data. *)
Definition lift_rows (X : seq 'rV[F]_n) : seq 'rV[npfloat F]_n :=
  map (@lift_mx F 1 n) X.

(** Exact covariances divided by the outer product of the deviations. *)
Definition rescale (sd : 'rV[F]_n) (C : seq 'M[F]_n) : seq 'M[F]_n :=
  map (fun A : 'M[F]_n => \matrix_(i, j) (A i j / (sd 0 i * sd 0 j))) C.

(** A matrix divided by its trace, in exact arithmetic. *)
Definition trace_normalised (B : 'M[F]_n) : 'M[F]_n := (\tr B)^-1 *: B.

End ExactStatistics.

Section SimulationVocabulary.

Import Numpy VradSimulation.
Local Open Scope ring_scope.

Variable F : rcfType.
Variable n_channels : nat.
Variable Generator : Type.
Variable default_rng : option nat -> Generator.
Variable standard_normal : Generator -> F * Generator.
Variable multivariate_normal_draw :
  'rV[npfloat F]_n_channels -> 'M[npfloat F]_n_channels -> Generator ->
  'rV[npfloat F]_n_channels * Generator.

Local Notation state := (state F n_channels Generator).

(** The weights of the structured branch: for state [k], a single one at
    position [(k, k)]. *)
Definition structured (ns : nat) : seq 'M[F]_n_channels :=
  [seq \matrix_(i, j) ((i == k :> nat) && (j == k :> nat))%:R | k <- iota 0 ns].

(** The weights of the random branch, drawn from the generator [g]. *)
Definition drawn (ns : nat) (g : Generator) : seq 'M[F]_n_channels :=
  [seq \matrix_(i, j)
         nth 0 (normal_draws standard_normal
                  (ns * (n_channels * n_channels)) g).1
               (k * (n_channels * n_channels) + i * n_channels + j)%N
  | k <- iota 0 ns].

(** The covariance of state [k] in closed form when the weights are
    structured: a diagonal matrix with (1 + f) / (1 + n_channels f) at
    position (k, k) and f / (1 + n_channels f) elsewhere on the
    diagonal. *)
Definition structured_covariance (f : F) (k : nat) : 'M[F]_n_channels :=
  \matrix_(i, j)
    (if i == j then ((i == k :> nat)%:R + f) / (1 + n_channels%:R * f)
     else 0).

(** Lines 143-151 applied to the weights [W]. *)
Definition covariances_of (f : F) (W : seq 'M[F]_n_channels)
  : seq 'M[npfloat F]_n_channels :=
  [seq normalise A | A <- [seq unnormalised_covariance f W_k | W_k <- W]].

(** The state after a new array of shape (n, n_channels, n_channels) has
    been allocated. *)
Definition allocated3 (st : state) (C : seq 'M[npfloat F]_n_channels)
  : state :=
  mkState (mkHeap (arrays1 (mem st)) (arrays2 (mem st))
                  (update (arrays3 (mem st)) (next_ref (mem st)) C)
                  (next_ref (mem st)).+1)
          (self st).

(** The object after lines 53-58. *)
Definition fresh (n_samples n_states : nat) (sim_varying_means : bool)
    (observation_error : F) (random_covariance_weights : bool)
  : Simulation F Generator :=
  mkSimulation n_samples n_states sim_varying_means random_covariance_weights
    observation_error Unset Unset Unset Unset Unset Unset.

(** The object after line 67, with covariances [c]. *)
Definition constructed (n_samples n_states : nat) (sim_varying_means : bool)
    (observation_error : F) (random_covariance_weights : bool) (c : ref)
    (random_seed : option nat) : Simulation F Generator :=
  mkSimulation n_samples n_states sim_varying_means random_covariance_weights
    observation_error (Bound None) (Bound c) (Bound None)
    (Bound (default_rng random_seed)) Unset Unset.

(** The state that [standardize] leaves behind when the time series is
    the array [l] and the covariances are the array [lc]. *)
Definition standardized (l lc : ref) (st : state) : state :=
  let h := mem st in
  let X := arrays2 h l in
  let m := next_ref h in
  let sd := (next_ref h).+1 in
  let mu := np_mean0 X in
  let sigma := np_std0 X in
  mkState
    (mkHeap (update (update (arrays1 h) m mu) sd sigma)
            (update (update (arrays2 h) l (isub_rows X mu)) l
               (idiv_rows (isub_rows X mu) sigma))
            (update (arrays3 h) lc
               (idiv_matrices (arrays3 h lc) (np_outer sigma sigma)))
            (next_ref h).+2)
    (set_covariances (Bound lc)
       (set_time_series (Bound (Some l))
          (set_time_series (Bound (Some l))
             (set_standard_deviations (Bound sd)
                (set_means (Bound m) (self st)))))).

(** What the loop of [simulate_data] keeps fixed: the store, every
    attribute but the generator, and the presence of a generator. *)
Definition same_but_rng (st st' : state) : Prop :=
  [/\ mem st' = mem st,
      exists g, _rng (self st') = Bound g
    & forall v, set__rng v (self st') = set__rng v (self st)].

(** The covariance of the mixture [alpha]: sum_j alpha_j * C_j. *)
Definition mixture_covariance (C : seq 'M[npfloat F]_n_channels)
    (alpha : seq F) : 'M[npfloat F]_n_channels :=
  \matrix_(i, j)
    fsum (zip C alpha)
         (fun p : 'M[npfloat F]_n_channels * F => fmul (p.1 i j) (Fin p.2)).

(** [x] is one multivariate normal draw with mean [mu] and covariance
    [sigma], from some state of the generator. *)
Definition is_draw (mu : 'rV[npfloat F]_n_channels)
    (sigma : 'M[npfloat F]_n_channels) (x : 'rV[npfloat F]_n_channels)
  : Prop :=
  exists g : Generator, x = (multivariate_normal_draw mu sigma g).1.

(** The invariant of the loop of [simulate_data] with zero means: a
    timestep whose mixture vector has been processed holds a draw with
    mean 0 and the covariance of its mixture; the others still hold
    zeros. *)
Definition drawn_rows (a : stc_array F) (C : seq 'M[npfloat F]_n_channels)
    (processed : pred ((stc_width a).-tuple F))
    (data : seq 'rV[npfloat F]_n_channels) : Prop :=
  forall t : nat, (t < size (stc_rows a))%N ->
    let r := nth [tuple of nseq (stc_width a) 0] (stc_rows a) t in
    if processed r
    then is_draw (const_mx (Fin 0)) (mixture_covariance C r)
                 (nth (const_mx (Fin 0)) data t)
    else nth (const_mx (Fin 0)) data t = const_mx (Fin 0).

(** The state in which the generator has advanced to [g]. *)
Definition advanced (g : Generator) (st : state) : state :=
  mkState (mem st) (set__rng (Bound g) (self st)).

(** The state after a new array of shape (n, n_channels) has been
    allocated. *)
Definition allocated2 (st : state) (X : seq 'rV[npfloat F]_n_channels)
  : state :=
  mkState (mkHeap (arrays1 (mem st))
                  (update (arrays2 (mem st)) (next_ref (mem st)) X)
                  (arrays3 (mem st)) (next_ref (mem st)).+1)
          (self st).

(** Row [t] of the array that [simulate_data] returns when the loop has
    produced [data] and the noise draws are [zs]. *)
Definition with_noise (sigma : F) (zs : seq F)
    (data : seq 'rV[npfloat F]_n_channels) (t : nat)
  : 'rV[npfloat F]_n_channels :=
  \row_j fadd (nth (const_mx (Fin 0)) data t 0 j)
            (Fin (sigma * nth 0 zs (t * n_channels + j)%N)).

(** The message of numpy's multivariate_normal. *)
Definition length_mismatch : string := "mean and cov must have same length".

End SimulationVocabulary.

Section ConcreteSimulations.

Import Numpy VradSimulation.
Local Open Scope ring_scope.

(** A degenerate generator over the real algebraic numbers: every normal
    draw is 0 and a multivariate draw returns its mean.  numpy attributes
    of the time series are not needed. *)
Definition zero_normal (g : unit) : algR * unit := (0, g).

Definition mean_draw (n : nat) (mu : 'rV[npfloat algR]_n)
    (sigma : 'M[npfloat algR]_n) (g : unit) : 'rV[npfloat algR]_n * unit :=
  (mu, g).

Definition no_attribute (n : nat) (X : seq 'rV[npfloat algR]_n)
    (attr : string) : result unit :=
  Raise (AttributeError attr).

Definition seeded (seed : option nat) : unit := tt.

Definition no_states (n : nat) : M (state algR n unit) (stc_array algR) :=
  ret (StcArray (stc_width := 1) [::]).

(** A store with the covariances [C] at reference 0 and the time series
    [X] at reference 1. *)
Definition store (n : nat) (C : seq 'M[npfloat algR]_n)
    (X : seq 'rV[npfloat algR]_n) : heap algR n :=
  mkHeap (fun _ => const_mx (Fin 0))
         (update (fun _ => [::]) 1%N X)
         (update (fun _ => [::]) 0%N C)
         2.

Definition empty_store (n : nat) : heap algR n :=
  mkHeap (fun _ => const_mx (Fin 0)) (fun _ => [::]) (fun _ => [::]) 0.

(** A simulated object: one state, covariances at 0, time series at 1. *)
Definition simulated (n_samples : nat) : Simulation algR unit :=
  mkSimulation n_samples 1 false false 0
    (Bound (Some (StcArray (nseq n_samples [tuple (1 : algR)]))))
    (Bound 0%N) (Bound (Some 1%N)) (Bound tt) Unset Unset.

(** Two samples of one channel: 0 and 2. *)
Definition two_samples : seq 'rV[algR]_1 := [:: const_mx 0; const_mx 2].

Definition two_sample_state : state algR 1 unit :=
  mkState (store [:: lift_mx 1%:M] (lift_rows two_samples)) (simulated 2).

(** One sample of one channel, so that the channel is constant. *)
Definition one_sample : seq 'rV[algR]_1 := [:: const_mx 5].

Definition one_sample_state : state algR 1 unit :=
  mkState (store [:: lift_mx 1%:M] (lift_rows one_sample)) (simulated 1).

(** An object on which [create_covariances] is called: no arrays yet. *)
Definition bare (n_states : nat) (random_covariance_weights : bool)
    (rng : attribute unit) (ts : attribute (option ref))
  : Simulation algR unit :=
  mkSimulation 1 n_states false random_covariance_weights 0
    (Bound None) Unset ts rng Unset Unset.

(** Three channels, two states, one sample in state 0, unit covariances,
    and means asked to vary. *)
Definition varying_means_state : state algR 3 unit :=
  mkState
    (mkHeap (fun _ => const_mx (Fin 0)) (fun _ => [::])
            (update (fun _ => [::]) 0%N [:: lift_mx 1%:M; lift_mx 1%:M]) 1)
    (mkSimulation 1 2 true false 0
       (Bound (Some (StcArray [:: [tuple (1 : algR); 0]])))
       (Bound 0%N) (Bound None) (Bound tt) Unset Unset).

(** A subclass whose [generate_states] returns [k] timesteps, all in the
    single state 0. *)
Definition constant_states (n k : nat)
  : M (state algR n unit) (stc_array algR) :=
  ret (StcArray (nseq k [tuple (1 : algR)])).

(** An object after [generate_states] and before [simulate_data]: one
    channel, one state with the identity as its covariance (at reference
    0), [rows] timesteps in that state, no time series yet. *)
Definition generated_state (n_samples : nat) (observation_error : algR)
    (rows : nat) : state algR 1 unit :=
  mkState (store [:: lift_mx 1%:M] [::])
    (mkSimulation n_samples 1 false false observation_error
       (Bound (Some (StcArray (nseq rows [tuple (1 : algR)]))))
       (Bound 0%N) (Bound None) (Bound tt) Unset Unset).

End ConcreteSimulations.

Section ConcreteTopologies.

Import Topoplots.
Local Open Scope ring_scope.

(** A layout with two sensors, "A" at (0, 0) and "B" at (3, 4), and no
    outline. *)
Definition two_sensors : Topology algR :=
  mkTopology [:: Sensor 1 0 0 1 1 "A" true; Sensor 2 3 4 1 1 "B" true] None.

(** The built-in functions and constants of Python 3.8. *)
Definition python_builtins : seq string :=
  [:: "abs"; "all"; "any"; "ascii"; "bin"; "bool"; "breakpoint";
      "bytearray"; "bytes"; "callable"; "chr"; "classmethod"; "compile";
      "complex"; "delattr"; "dict"; "dir"; "divmod"; "enumerate"; "eval";
      "exec"; "filter"; "float"; "format"; "frozenset"; "getattr";
      "globals"; "hasattr"; "hash"; "help"; "hex"; "id"; "input"; "int";
      "isinstance"; "issubclass"; "iter"; "len"; "list"; "locals"; "map";
      "max"; "memoryview"; "min"; "next"; "object"; "oct"; "open"; "ord";
      "pow"; "print"; "property"; "range"; "repr"; "reversed"; "round";
      "set"; "setattr"; "slice"; "sorted"; "staticmethod"; "str"; "sum";
      "super"; "tuple"; "type"; "vars"; "zip"; "__import__"; "False";
      "True"; "None"; "NotImplemented"; "Ellipsis"; "__debug__"]%string.

(** A plotting library every call of which succeeds; its state counts the
    calls made. *)
Definition counted (A : Type) (a : A) : M nat A :=
  fun calls => (Ok a, calls.+1).

End ConcreteTopologies.

(* ===================================================================== *)
(** * Properties of Data                                                  *)
(* ===================================================================== *)

Section DataProperties.

Import VradData.

Variables dtype frequency Subject : Type.
Variable Subject_init :
  item dtype -> string -> nat -> frequency -> result Subject.
Variable manipulation_prepare :
  seq Subject -> ids_arg -> option nat -> option nat -> bool -> option nat ->
  result (seq Subject).

Local Notation prepare := (prepare manipulation_prepare).
Local Notation process := (process Subject).

(** The rank test of line 54 holds for every rank. *)
Lemma rank_test_always (n : nat) : (n != 2) || (n != 3).
Proof. by case: n => [|[|[|[|n]]]]. Qed.

Lemma check_ndarray (a : ndarray dtype) :
  check (SubjArray a) = Raise (ValueError check_message).
Proof. by rewrite /check rank_test_always. Qed.

(** C9.  [Data.check] raises ValueError for every numpy array, whatever its
    rank (2-d and 3-d included); hence neither the constructor nor [add]
    accepts an array: both raise the same error, and [add] leaves the
    object as it was. *)
Theorem check_rejects_every_ndarray (a : ndarray dtype) :
  check (SubjArray a) = Raise (ValueError check_message)
  /\ (forall sampling_frequency,
        __init__ Subject_init (SubjArray a) sampling_frequency
        = Raise (ValueError check_message))
  /\ (forall sampling_frequency (p : process),
        add Subject_init (SubjArray a) sampling_frequency p
        = (Raise (ValueError check_message), p)).
Proof.
split; first exact: check_ndarray.
split=> [sf|sf p].
- by rewrite /__init__ check_ndarray.
- by rewrite /add /bind /lift check_ndarray.
Qed.

(** C10 (amended).  For [ids] that is an int, a list, or the string "all":
    on a prepared object [prepare] logs one warning, raises nothing and
    leaves [subjects], [n_subjects] and [prepared] as they were; on an
    object that is not prepared, when manipulation.prepare returns, the
    subjects are replaced by its result and [prepared] becomes True.  For
    any other string a ValueError is raised and nothing changes, prepared
    or not. *)
Theorem prepare_respects_flag (p : process) (ids : ids_arg)
    (n_embeddings n_pca_components : option nat) (whiten : bool)
    (random_seed : option nat) :
  (ids_known ids ->
   prepared (self p) ->
   prepare ids n_embeddings n_pca_components whiten random_seed p
   = (Ok tt, warned p))
  /\ (ids_known ids ->
      ~~ prepared (self p) ->
      forall prepared_subjects,
        manipulation_prepare (subjects (self p))
          (normalised_ids (n_subjects (self p)) ids)
          n_embeddings n_pca_components whiten random_seed
        = Ok prepared_subjects ->
        prepare ids n_embeddings n_pca_components whiten random_seed p
        = (Ok tt,
           mkProcess (mkData (n_subjects (self p)) prepared_subjects true)
                     (root_log p)))
  /\ (forall s, ids = IdsStr s -> s != "all"%string ->
      prepare ids n_embeddings n_pca_components whiten random_seed p
      = (Raise (ValueError (unknown_ids_message s)), p)).
Proof.
split; [|split].
- move=> known is_prepared.
  rewrite /VradData.prepare /bind /get /ret /raise.
  case: ids known => [i|l|s|lo hi] //=; rewrite ?is_prepared //.
  by move=> ->; rewrite /= is_prepared.
- move=> known not_prepared subs.
  rewrite /VradData.prepare /bind /get /ret /raise /lift /put.
  case: ids known => [i|l|s|lo hi] /=.
  + by move=> _; rewrite (negbTE not_prepared) => ->.
  + by move=> _; rewrite (negbTE not_prepared) => ->.
  + by move=> ->; rewrite /= (negbTE not_prepared) => ->.
  + by move=> _; rewrite (negbTE not_prepared) => ->.
- move=> s -> not_all.
  by rewrite /VradData.prepare /bind /raise /= (negbTE not_all).
Qed.

End DataProperties.

(** Witness for [prepare_respects_flag]: one subject, first prepared with ids
    "all" (accepted), then asked again, then asked with an unknown
    string. *)
Lemma prepare_respects_flag_witness :
  let prepare_fn := fun (s : seq nat) (_ : VradData.ids_arg)
                        (_ _ : option nat) (_ : bool) (_ : option nat) =>
                      Ok [seq x.+1 | x <- s] in
  let fresh := VradData.mkProcess (VradData.mkData 1 [:: 7] false) [::] in
  let done := VradData.mkProcess (VradData.mkData 1 [:: 8] true) [::] in
  [/\ VradData.prepare prepare_fn (VradData.IdsStr "all")
        None None false None fresh = (Ok tt, done),
      VradData.prepare prepare_fn (VradData.IdsStr "all")
        None None false None done = (Ok tt, warned done)
    & VradData.prepare prepare_fn (VradData.IdsStr "some")
        None None false None done
      = (Raise (ValueError (VradData.unknown_ids_message "some")), done)].
Proof.
move=> prepare_fn fresh done.
have [_ [unprepared _]] :=
  prepare_respects_flag prepare_fn fresh (VradData.IdsStr "all")
    None None false None.
have [is_prepared _] :=
  prepare_respects_flag prepare_fn done (VradData.IdsStr "all")
    None None false None.
have [_ [_ unknown]] :=
  prepare_respects_flag prepare_fn done (VradData.IdsStr "some")
    None None false None.
split.
- exact: (unprepared (erefl _) (erefl _) [:: 8] (erefl _)).
- exact: (is_prepared (erefl _) (erefl _)).
- exact: (unknown "some"%string (erefl _) (erefl _)).
Defined.

(** C10 as stated fails: on a prepared object, [prepare] with an unknown
    string for [ids] raises ValueError. *)
Lemma prepare_prepared_raises :
  let prepare_fn := fun (s : seq nat) (_ : VradData.ids_arg)
                        (_ _ : option nat) (_ : bool) (_ : option nat) =>
                      Ok s in
  let done := VradData.mkProcess (VradData.mkData 1 [:: 8] true) [::] in
  VradData.prepared (VradData.self done) = true
  /\ VradData.prepare prepare_fn (VradData.IdsStr "one")
       None None false None done
     = (Raise (ValueError "ids=one unknown in data preparation."), done).
Proof. by []. Qed.

(* ===================================================================== *)
(** * Properties of the M-DyNeMo observation model                        *)
(* ===================================================================== *)

Section ConfigProperties.

Import MDynemoObs.

Variables ndarray BaseModelConfig : Type.
Local Notation Config := (Config ndarray BaseModelConfig).
Variable validate_dimension_parameters : Config -> result unit.
Variable validate_training_parameters : Config -> result unit.

Local Notation Config_init :=
  (Config_init validate_dimension_parameters validate_training_parameters).

(** C8.  If one of [learn_means], [learn_stds], [learn_fcs] is left None,
    constructing the Config raises ValueError: the other validators are
    not consulted and nothing that consumes the Config (building the
    computation graph) runs.  If all three are given, the check of the
    observation-model parameters passes and construction raises only if
    one of the inherited validators does. *)
Theorem config_requires_learn_flags (fields : Config) :
  (learn_means fields = None \/ learn_stds fields = None
   \/ learn_fcs fields = None ->
   Config_init fields = Raise (ValueError missing_flags_message)
   /\ forall (graph : Type) (build : Config -> result graph),
        rbind (Config_init fields) build
        = Raise (ValueError missing_flags_message))
  /\ (learn_means fields <> None -> learn_stds fields <> None ->
      learn_fcs fields <> None ->
      validate_observation_model_parameters fields = Ok tt
      /\ Config_init fields
         = rbind (validate_dimension_parameters fields) (fun _ =>
           rbind (validate_training_parameters fields) (fun _ => Ok fields))).
Proof.
split.
- move=> missing.
  have raised : validate_observation_model_parameters fields
                = Raise (ValueError missing_flags_message).
    rewrite /validate_observation_model_parameters.
    by case: missing => [->|[->|->]] //=; rewrite ?orbT.
  have init_raised : Config_init fields
                     = Raise (ValueError missing_flags_message).
    by rewrite /MDynemoObs.Config_init /__post_init__ raised.
  by split=> [|graph build] //; rewrite init_raised.
- move=> means_given stds_given fcs_given.
  have passed : validate_observation_model_parameters fields = Ok tt.
    rewrite /validate_observation_model_parameters.
    case: (learn_means fields) means_given => [b|] // _.
    case: (learn_stds fields) stds_given => [b'|] // _.
    by case: (learn_fcs fields) fcs_given.
  split=> //.
  rewrite /MDynemoObs.Config_init /__post_init__ passed /=.
  case: (validate_dimension_parameters fields) => [[]|e] //=.
Qed.

End ConfigProperties.

(** Witness for [config_requires_learn_flags]: [learn_fcs] omitted, and
    all three flags given. *)
Lemma config_requires_learn_flags_witness :
  let accept := fun _ : MDynemoObs.Config unit unit => Ok tt in
  let partial := MDynemoObs.mkConfig tt true (Some true) (Some false) None
                   (None : option unit) None None in
  let full := MDynemoObs.mkConfig tt true (Some true) (Some false)
                (Some true) (None : option unit) None None in
  MDynemoObs.Config_init accept accept partial
  = Raise (ValueError MDynemoObs.missing_flags_message)
  /\ MDynemoObs.Config_init accept accept full = Ok full.
Proof.
move=> accept partial full; split.
- have [missing _] := config_requires_learn_flags accept accept partial.
  by have [-> _] := missing (or_intror (or_intror (erefl _))).
- have [_ given] := config_requires_learn_flags accept accept full.
  by have [_ ->] := given (fun e => let: erefl := e in I)
                          (fun e => let: erefl := e in I)
                          (fun e => let: erefl := e in I).
Defined.

Section ObservationModelProperties.

Import LinAlg MDynemoObs.
Local Open Scope ring_scope.

Variable R : realFieldType.

(** The quadratic form of a congruence transform. *)
Lemma quad_congruence (m n : nat) (G : 'M[R]_(m, n)) (A : 'M[R]_n)
    (x : 'rV[R]_m) :
  quad (G *m A *m G^T) x = quad A (x *m G).
Proof. by rewrite /quad trmx_mul !mulmxA. Qed.

Lemma symmetric_congruence (m n : nat) (G : 'M[R]_(m, n)) (A : 'M[R]_n) :
  symmetric A -> symmetric (G *m A *m G^T).
Proof.
by rewrite /symmetric => symA; rewrite !trmx_mul trmxK symA mulmxA.
Qed.

Lemma psd_congruence (m n : nat) (G : 'M[R]_(m, n)) (A : 'M[R]_n) :
  psd A -> psd (G *m A *m G^T).
Proof.
case=> symA posA; split; first exact: symmetric_congruence.
by move=> x; rewrite quad_congruence.
Qed.

Variables n_modes n_channels : nat.
Variable timestep : Type.


(** A mixture of diagonal matrices is diagonal, and for a diagonal [G] the
    product in the order of the call [matmul_layer([G, F, G])] is the
    congruence transform. *)
Lemma mix_matrices_diagonal (E : 'I_n_modes -> 'M[R]_n_channels)
    (alpha : timestep -> 'rV[R]_n_modes) (t : timestep) :
  (forall k, diagonal (E k)) -> diagonal (mix_matrices alpha E t).
Proof.
move=> diagE i j neq_ij; rewrite /mix_matrices summxE big1 // => k _.
by rewrite mxE diagE // mulr0.
Qed.

Lemma diagonal_symmetric (n : nat) (A : 'M[R]_n) : diagonal A -> symmetric A.
Proof.
move=> diagA; apply/matrixP => i j; rewrite mxE.
have [->//|neq_ij] := eqVneq i j.
by rewrite !diagA // eq_sym.
Qed.

Lemma matmul3_diagonal (n : nat) (G F : timestep -> 'M[R]_n) (t : timestep) :
  diagonal (G t) -> matmul3 G F G t = combine G F t.
Proof. by move=> /diagonal_symmetric symG; rewrite /matmul3 /combine symG. Qed.

End ObservationModelProperties.


(* ===================================================================== *)
(** * Exact statistics along axis 0 and their floating-point counterparts *)
(* ===================================================================== *)

Section Statistics.

Import Numpy.
Local Open Scope ring_scope.

Variable F : rcfType.
Variable n : nat.

Local Notation npfloat := (npfloat F).

Lemma fsum_lift (I : Type) (r : seq I) (E : I -> F) :
  fsum r (fun i => Fin (E i)) = Fin (\sum_(i <- r) E i).
Proof.
rewrite /fsum; elim: r => [|i r IH]; first by rewrite !big_nil.
by rewrite !big_cons IH.
Qed.

Lemma sumr_const_seq (I : Type) (r : seq I) (c : F) :
  \sum_(i <- r) c = (size r)%:R * c.
Proof.
elim: r => [|i r IH]; first by rewrite big_nil mul0r.
by rewrite big_cons IH /= -[in RHS]addn1 natrD mulrDl mul1r addrC.
Qed.

Lemma size_neq0_natr (r : seq 'rV[F]_n) :
  r != [::] -> (size r)%:R != 0 :> F.
Proof. by case: r => [|x r] // _; rewrite pnatr_eq0. Qed.

Lemma var0_ge0 (X : seq 'rV[F]_n) (j : 'I_n) : 0 <= var0 X 0 j.
Proof.
rewrite mxE divr_ge0 ?ler0n //.
by apply: sumr_ge0 => x _; exact: sqr_ge0.
Qed.

Lemma std0_neq0_nonempty (X : seq 'rV[F]_n) (j : 'I_n) :
  std0 X 0 j != 0 -> X != [::].
Proof.
case: X => [|x X] //; rewrite !mxE big_nil mul0r sqrtr0 eqxx //.
Qed.

Lemma np_mean0_lift (X : seq 'rV[F]_n) :
  X != [::] -> np_mean0 (lift_rows X) = lift_mx (mean0 X).
Proof.
move=> nonempty; apply/matrixP => i j; rewrite !mxE size_map.
have -> : fsum (lift_rows X) (fun x : 'rV[npfloat]_n => x 0 j)
          = Fin (\sum_(x <- X) x 0 j).
  rewrite /fsum /lift_rows big_map -[RHS]fsum_lift /fsum.
  by apply: eq_bigr => x _; rewrite mxE.
by rewrite /= (negbTE (size_neq0_natr nonempty)).
Qed.

Lemma np_var0_lift (X : seq 'rV[F]_n) :
  X != [::] -> np_var0 (lift_rows X) = lift_mx (var0 X).
Proof.
move=> nonempty; apply/matrixP => i j.
rewrite /np_var0 np_mean0_lift // [LHS]mxE [RHS]mxE size_map ord1.
have -> : fsum (lift_rows X)
            (fun x : 'rV[npfloat]_n =>
               fmul (fsub (x 0 j) (lift_mx (mean0 X) 0 j))
                    (fsub (x 0 j) (lift_mx (mean0 X) 0 j)))
          = Fin (\sum_(x <- X) (x 0 j - mean0 X 0 j) ^+ 2).
  rewrite /fsum /lift_rows big_map -[RHS]fsum_lift /fsum.
  apply: eq_bigr => x _.
  by rewrite [lift_mx x 0 j]mxE [lift_mx _ 0 j]mxE /= expr2.
by rewrite /= (negbTE (size_neq0_natr nonempty)) [in RHS]mxE.
Qed.

Lemma np_std0_lift (X : seq 'rV[F]_n) :
  X != [::] -> np_std0 (lift_rows X) = lift_mx (std0 X).
Proof.
move=> nonempty; apply/matrixP => i j.
rewrite /np_std0 np_var0_lift // [LHS]mxE [RHS]mxE [lift_mx _ 0 j]mxE /= ord1.
by rewrite ltNge var0_ge0 /= [in RHS]mxE.
Qed.

Lemma centred_sum (X : seq 'rV[F]_n) (j : 'I_n) :
  X != [::] -> \sum_(x <- X) (x 0 j - mean0 X 0 j) = 0.
Proof.
move=> nonempty; rewrite sumrB sumr_const_seq mxE.
by rewrite mulrC divfK ?subrr // size_neq0_natr.
Qed.

Lemma size_zscore (X : seq 'rV[F]_n) : size (zscore X) = size X.
Proof. by rewrite size_map. Qed.

Lemma mean0_zscore (X : seq 'rV[F]_n) (j : 'I_n) :
  X != [::] -> mean0 (zscore X) 0 j = 0.
Proof.
move=> nonempty; rewrite mxE /zscore big_map.
under eq_bigr => x _ do rewrite mxE.
by rewrite -mulr_suml centred_sum // !mul0r.
Qed.

Lemma var0_zscore (X : seq 'rV[F]_n) (j : 'I_n) :
  std0 X 0 j != 0 -> var0 (zscore X) 0 j = 1.
Proof.
move=> sd_neq0; have nonempty := std0_neq0_nonempty sd_neq0.
have var_neq0 : var0 X 0 j != 0.
  by apply: contra_neq sd_neq0; rewrite [std0 _ _ _]mxE => ->; rewrite sqrtr0.
have sqr_sd : std0 X 0 j ^+ 2 = var0 X 0 j.
  by rewrite [std0 _ _ _]mxE sqr_sqrtr // var0_ge0.
rewrite [LHS]mxE size_zscore.
have -> : \sum_(z <- zscore X) (z 0 j - mean0 (zscore X) 0 j) ^+ 2
          = (\sum_(x <- X) (x 0 j - mean0 X 0 j) ^+ 2) / var0 X 0 j.
  rewrite mean0_zscore // /zscore big_map mulr_suml.
  apply: eq_bigr => x _.
  by rewrite subr0 mxE expr_div_n sqr_sd.
have -> : \sum_(x <- X) (x 0 j - mean0 X 0 j) ^+ 2
          = var0 X 0 j * (size X)%:R.
  by rewrite [var0 _ _ _]mxE divfK // size_neq0_natr.
by rewrite mulrAC mulfK ?size_neq0_natr // divff.
Qed.

Lemma std0_zscore (X : seq 'rV[F]_n) (j : 'I_n) :
  std0 X 0 j != 0 -> std0 (zscore X) 0 j = 1.
Proof. by move=> sd_neq0; rewrite mxE var0_zscore // sqrtr1. Qed.

(** The two in-place operations of [standardize] on exact data. *)
Lemma ztransform_lift (X : seq 'rV[F]_n) :
  (forall j, std0 X 0 j != 0) ->
  idiv_rows (isub_rows (lift_rows X) (lift_mx (mean0 X))) (lift_mx (std0 X))
  = lift_rows (zscore X).
Proof.
move=> sd_neq0; rewrite /idiv_rows /isub_rows /lift_rows /zscore -!map_comp.
apply: eq_map => x /=; apply/matrixP => i j.
rewrite [LHS]mxE [RHS]mxE [X in fdiv X _]mxE ![lift_mx _ 0 j]mxE /=.
by rewrite (negbTE (sd_neq0 j)) [in RHS]mxE.
Qed.

Lemma rescale_lift (sd : 'rV[F]_n) (C : seq 'M[F]_n) :
  (forall j, sd 0 j != 0) ->
  idiv_matrices (map (@lift_mx F n n) C) (np_outer (lift_mx sd) (lift_mx sd))
  = map (@lift_mx F n n) (rescale sd C).
Proof.
move=> sd_neq0; rewrite /idiv_matrices /rescale -!map_comp.
apply: eq_map => A /=; apply/matrixP => i j.
rewrite [LHS]mxE [RHS]mxE [np_outer _ _ _ _]mxE ![lift_mx _ _ _]mxE /=.
by rewrite mulf_eq0 (negbTE (sd_neq0 i)) (negbTE (sd_neq0 j)) /= [in RHS]mxE.
Qed.

(** After the z-transform of exact data without a constant channel, the
    floating-point mean of every channel is 0 and its standard deviation
    is 1. *)
Lemma np_mean0_zscore (X : seq 'rV[F]_n) :
  (forall j, std0 X 0 j != 0) -> X != [::] ->
  np_mean0 (lift_rows (zscore X)) = const_mx (Fin 0).
Proof.
move=> sd_neq0 nonempty.
have nonempty' : zscore X != [::] by rewrite -size_eq0 size_zscore size_eq0.
rewrite np_mean0_lift //; apply/matrixP => i j.
by rewrite [LHS]mxE [RHS]mxE ord1 mean0_zscore.
Qed.

Lemma np_std0_zscore (X : seq 'rV[F]_n) :
  (forall j, std0 X 0 j != 0) -> X != [::] ->
  np_std0 (lift_rows (zscore X)) = const_mx (Fin 1).
Proof.
move=> sd_neq0 nonempty.
have nonempty' : zscore X != [::] by rewrite -size_eq0 size_zscore size_eq0.
rewrite np_std0_lift //; apply/matrixP => i j.
by rewrite [LHS]mxE [RHS]mxE ord1 std0_zscore.
Qed.

(** Variants that need no separate non-emptiness assumption. *)
Lemma np_mean0_lift_nz (X : seq 'rV[F]_n) :
  (forall j, std0 X 0 j != 0) -> np_mean0 (lift_rows X) = lift_mx (mean0 X).
Proof.
move=> sd_neq0; apply/matrixP => i j.
by rewrite np_mean0_lift // (std0_neq0_nonempty (sd_neq0 j)).
Qed.

Lemma np_std0_lift_nz (X : seq 'rV[F]_n) :
  (forall j, std0 X 0 j != 0) -> np_std0 (lift_rows X) = lift_mx (std0 X).
Proof.
move=> sd_neq0; apply/matrixP => i j.
by rewrite np_std0_lift // (std0_neq0_nonempty (sd_neq0 j)).
Qed.

Lemma np_mean0_zscore_nz (X : seq 'rV[F]_n) :
  (forall j, std0 X 0 j != 0) ->
  np_mean0 (lift_rows (zscore X)) = const_mx (Fin 0).
Proof.
move=> sd_neq0; apply/matrixP => i j.
by rewrite np_mean0_zscore // (std0_neq0_nonempty (sd_neq0 j)).
Qed.

Lemma np_std0_zscore_nz (X : seq 'rV[F]_n) :
  (forall j, std0 X 0 j != 0) ->
  np_std0 (lift_rows (zscore X)) = const_mx (Fin 1).
Proof.
move=> sd_neq0; apply/matrixP => i j.
by rewrite np_std0_zscore // (std0_neq0_nonempty (sd_neq0 j)).
Qed.

(** A second z-transform changes nothing. *)
Lemma zscore_idem (X : seq 'rV[F]_n) :
  (forall j, std0 X 0 j != 0) -> zscore (zscore X) = zscore X.
Proof.
move=> sd_neq0; rewrite {1}/zscore -[RHS]map_id; apply: eq_map => z.
apply/matrixP => i j; rewrite mxE ord1 std0_zscore // divr1.
by rewrite mean0_zscore ?subr0 // (std0_neq0_nonempty (sd_neq0 j)).
Qed.

Lemma std0_zscore_neq0 (X : seq 'rV[F]_n) :
  (forall j, std0 X 0 j != 0) -> forall j, std0 (zscore X) 0 j != 0.
Proof. by move=> sd_neq0 j; rewrite std0_zscore // oner_neq0. Qed.

(** Division by an outer product of ones leaves every floating-point
    value as it is. *)
Lemma fdiv1 (a : npfloat) : fdiv a (fmul (Fin 1) (Fin 1)) = a.
Proof.
case: a => [x|||] //=; rewrite mulr1 ?oner_eq0 ?divr1 //.
- by rewrite ler01.
- by rewrite ltr10.
Qed.

Lemma idiv_matrices_ones (C : seq 'M[npfloat]_n) :
  idiv_matrices C (np_outer (const_mx (Fin 1)) (const_mx (Fin 1))) = C.
Proof.
rewrite /idiv_matrices -[RHS]map_id; apply: eq_map => A.
by apply/matrixP => i j; rewrite !mxE fdiv1.
Qed.

(** A channel whose standard deviation is 0 is constant, and its
    z-transform divides 0 by 0. *)
Lemma constant_channel (X : seq 'rV[F]_n) (j : 'I_n) :
  X != [::] -> std0 X 0 j = 0 ->
  forall x, x \in X -> x 0 j = mean0 X 0 j.
Proof.
move=> nonempty sd0 x x_in.
have var_eq0 : var0 X 0 j = 0.
  apply/eqP; rewrite eq_le var0_ge0 andbT -sqrtr_eq0.
  by move: sd0; rewrite [std0 _ _ _]mxE => ->.
have : \sum_(y <- X) (y 0 j - mean0 X 0 j) ^+ 2 == 0.
  move/eqP: var_eq0; rewrite [var0 _ _ _]mxE mulf_eq0 invr_eq0.
  by rewrite (negbTE (size_neq0_natr nonempty)) orbF.
rewrite psumr_eq0; first by move=> y _; exact: sqr_ge0.
move=> /allP /(_ x x_in) /=.
by rewrite sqrf_eq0 subr_eq0; exact: eqP.
Qed.

Lemma fsum_nan (I : Type) (r : seq I) (E : I -> npfloat) :
  (if r is i :: _ then E i = NaN else False) -> fsum r E = NaN.
Proof. by case: r => [|i r] // Ei; rewrite /fsum big_cons Ei. Qed.

Lemma ztransform_constant_nan (X : seq 'rV[F]_n) (j : 'I_n) :
  X != [::] -> std0 X 0 j = 0 ->
  np_mean0 (idiv_rows (isub_rows (lift_rows X) (np_mean0 (lift_rows X)))
                      (np_std0 (lift_rows X))) 0 j = NaN.
Proof.
move=> nonempty sd0; rewrite np_mean0_lift // np_std0_lift //.
rewrite [LHS]mxE [X in fdiv X _]mxE fsum_nan //.
case: X nonempty sd0 => [|x X] // nonempty sd0 /=.
rewrite [LHS]mxE [X in fdiv X _]mxE ![lift_mx _ 0 j]mxE /=.
by rewrite sd0 (constant_channel nonempty sd0) ?mem_head // subrr !eqxx.
Qed.

End Statistics.

(* ===================================================================== *)
(** * The algebra of [W W^T + f I] normalised to unit trace               *)
(* ===================================================================== *)

Section CovarianceAlgebra.

Import Numpy LinAlg VradSimulation.
Local Open Scope ring_scope.

Variable F : rcfType.
Variable n : nat.

Local Notation npfloat := (npfloat F).

Lemma scaled_identityE (f : F) : scaled_identity n f = f%:M.
Proof.
apply/matrixP => i j; rewrite !mxE.
by case: (i == j); rewrite ?mul1r ?mul0r ?mulr1n ?mulr0n.
Qed.

Lemma unnormalised_covarianceE (f : F) (W : 'M[F]_n) :
  unnormalised_covariance f W = W *m W^T + f%:M.
Proof. by rewrite /unnormalised_covariance scaled_identityE. Qed.

Lemma quadD (A B : 'M[F]_n) (x : 'rV[F]_n) :
  quad (A + B) x = quad A x + quad B x.
Proof. by rewrite /quad mulmxDr mulmxDl mxE. Qed.

Lemma quadZ (c : F) (A : 'M[F]_n) (x : 'rV[F]_n) :
  quad (c *: A) x = c * quad A x.
Proof. by rewrite /quad -scalemxAr -scalemxAl mxE. Qed.

Lemma quad_gram (W : 'M[F]_n) (x : 'rV[F]_n) :
  quad (W *m W^T) x = \sum_k ((x *m W) 0 k) ^+ 2.
Proof.
rewrite /quad mulmxA -mulmxA -trmx_mul mxE.
by apply: eq_bigr => k _; rewrite [X in _ * X]mxE expr2.
Qed.

Lemma quad_scalar (f : F) (x : 'rV[F]_n) :
  quad f%:M x = f * \sum_k (x 0 k) ^+ 2.
Proof.
rewrite /quad mul_mx_scalar -scalemxAl mxE; congr (_ * _).
by rewrite mxE; apply: eq_bigr => k _; rewrite [X in _ * X]mxE expr2.
Qed.

Lemma sum_sqr_ge0 (x : 'rV[F]_n) : 0 <= \sum_k (x 0 k) ^+ 2.
Proof. by apply: sumr_ge0 => k _; exact: sqr_ge0. Qed.

Lemma sum_sqr_gt0 (x : 'rV[F]_n) : x != 0 -> 0 < \sum_k (x 0 k) ^+ 2.
Proof.
move=> x_neq0; rewrite lt_neqAle sum_sqr_ge0 andbT eq_sym.
apply: contra_neq x_neq0 => sum0; apply/rowP => k; rewrite mxE.
have := @psumr_eq0P _ _ _ _ (fun i _ => sqr_ge0 (x 0 i)) sum0 k isT.
by move/eqP; rewrite sqrf_eq0 => /eqP.
Qed.

Lemma trace_gram_ge0 (W : 'M[F]_n) : 0 <= \tr (W *m W^T).
Proof.
rewrite /mxtrace; apply: sumr_ge0 => i _; rewrite mxE.
by apply: sumr_ge0 => k _; rewrite [X in _ * X]mxE -expr2 sqr_ge0.
Qed.

Lemma trace_covariance_gt0 (f : F) (W : 'M[F]_n) :
  0 < f -> (0 < n)%N -> 0 < \tr (W *m W^T + f%:M).
Proof.
move=> f_gt0 n_gt0; rewrite mxtraceD mxtrace_scalar.
by rewrite ltr_wpDl ?trace_gram_ge0 // pmulrn_lgt0.
Qed.

Lemma symmetric_covariance (f : F) (W : 'M[F]_n) :
  symmetric (W *m W^T + f%:M).
Proof. by rewrite /symmetric linearD /= trmx_mul trmxK tr_scalar_mx. Qed.

Lemma np_trace_lift (A : 'M[F]_n) : np_trace (lift_mx A) = Fin (\tr A).
Proof.
rewrite /np_trace /mxtrace -fsum_lift /fsum.
by apply: eq_bigr => i _; rewrite mxE.
Qed.

(** Division of a finite matrix by its nonzero trace is exact. *)
Lemma normalise_lift (B : 'M[F]_n) :
  \tr B != 0 -> normalise B = lift_mx (trace_normalised B).
Proof.
move=> tr_neq0; apply/matrixP => i j.
by rewrite !mxE /= (negbTE tr_neq0) mulrC.
Qed.

(** The three properties of a normalised covariance. *)
Lemma trace_normalised_pd (f : F) (W : 'M[F]_n) :
  0 < f -> (0 < n)%N ->
  let A := trace_normalised (W *m W^T + f%:M) in
  [/\ symmetric A, pd A & \tr A = 1].
Proof.
move=> f_gt0 n_gt0 A.
have tr_gt0 := trace_covariance_gt0 W f_gt0 n_gt0.
have symA : symmetric A.
  by rewrite /symmetric /A /trace_normalised linearZ /= symmetric_covariance.
split=> //.
- split=> // x x_neq0; rewrite quadZ mulr_gt0 ?invr_gt0 //.
  rewrite quadD quad_gram quad_scalar ltr_wpDl //.
    by apply: sumr_ge0 => k _; exact: sqr_ge0.
  by rewrite mulr_gt0 // sum_sqr_gt0.
- by rewrite /A /trace_normalised mxtraceZ mulVf // gt_eqF.
Qed.

(** With no channels the matrices are empty and their trace is 0. *)
Lemma np_trace_empty (A : 'M[npfloat]_n) : n = 0%N -> np_trace A = Fin 0.
Proof.
move=> n0; rewrite /np_trace big_pred0 // => i.
by case: i => m; rewrite n0.
Qed.

End CovarianceAlgebra.

(* ===================================================================== *)
(** * Properties of Simulation                                            *)
(* ===================================================================== *)

Section SimulationProperties.

Import Numpy LinAlg VradSimulation.
Local Open Scope ring_scope.

Variable F : rcfType.
Variable n_channels : nat.
Variable Generator : Type.
Variable default_rng : option nat -> Generator.
Variable standard_normal : Generator -> F * Generator.
Variable multivariate_normal_draw :
  'rV[npfloat F]_n_channels -> 'M[npfloat F]_n_channels -> Generator ->
  'rV[npfloat F]_n_channels * Generator.
Variable foreign : Type.
Variable ndarray_getattr :
  seq 'rV[npfloat F]_n_channels -> string -> result foreign.

Local Notation state := (state F n_channels Generator).
Variable generate_states : M state (stc_array F).
Local Notation value := (value F Generator foreign).
Local Notation getattr := (getattr ndarray_getattr).
Local Notation standardize := (standardize ndarray_getattr).
Local Notation create_covariances :=
  (create_covariances standard_normal ndarray_getattr).
Local Notation simulate_data :=
  (simulate_data standard_normal multivariate_normal_draw ndarray_getattr).
Local Notation structured := (structured F n_channels).
Local Notation drawn := (drawn n_channels standard_normal).
Local Notation fresh := (fresh Generator).
Local Notation constructed := (constructed default_rng).
Local Notation is_draw := (is_draw multivariate_normal_draw).
Local Notation drawn_rows := (drawn_rows multivariate_normal_draw).

Local Arguments VradSimulation.create_covariances : simpl never.
Local Arguments VradSimulation.simulate : simpl never.
Local Arguments VradSimulation.simulate_data : simpl never.
Local Arguments VradSimulation.normal_draws : simpl never.

(** ** Attribute lookup *)

Lemma getattr_time_seriesE (st : state) :
  getattr st "time_series"
  = match time_series (self st) with
    | Bound v => Ok (optional (@VArray2 F Generator foreign) v)
    | Unset => Raise (NameError not_yet_created)
    end.
Proof.
by rewrite /VradSimulation.getattr /instance_dict /=; case: (time_series _).
Qed.

Lemma getattr_covariancesE (st : state) :
  getattr st "covariances"
  = match covariances (self st) with
    | Bound l => Ok (VArray3 F Generator foreign l)
    | Unset => __getattr__ ndarray_getattr st "covariances"
    end.
Proof.
by rewrite /VradSimulation.getattr /instance_dict /=; case: (covariances _).
Qed.

Lemma getattr_rngE (st : state) :
  getattr st "_rng"
  = match _rng (self st) with
    | Bound g => Ok (VGenerator F foreign g)
    | Unset => __getattr__ ndarray_getattr st "_rng"
    end.
Proof.
by rewrite /VradSimulation.getattr /instance_dict /=; case: (_rng _).
Qed.

Lemma getattr_state_time_courseE (st : state) :
  getattr st "state_time_course"
  = match state_time_course (self st) with
    | Bound v => Ok (optional (@VStateTimeCourse F Generator foreign) v)
    | Unset => __getattr__ ndarray_getattr st "state_time_course"
    end.
Proof.
rewrite /VradSimulation.getattr /instance_dict /=.
by case: (state_time_course _).
Qed.

(** [__getattr__] on a name that is neither "time_series" nor a dunder
    goes through [self.time_series]. *)
Lemma getattr_fallback_unset (st : state) (attr : string) :
  time_series (self st) = Unset ->
  (attr == "time_series"%string) = false ->
  (substring 0 2 attr == "__"%string) = false ->
  __getattr__ ndarray_getattr st attr = Raise (NameError not_yet_created).
Proof.
move=> ts_unset not_ts not_dunder.
rewrite /__getattr__ not_ts not_dunder /getattr_time_series /instance_dict /=.
by rewrite ts_unset.
Qed.

Lemma update_same (A : Type) (f : ref -> A) (l : ref) (a : A) :
  update f l a l = a.
Proof. by rewrite /update eqxx. Qed.

Lemma update_other (A : Type) (f : ref -> A) (l l' : ref) (a : A) :
  l' != l -> update f l a l' = f l'.
Proof. by rewrite /update => /negbTE ->. Qed.

(** ** create_covariances *)

Local Notation Simulation := (Simulation F Generator).
Local Notation __init__ :=
  (__init__ default_rng standard_normal multivariate_normal_draw
     ndarray_getattr generate_states).
Local Notation simulate :=
  (simulate standard_normal multivariate_normal_draw ndarray_getattr
     generate_states).

Lemma fill_diagonal_checkE (ns : nat) :
  fill_diagonal_check [:: minn ns ns; minn ns n_channels; minn ns n_channels]
  = (ns <= n_channels)%N.
Proof.
rewrite /fill_diagonal_check /= minnn eqxx andbT andbb /=.
by apply/eqP/idP => [<-|/minn_idPl //]; exact: geq_minr.
Qed.

Lemma structured_weights_ok (ns : nat) :
  (ns <= n_channels)%N ->
  structured_weights F n_channels ns = Ok (structured ns).
Proof. by rewrite /structured_weights fill_diagonal_checkE => ->. Qed.

Lemma structured_weights_raises (ns : nat) :
  (n_channels < ns)%N ->
  structured_weights F n_channels ns = Raise (ValueError fill_diagonal_message).
Proof.
by rewrite /structured_weights fill_diagonal_checkE ltnNge => /negbTE ->.
Qed.

Lemma create_covariances_structured (st : state) (f : F) :
  random_covariance_weights (self st) = false ->
  (n_states (self st) <= n_channels)%N ->
  create_covariances f st
  = (Ok (next_ref (mem st)),
     allocated3 st (covariances_of f (structured (n_states (self st))))).
Proof.
move=> structured_branch fits.
rewrite /VradSimulation.create_covariances /bind /get /lift structured_branch.
by rewrite structured_weights_ok.
Qed.

Lemma create_covariances_structured_raises (st : state) (f : F) :
  random_covariance_weights (self st) = false ->
  (n_channels < n_states (self st))%N ->
  create_covariances f st = (Raise (ValueError fill_diagonal_message), st).
Proof.
move=> structured_branch too_many.
rewrite /VradSimulation.create_covariances /bind /get /lift structured_branch.
by rewrite structured_weights_raises.
Qed.

Lemma create_covariances_random (st : state) (f : F) (g : Generator) :
  random_covariance_weights (self st) = true ->
  _rng (self st) = Bound g ->
  create_covariances f st
  = (Ok (next_ref (mem st)),
     allocated3
       (mkState (mem st)
          (set__rng
             (Bound (normal_draws standard_normal
                       (n_states (self st) * (n_channels * n_channels)) g).2)
             (self st)))
       (covariances_of f (drawn (n_states (self st)) g))).
Proof.
move=> random_branch rng_bound.
rewrite /VradSimulation.create_covariances /bind /get random_branch.
rewrite /random_weights /rng_normal /get_rng /bind /get /lift getattr_rngE.
rewrite rng_bound /= /drawn.
by case: (normal_draws _ _ _) => zs g'.
Qed.

Lemma create_covariances_no_generator (st : state) (f : F) :
  random_covariance_weights (self st) = true ->
  _rng (self st) = Unset -> time_series (self st) = Unset ->
  create_covariances f st = (Raise (NameError not_yet_created), st).
Proof.
move=> random_branch rng_unset ts_unset.
rewrite /VradSimulation.create_covariances /bind /get random_branch.
rewrite /random_weights /rng_normal /get_rng /bind /get /lift getattr_rngE.
by rewrite rng_unset getattr_fallback_unset.
Qed.

Lemma covariances_of_exact (f : F) (W : seq 'M[F]_n_channels) :
  0 < f -> (0 < n_channels)%N ->
  covariances_of f W
  = [seq lift_mx (trace_normalised (W_k *m W_k^T + f%:M)) | W_k <- W].
Proof.
move=> f_gt0 n_gt0; rewrite /covariances_of -map_comp.
apply: eq_map => W_k /=; rewrite unnormalised_covarianceE normalise_lift //.
by rewrite gt_eqF // trace_covariance_gt0.
Qed.


(** ** __init__ *)

Lemma init_given (n_samples n_states : nat) (svm : bool) (c : ref) (obs : F)
    (rcw simulate_now : bool) (seed : option nat) (h : heap F n_channels) :
  __init__ n_samples n_states svm (Some c) obs rcw simulate_now seed h
  = (if simulate_now then simulate else ret tt)
      (mkState h (constructed n_samples n_states svm obs rcw c seed)).
Proof. by []. Qed.

Lemma init_random (n_samples n_states : nat) (svm : bool) (obs : F)
    (simulate_now : bool) (seed : option nat) (h : heap F n_channels) :
  __init__ n_samples n_states svm None obs true simulate_now seed h
  = (Raise (NameError not_yet_created),
     mkState h
       (set_state_time_course (Bound None)
          (fresh n_samples n_states svm obs true))).
Proof.
rewrite /VradSimulation.__init__ /bind /setattr /modify /=.
by rewrite ?create_covariances_no_generator.
Qed.

Lemma init_structured (n_samples n_states : nat) (svm : bool) (obs : F)
    (simulate_now : bool) (seed : option nat) (h : heap F n_channels) :
  (n_states <= n_channels)%N ->
  __init__ n_samples n_states svm None obs false simulate_now seed h
  = (if simulate_now then simulate else ret tt)
      (mkState
         (mkHeap (arrays1 h) (arrays2 h)
            (update (arrays3 h) (next_ref h)
               (covariances_of (default_identity_factor F)
                  (structured n_states)))
            (next_ref h).+1)
         (constructed n_samples n_states svm obs false (next_ref h) seed)).
Proof.
move=> fits; rewrite /VradSimulation.__init__ /bind /setattr /modify /=.
by rewrite ?create_covariances_structured.
Qed.

Lemma init_structured_raises (n_samples n_states : nat) (svm : bool)
    (obs : F) (simulate_now : bool) (seed : option nat)
    (h : heap F n_channels) :
  (n_channels < n_states)%N ->
  __init__ n_samples n_states svm None obs false simulate_now seed h
  = (Raise (ValueError fill_diagonal_message),
     mkState h
       (set_state_time_course (Bound None)
          (fresh n_samples n_states svm obs false))).
Proof.
move=> too_many; rewrite /VradSimulation.__init__ /bind /setattr /modify /=.
by rewrite ?create_covariances_structured_raises.
Qed.

(** C7 (amended).  Constructing a Simulation with [covariances=None] and
    [random_covariance_weights=True] always raises NameError
    ("time_series has not yet been created."): [generate_states] is never
    called, no array is allocated, and the object is left with
    [state_time_course = None] and no [covariances], [time_series] or
    [_rng].  With [random_covariance_weights=False] the generator is not
    touched: when [n_states <= n_channels] the covariances are created
    and construction continues with [simulate()] if requested (and
    succeeds at once if not); when [n_states > n_channels] construction
    raises ValueError from np.fill_diagonal. *)
Theorem init_without_covariances (n_samples n_states : nat) (svm : bool)
    (obs : F) (simulate_now : bool) (seed : option nat)
    (h : heap F n_channels) :
  __init__ n_samples n_states svm None obs true simulate_now seed h
  = (Raise (NameError not_yet_created),
     mkState h
       (set_state_time_course (Bound None)
          (fresh n_samples n_states svm obs true)))
  /\ __init__ n_samples n_states svm None obs false simulate_now seed h
     = if (n_states <= n_channels)%N then
         (if simulate_now then simulate else ret tt)
           (mkState
              (mkHeap (arrays1 h) (arrays2 h)
                 (update (arrays3 h) (next_ref h)
                    (covariances_of (default_identity_factor F)
                       (structured n_states)))
                 (next_ref h).+1)
              (constructed n_samples n_states svm obs false (next_ref h) seed))
       else
         (Raise (ValueError fill_diagonal_message),
          mkState h
            (set_state_time_course (Bound None)
               (fresh n_samples n_states svm obs false))).
Proof.
split; first exact: init_random.
case: leqP => [fits|too_many]; first exact: init_structured.
exact: init_structured_raises.
Qed.

(** C6.  A Simulation constructed with [simulate=False] (here with the
    covariances given) is constructed without error, and asking for its
    time series raises nothing: the attribute lookup, [__array__] and
    [__iter__] all hand out [None].  The guard of [__getattr__] would
    raise NameError for this name, but the lookup never reaches it. *)
Theorem time_series_before_simulation (n_samples n_states : nat) (svm : bool)
    (c : ref) (obs : F) (rcw : bool) (seed : option nat)
    (h : heap F n_channels) :
  let: (r, st) := __init__ n_samples n_states svm (Some c) obs rcw false seed h
  in [/\ r = Ok tt,
         getattr st "time_series" = Ok (VNone F Generator foreign),
         __array__ ndarray_getattr st = Ok (VNone F Generator foreign),
         __iter__ ndarray_getattr st = Ok [:: VNone F Generator foreign]
       & __getattr__ ndarray_getattr st "time_series"
         = Raise (NameError not_yet_created)].
Proof. by rewrite init_given. Qed.

(** ** standardize *)

Lemma standardize_run (st : state) (l lc : ref) :
  time_series (self st) = Bound (Some l) ->
  covariances (self st) = Bound lc ->
  standardize st = (Ok tt, standardized l lc st).
Proof.
move=> ts_bound cov_bound.
rewrite /VradSimulation.standardize /standardized /bind /get /lift /alloc1.
rewrite /setattr /modify /write2 /write3 /=.
do ?[rewrite getattr_time_seriesE /= ts_bound /=].
rewrite getattr_covariancesE /= cov_bound /=.
rewrite !update_same update_other ?update_same //.
by rewrite neq_ltn ltnSn.
Qed.

Lemma arrays2_standardized (st : state) (l lc : ref) :
  arrays2 (mem (standardized l lc st)) l
  = idiv_rows (isub_rows (arrays2 (mem st) l) (np_mean0 (arrays2 (mem st) l)))
              (np_std0 (arrays2 (mem st) l)).
Proof. by rewrite /standardized /= update_same. Qed.

Lemma arrays3_standardized (st : state) (l lc : ref) :
  arrays3 (mem (standardized l lc st)) lc
  = idiv_matrices (arrays3 (mem st) lc)
      (np_outer (np_std0 (arrays2 (mem st) l)) (np_std0 (arrays2 (mem st) l))).
Proof. by rewrite /standardized /= update_same. Qed.

(** [standardize] succeeds only on an object whose time series and
    covariances are arrays. *)
Lemma standardize_ok_inv (st : state) :
  (standardize st).1 = Ok tt ->
  exists l lc, time_series (self st) = Bound (Some l)
               /\ covariances (self st) = Bound lc.
Proof.
case ts_eq: (time_series (self st)) => [|[l|]].
- by rewrite /VradSimulation.standardize /bind /get /lift
       getattr_time_seriesE ts_eq.
- case cov_eq: (covariances (self st)) => [|lc]; last by exists l, lc.
  rewrite /VradSimulation.standardize /bind /get /lift /alloc1.
  rewrite /setattr /modify /write2 /write3 /=.
  do ?[rewrite getattr_time_seriesE /= ts_eq /=].
  rewrite getattr_covariancesE /= cov_eq /__getattr__ /=.
  by case: (ndarray_getattr _ _).
- by rewrite /VradSimulation.standardize /bind /get /lift
       getattr_time_seriesE ts_eq.
Qed.

Lemma instance_dict_standardized (st : state) (l lc : ref) (attr : string) :
  time_series (self st) = Bound (Some l) ->
  covariances (self st) = Bound lc ->
  attr != "means"%string -> attr != "standard_deviations"%string ->
  instance_dict n_channels foreign (self (standardized l lc st)) attr
  = instance_dict n_channels foreign (self st) attr.
Proof.
move=> ts_bound cov_bound /negbTE not_means /negbTE not_sd.
rewrite /instance_dict /= not_means not_sd ts_bound cov_bound.
by do !case: ifP => //.
Qed.


(** C4 (amended).  A second call to [standardize] does not raise: whenever
    a first call has succeeded, a second one succeeds as well and
    re-applies the transform with the statistics of the already
    standardized series.  On finite data without a constant channel those
    statistics are 0 and 1, so the second call leaves the contents of the
    time series and of the covariances as the first call left them. *)
Theorem standardize_second_call (st st1 : state) :
  standardize st = (Ok tt, st1) ->
  exists st2 : state,
    standardize st1 = (Ok tt, st2)
    /\ forall (l lc : ref) (X : seq 'rV[F]_n_channels),
         time_series (self st) = Bound (Some l) ->
         covariances (self st) = Bound lc ->
         arrays2 (mem st) l = lift_rows X ->
         (forall j, std0 X 0 j != 0) ->
         arrays2 (mem st2) l = arrays2 (mem st1) l
         /\ arrays3 (mem st2) lc = arrays3 (mem st1) lc.
Proof.
move=> first_call.
have [l [lc [ts_bound cov_bound]]] : exists l lc,
    time_series (self st) = Bound (Some l) /\ covariances (self st) = Bound lc.
  by apply: standardize_ok_inv; rewrite first_call.
move: first_call; rewrite (standardize_run ts_bound cov_bound) => -[<-].
exists (standardized l lc (standardized l lc st)).
split; first exact: standardize_run.
move=> l' lc' X; rewrite ts_bound cov_bound => -[<-] [<-] data sd_neq0.
have mean_eq : np_mean0 (arrays2 (mem st) l) = lift_mx (mean0 X).
  by rewrite data np_mean0_lift_nz.
have std_eq : np_std0 (arrays2 (mem st) l) = lift_mx (std0 X).
  by rewrite data np_std0_lift_nz.
have series_eq : arrays2 (mem (standardized l lc st)) l = lift_rows (zscore X).
  by rewrite arrays2_standardized mean_eq std_eq data ztransform_lift.
have sd_neq0' := std0_zscore_neq0 sd_neq0.
split.
- rewrite [LHS]arrays2_standardized series_eq.
  rewrite np_mean0_lift_nz // np_std0_lift_nz // ztransform_lift //.
  by rewrite zscore_idem.
- rewrite [LHS]arrays3_standardized series_eq.
  by rewrite np_std0_zscore_nz // idiv_matrices_ones.
Qed.

(** ** simulate_data *)

Lemma broadcast2_singleton (A B C : Type) (f : A -> B -> C) (x : A)
    (ys : seq B) :
  broadcast2 f [:: x] ys = Some [seq f x y | y <- ys].
Proof. by rewrite /broadcast2; case: ys => [|y [|y' ys]]. Qed.

Lemma broadcast2_same_size (A B C : Type) (f : A -> B -> C) (xs : seq A)
    (ys : seq B) :
  size xs = size ys ->
  broadcast2 f xs ys = Some [seq f p.1 p.2 | p <- zip xs ys].
Proof. by rewrite /broadcast2 => ->; rewrite eqxx. Qed.

Lemma np_unique_rows_nonempty (a : stc_array F) :
  stc_rows a != [::] -> np_unique_rows a != [::].
Proof.
move=> nonempty; rewrite /np_unique_rows -size_eq0 size_sort size_eq0.
by apply: contra_neq nonempty; exact: undup_nil.
Qed.

(** With a mean of length 2 and [n_channels != 2], one pass through the
    loop body ends in the ValueError of [multivariate_normal]. *)
Lemma simulate_segment_mismatch (st : state) (g : Generator) (lc : ref)
    (row : seq F) (a : stc_array F) (data : seq 'rV[npfloat F]_n_channels)
    (alpha : (stc_width a).-tuple F) :
  _rng (self st) = Bound g ->
  covariances (self st) = Bound lc ->
  size (arrays3 (mem st) lc) = stc_width a ->
  n_channels != 2 ->
  simulate_segment multivariate_normal_draw ndarray_getattr
    (2%N, [:: row]) data alpha st
  = (Raise (ValueError length_mismatch), st).
Proof.
move=> rng_bound cov_bound sizes not2.
rewrite /simulate_segment /bind /of_broadcast /= broadcast2_singleton /=.
rewrite /ret /get /lift getattr_covariancesE cov_bound /=.
rewrite broadcast2_same_size ?size_tuple //=.
rewrite /rng_multivariate_normal /bind /get_rng /bind /get /lift.
by rewrite getattr_rngE rng_bound /= eq_sym not2.
Qed.

(** The defect behind C1: with [sim_varying_means=True] the means are
    drawn by [normal((n_states, n_channels))], an array of length 2, so
    whenever [n_channels != 2] and the state time course has a row,
    [simulate_data] raises ValueError instead of returning data. *)
Lemma simulate_data_varying_means (st : state) (g : Generator) (lc : ref)
    (a : stc_array F) :
  sim_varying_means (self st) = true ->
  _rng (self st) = Bound g ->
  state_time_course (self st) = Bound (Some a) ->
  stc_rows a != [::] ->
  covariances (self st) = Bound lc ->
  size (arrays3 (mem st) lc) = stc_width a ->
  n_channels != 2 ->
  (simulate_data st).1 = Raise (ValueError length_mismatch).
Proof.
move=> varying rng_bound stc_bound nonempty cov_bound sizes not2.
rewrite /VradSimulation.simulate_data /bind /simulate_means /bind /get.
rewrite varying /rng_normal /bind /get_rng /bind /get /lift getattr_rngE.
rewrite rng_bound /=.
case: (normal_draws standard_normal 2 g) => zs g' /=.
rewrite getattr_state_time_courseE /= stc_bound /=.
case: (np_unique_rows a) (np_unique_rows_nonempty nonempty) => [|alpha rest] //.
move=> _ /=; rewrite /bind.
by rewrite (simulate_segment_mismatch (g := g') (lc := lc)).
Qed.

(** The sibling path: with [sim_varying_means=False] the means are zeros
    of shape (n_states, n_channels) and the loop body succeeds. *)
Lemma size_mask_assign (A : Type) (mask : seq bool) (samples data : seq A) :
  size (mask_assign mask samples data) = size data.
Proof.
elim: mask samples data => [|b mask IH] samples [|d data] //=.
by case: b; rewrite /= IH.
Qed.

Lemma same_but_rng_refl (st : state) (g : Generator) :
  _rng (self st) = Bound g -> same_but_rng st st.
Proof. by move=> rng_bound; split=> //; exists g. Qed.

Lemma same_but_rng_covariances (st st' : state) :
  same_but_rng st st' -> covariances (self st') = covariances (self st).
Proof.
by case=> _ _ /(_ Unset) /(congr1 (@covariances F Generator)).
Qed.

Lemma same_but_rng_field (st st' : state) :
  same_but_rng st st' ->
  observation_error (self st') = observation_error (self st).
Proof.
by case=> _ _ /(_ Unset) /(congr1 (@observation_error F Generator)).
Qed.

Lemma multivariate_normal_draws_spec (k : nat)
    (mu : 'rV[npfloat F]_n_channels) (sigma : 'M[npfloat F]_n_channels)
    (g : Generator) :
  let xs := (multivariate_normal_draws multivariate_normal_draw k mu sigma g).1
  in size xs = k
     /\ forall i, (i < k)%N -> is_draw mu sigma (nth (const_mx (Fin 0)) xs i).
Proof.
elim: k g => [|k IH] g /=; first by split.
case draw_eq: (multivariate_normal_draw mu sigma g) => [x g1].
have := IH g1; case: (multivariate_normal_draws _ _ _ _ _) => xs g2 /=.
move=> [size_xs each]; split; first by rewrite size_xs.
case=> [_|i lt_ik] /=; last exact: each.
by exists g; rewrite draw_eq.
Qed.

Lemma count_take_lt (mask : seq bool) (t : nat) :
  nth false mask t -> (count id (take t mask) < count id mask)%N.
Proof.
elim: mask t => [|b mask IH] [|t] //=; first by move=> ->.
by move=> /IH; rewrite ltn_add2l.
Qed.

Lemma mask_assign_nth (A : Type) (d : A) (mask : seq bool)
    (samples data : seq A) (t : nat) :
  size mask = size data -> size samples = count id mask ->
  nth d (mask_assign mask samples data) t
  = if nth false mask t then nth d samples (count id (take t mask))
    else nth d data t.
Proof.
elim: mask samples data t => [|b mask IH] samples [|x data] t //=.
  by rewrite !nth_nil.
move=> [size_eq]; case: b => /=.
- case: samples => [|s samples] //= [size_samples].
  by case: t => [|t] //=; rewrite IH.
- by rewrite add0n => size_samples; case: t => [|t] //=; rewrite IH.
Qed.

Lemma zip_nseq (A B : Type) (n : nat) (x : A) (ys : seq B) :
  zip (nseq n x) ys = [seq (x, y) | y <- take n ys].
Proof. by elim: n ys => [|n IH] [|y ys] //=; rewrite IH. Qed.

(** The weighted sum of zero means is the zero vector. *)
Lemma zero_means_mean (ns : nat) (alpha : seq F) :
  (\row_j Fin (nth 0
      [seq \sum_(row <- [seq [seq x * p.2 | x <- p.1]
                        | p <- zip (nseq ns (nseq n_channels (0 : F))) alpha])
             nth 0 row j
      | j <- iota 0 n_channels] j) : 'rV[npfloat F]_n_channels)
  = const_mx (Fin 0).
Proof.
apply/rowP => j; rewrite !mxE; congr Fin.
rewrite (nth_map 0%N) ?size_iota // nth_iota // add0n zip_nseq -map_comp.
rewrite big_map big1 // => y _ /=.
by rewrite (nth_map 0) ?size_nseq // nth_nseq ltn_ord mul0r.
Qed.

(** The weighted sum of the covariances, as the loop computes it. *)
Lemma mixture_covarianceE (C : seq 'M[npfloat F]_n_channels) (alpha : seq F) :
  (\matrix_(i, j)
     fsum [seq map_mx (fun x => fmul x (Fin p.2)) p.1 | p <- zip C alpha]
          (fun A : 'M[npfloat F]_n_channels => A i j))
  = mixture_covariance C alpha.
Proof.
apply/matrixP => i j; rewrite !mxE /fsum big_map.
by apply: eq_bigr => p _; rewrite mxE.
Qed.

(** One pass through the loop body with zero means: the rows equal to
    [alpha] receive draws with mean 0 and the covariance of the mixture
    [alpha]; the other rows are untouched. *)
Lemma simulate_segment_zero_means (st0 st : state) (lc : ref)
    (a : stc_array F) (data : seq 'rV[npfloat F]_n_channels)
    (alpha : (stc_width a).-tuple F) (ns : nat)
    (processed : pred ((stc_width a).-tuple F)) :
  same_but_rng st0 st ->
  covariances (self st0) = Bound lc ->
  size (arrays3 (mem st0) lc) = stc_width a ->
  ns = stc_width a ->
  size data = size (stc_rows a) ->
  drawn_rows (arrays3 (mem st0) lc) processed data ->
  exists data' st',
    [/\ simulate_segment multivariate_normal_draw ndarray_getattr
          (n_channels, nseq ns (nseq n_channels 0)) data alpha st
        = (Ok data', st'),
        size data' = size data,
        drawn_rows (arrays3 (mem st0) lc)
          (fun r => processed r || (r == alpha)) data'
      & same_but_rng st0 st'].
Proof.
move=> same cov_bound sizes ns_eq size_data invariant.
have [mem_eq [g rng_bound] rest] := same.
have cov_bound' : covariances (self st) = Bound lc.
  by rewrite (same_but_rng_covariances same).
rewrite /simulate_segment /bind /of_broadcast /=.
rewrite broadcast2_same_size ?size_nseq ?size_tuple //=.
rewrite /ret /get /lift getattr_covariancesE cov_bound' /= mem_eq.
rewrite broadcast2_same_size ?size_tuple //=.
rewrite /rng_multivariate_normal /bind /get_rng /bind /get /lift.
rewrite getattr_rngE rng_bound /= size_map size_iota eqxx /=.
rewrite zero_means_mean mixture_covarianceE.
set mask := [seq row == alpha | row <- stc_rows a].
have := multivariate_normal_draws_spec (count id mask) (const_mx (Fin 0))
          (mixture_covariance (arrays3 (mem st0) lc) alpha) g.
case: (multivariate_normal_draws _ _ _ _ _) => xs g' /= [size_xs each].
rewrite size_map size_data eqxx /=.
eexists; eexists; split; first by [].
- by rewrite size_mask_assign.
- move=> t lt_t /=; rewrite mask_assign_nth ?size_map //.
  rewrite (nth_map [tuple of nseq (stc_width a) 0]) //.
  have := invariant t lt_t; rewrite /=.
  set r := nth _ _ t; have [r_alpha|r_other] := eqVneq r alpha.
    move=> _; rewrite orbT r_alpha; apply: each.
    apply: count_take_lt.
    by rewrite (nth_map [tuple of nseq (stc_width a) 0]) // -/r r_alpha eqxx.
  by rewrite orbF.
- by split=> //=; exists g'.
Qed.

Lemma for_fold_zero_means (st0 : state) (lc : ref) (a : stc_array F)
    (ns : nat) (alphas : seq ((stc_width a).-tuple F)) :
  covariances (self st0) = Bound lc ->
  size (arrays3 (mem st0) lc) = stc_width a ->
  ns = stc_width a ->
  forall (st : state) (data : seq 'rV[npfloat F]_n_channels)
         (processed : pred ((stc_width a).-tuple F)),
    same_but_rng st0 st ->
    size data = size (stc_rows a) ->
    drawn_rows (arrays3 (mem st0) lc) processed data ->
    exists data' st',
      [/\ for_fold (simulate_segment multivariate_normal_draw ndarray_getattr
                      (n_channels, nseq ns (nseq n_channels 0)) (stc := a))
            alphas data st
          = (Ok data', st'),
          size data' = size data,
          drawn_rows (arrays3 (mem st0) lc)
            (fun r => processed r || (r \in alphas)) data'
        & same_but_rng st0 st'].
Proof.
move=> cov_bound sizes ns_eq.
elim: alphas => [|alpha alphas IH] st data processed same size_data inv /=.
  exists data, st; split=> // t lt_t /=.
  by have := inv t lt_t; rewrite /= in_nil orbF.
have [data1 [st1 [run1 size1 inv1 same1]]] :=
  simulate_segment_zero_means alpha same cov_bound sizes ns_eq size_data inv.
rewrite /bind run1.
have [data2 [st2 [run2 size2 inv2 same2]]] :=
  IH st1 data1 _ same1 (etrans size1 size_data) inv1.
exists data2, st2; split=> //; first by rewrite size2.
move=> t lt_t /=; have := inv2 t lt_t.
by rewrite /= in_cons orbA.
Qed.

(** With zero means, consistent shapes and a non-negative observation
    error, [simulate_data] returns a new array with [n_samples] rows of
    [n_channels] entries.  Row [t] is a draw from the multivariate normal
    distribution with mean 0 and covariance sum_j alpha_j * C_j, where
    [alpha] is row [t] of the state time course and [C] the covariances,
    plus [observation_error] times a standard normal draw per channel. *)
Lemma simulate_data_zero_means (st : state) (g : Generator) (lc : ref)
    (a : stc_array F) :
  sim_varying_means (self st) = false ->
  _rng (self st) = Bound g ->
  state_time_course (self st) = Bound (Some a) ->
  covariances (self st) = Bound lc ->
  size (arrays3 (mem st) lc) = stc_width a ->
  n_states (self st) = stc_width a ->
  size (stc_rows a) = n_samples (self st) ->
  0 <= observation_error (self st) ->
  exists (st' : state) (zs : seq F),
    [/\ simulate_data st = (Ok (next_ref (mem st)), st'),
        size (arrays2 (mem st') (next_ref (mem st))) = n_samples (self st)
      & forall t : nat, (t < n_samples (self st))%N ->
        exists2 x : 'rV[npfloat F]_n_channels,
          is_draw (const_mx (Fin 0))
            (mixture_covariance (arrays3 (mem st) lc)
               (nth [tuple of nseq (stc_width a) 0] (stc_rows a) t)) x
          & nth (const_mx (Fin 0)) (arrays2 (mem st') (next_ref (mem st))) t
            = \row_j fadd (x 0 j)
                       (Fin (observation_error (self st)
                             * nth 0 zs (t * n_channels + j)%N))].
Proof.
move=> zero_means rng_bound stc_bound cov_bound sizes ns_eq rows_eq obs_ge0.
rewrite /VradSimulation.simulate_data /bind /simulate_means /bind /get.
rewrite zero_means /ret /lift getattr_state_time_courseE stc_bound /=.
have size_zeros : size (nseq (n_samples (self st))
                          (const_mx (Fin 0) : 'rV[npfloat F]_n_channels))
                  = size (stc_rows a) by rewrite size_nseq.
have inv0 : drawn_rows (arrays3 (mem st) lc)
              (pred0 : pred ((stc_width a).-tuple F))
              (nseq (n_samples (self st)) (const_mx (Fin 0))).
  by move=> t lt_t /=; rewrite nth_nseq; case: ifP.
have [data [st1 [-> size_data inv same]]] :=
  for_fold_zero_means (np_unique_rows a) cov_bound sizes ns_eq
    (same_but_rng_refl rng_bound) size_zeros inv0.
have [mem_eq [g1 rng_bound1] rest] := same.
rewrite /get_rng /bind /get /lift getattr_rngE rng_bound1 /=.
rewrite ltNge obs_ge0 /= /rng_normal /bind /get_rng /bind /get /lift.
rewrite getattr_rngE rng_bound1 /=.
case: (normal_draws _ _ _) => zs g2 /=.
rewrite /alloc2 /= mem_eq; eexists; exists zs; split; first by [].
  by rewrite /= update_same size_map size_zip size_iota minnn size_data
       size_nseq.
move=> t lt_t; rewrite /= update_same.
have lt_t' : (t < size (stc_rows a))%N by rewrite rows_eq.
have lt_data : (t < size data)%N by rewrite size_data size_nseq.
exists (nth (const_mx (Fin 0)) data t).
  have := inv t lt_t'; rewrite /= /np_unique_rows mem_sort mem_undup.
  by rewrite mem_nth.
rewrite (nth_map (0%N, const_mx (Fin 0))) ?size_zip ?size_iota ?minnn //.
by rewrite nth_zip ?size_iota //= nth_iota // add0n.
Qed.

End SimulationProperties.

(* ===================================================================== *)
(** * Concrete simulations                                                *)
(* ===================================================================== *)

Section Examples.

Import Numpy LinAlg VradSimulation.
Local Open Scope ring_scope.

Lemma two_samples_std (j : 'I_1) : std0 two_samples 0 j = 1.
Proof.
rewrite [LHS]mxE (_ : var0 two_samples 0 j = 1) ?sqrtr1 //.
rewrite !mxE /two_samples /= !big_cons !big_nil !mxE /=.
by field.
Qed.

Local Notation standardize1 := (standardize (@no_attribute 1)).


Lemma one_sample_std : std0 one_sample 0 0 = 0.
Proof.
rewrite [LHS]mxE (_ : var0 one_sample 0 0 = 0) ?sqrtr0 //.
rewrite !mxE /one_sample /= !big_cons !big_nil !mxE /=.
by field.
Qed.


(** Witness for [standardize_second_call]. *)
Lemma standardize_second_call_witness :
  exists st1 st2 : state algR 1 unit,
    [/\ standardize1 two_sample_state = (Ok tt, st1),
        standardize1 st1 = (Ok tt, st2)
      & arrays2 (mem st2) 1%N = arrays2 (mem st1) 1%N].
Proof.
have nonconstant (j : 'I_1) : std0 two_samples 0 j != 0.
  by rewrite two_samples_std oner_neq0.
have first_call :=
  @standardize_run algR 1 unit unit (@no_attribute 1) two_sample_state
    1%N 0%N (erefl _) (erefl _).
have [st2 [second_call same]] := standardize_second_call first_call.
have [series _] := same 1%N 0%N two_samples (erefl _) (erefl _) (erefl _)
                     nonconstant.
by exists (standardized 1%N 0%N two_sample_state), st2.
Defined.

(** C4 as stated fails: after a successful call, a second call succeeds
    too instead of raising. *)
Lemma standardize_twice_succeeds :
  (standardize1 two_sample_state).1 = Ok tt
  /\ (standardize1 (standardize1 two_sample_state).2).1 = Ok tt.
Proof.
rewrite (@standardize_run algR 1 unit unit (@no_attribute 1)
           two_sample_state 1%N 0%N (erefl _) (erefl _)).
split; first by [].
rewrite [(_, _).2]/=.
by rewrite (@standardize_run algR 1 unit unit (@no_attribute 1)
               (standardized 1%N 0%N two_sample_state) 1%N 0%N
               (erefl _) (erefl _)).
Qed.

Local Notation create_covariances_in n :=
  (@create_covariances algR n unit zero_normal unit (@no_attribute n)).



(** C7 as stated fails in its last part: with structured weights, two
    states and one channel, the construction raises ValueError. *)
Lemma init_structured_counterexample :
  (@__init__ algR 1 unit seeded zero_normal (@mean_draw 1) unit
     (@no_attribute 1) (@no_states 1) 10 2 false None 0 false false None
     (empty_store 1)).1
  = Raise (ValueError fill_diagonal_message).
Proof. by rewrite init_structured_raises. Qed.

(** C1.  On this input [simulate_data] does not return an array of shape
    (n_samples, n_channels): it raises ValueError, because the mean has
    length 2 and the covariance has side 3. *)
Theorem simulate_data_varying_means_raises :
  (@simulate_data algR 3 unit zero_normal (@mean_draw 3) unit
     (@no_attribute 3) varying_means_state).1
  = Raise (ValueError length_mismatch).
Proof.
exact: (@simulate_data_varying_means algR 3 unit zero_normal (@mean_draw 3)
          unit (@no_attribute 3) varying_means_state tt 0%N
          (StcArray [:: [tuple (1 : algR); 0]])
          (erefl _) (erefl _) (erefl _) (erefl _) (erefl _) (erefl _)
          (erefl _)).
Qed.

End Examples.

(* ===================================================================== *)
(** * The Data container: construction, add, remove, __str__              *)
(* ===================================================================== *)

Section DataContainer.

Import VradData.

Variables dtype frequency Subject : Type.
Variable Subject_init :
  item dtype -> string -> nat -> frequency -> result Subject.
Variable Subject_str : Subject -> result string.
Variable manipulation_prepare :
  seq Subject -> ids_arg -> option nat -> option nat -> bool -> option nat ->
  result (seq Subject).

Local Notation prepare := (prepare manipulation_prepare).
Local Notation process := (process Subject).
Local Notation Data := (Data Subject).
Local Notation __init__ := (__init__ Subject_init).
Local Notation add := (add Subject_init).
Local Notation __str__ := (__str__ Subject_str).
Local Notation remove := (@remove Subject).

Local Arguments VradData.getitem : simpl never.

Lemma size_traverse (A B : Type) (f : A -> result B) (xs : seq A)
    (ys : seq B) :
  traverse f xs = Ok ys -> size ys = size xs.
Proof.
elim: xs ys => [|x xs IH] ys /=; first by case=> <-.
case: (f x) => [y|e] //=; case: (traverse f xs) IH => [zs|e] //= IH.
by case=> <- /=; rewrite (IH zs).
Qed.

Lemma getitem_cat (l1 l2 : seq (item dtype)) (x : item dtype) :
  getitem (SubjList (l1 ++ x :: l2)) (size l1) = Ok x.
Proof.
by rewrite /getitem map_cat nth_cat size_map ltnn subnn.
Qed.


(** The index loop of lines 29-36 visits the subjects in order. *)
Lemma traverse_getitem (B : Type) (g : item dtype -> nat -> result B)
    (c : nat) (l1 l2 : seq (item dtype)) :
  traverse (fun i => rbind (getitem (SubjList (l1 ++ l2)) i)
                       (fun x => g x (i + c)))
           (iota (size l1) (size l2))
  = traverse (fun q => g q.1 q.2) (zip l2 (iota (size l1 + c) (size l2))).
Proof.
elim: l2 l1 => [|x l2 IH] l1 //=.
rewrite getitem_cat /=; case: (g x _) => [y|e] //=.
by rewrite -cat_rcons -addSn -(size_rcons l1 x) IH.
Qed.

Lemma init_list (l : seq (item dtype)) (sf : frequency) :
  __init__ (SubjList l) sf
  = rbind (traverse (fun q => Subject_init q.1 "_id" q.2 sf)
             (zip l (iota 1 (size l))))
          (fun loaded => Ok (mkData (size l) loaded false)).
Proof.
rewrite /VradData.__init__ /=.
by rewrite (traverse_getitem (fun x i => Subject_init x "_id" i sf) 1 [::] l).
Qed.

(** X1.  [Data(subjects)] for a list of subjects builds one Subject per
    entry, in order, with the identifiers 1, 2, ..., and stops at the
    first Subject that cannot be built; a single file name is treated as
    the one-element list.  A Data object that has been constructed holds
    as many subjects as the list had entries, [n_subjects] is that number,
    and it is not prepared. *)
Theorem init_numbers_from_one (l : seq (item dtype)) (sf : frequency) :
  __init__ (SubjList l) sf
  = rbind (traverse (fun q => Subject_init q.1 "_id" q.2 sf)
             (zip l (iota 1 (size l))))
          (fun loaded => Ok (mkData (size l) loaded false))
  /\ (forall s : string,
        __init__ (SubjStr dtype s) sf
        = __init__ (SubjList [:: ItemStr dtype s]) sf)
  /\ (forall d : Data,
        __init__ (SubjList l) sf = Ok d ->
        [/\ n_subjects d = size l, size (subjects d) = n_subjects d
          & prepared d = false]).
Proof.
split; first exact: init_list.
split=> [s|d] //; rewrite init_list.
case loaded_eq: (traverse _ _) => [loaded|e] //= [<-] /=.
by rewrite (size_traverse loaded_eq) size_zip size_iota minnn.
Qed.


(** ** add *)

(** The loop of lines 79-86 over the entries [l2] that follow [l1]: the
    Subjects built so far are appended, whether the loop completes or
    stops at a Subject that cannot be built. *)
Lemma add_loop (sf : frequency) (l2 l1 : seq (item dtype)) (p : process) :
  let r :=
    for_each (iota (size l1) (size l2)) (fun i =>
      bind (lift (getitem (SubjList (l1 ++ l2)) i)) (fun x =>
      bind get (fun p : process =>
      bind (lift (Subject_init x "_ids" (n_subjects (self p) + i + 1) sf))
        (fun s =>
      put (mkProcess (mkData (n_subjects (self p))
                             (rcons (subjects (self p)) s)
                             (prepared (self p)))
                     (root_log p)))))) p in
  let ids := iota (n_subjects (self p) + size l1 + 1) (size l2) in
  exists added : seq Subject,
    r.2 = mkProcess (mkData (n_subjects (self p)) (subjects (self p) ++ added)
                            (prepared (self p)))
                    (root_log p)
    /\ match r.1 with
       | Ok _ =>
           traverse (fun q => Subject_init q.1 "_ids" q.2 sf) (zip l2 ids)
           = Ok added
       | Raise e =>
           (size added < size l2)%N
           /\ traverse (fun q => Subject_init q.1 "_ids" q.2 sf) (zip l2 ids)
              = Raise e
       end.
Proof.
elim: l2 l1 p => [|x l2 IH] l1 p /=.
  by exists [::]; rewrite cats0; case: p => [[n subs b] log].
rewrite /bind /lift getitem_cat /get /=.
case built: (Subject_init x _ _ sf) => [s|e] /=; last first.
  by exists [::]; rewrite cats0; case: p {built} => [[n subs b] log].
rewrite /put -cat_rcons.
set p1 := mkProcess _ _.
have [added []] := IH (rcons l1 x) p1.
rewrite size_rcons /=.
have -> : (n_subjects (self p) + (size l1).+1 + 1
           = (n_subjects (self p) + size l1 + 1).+1)%N by rewrite !addn1 addnS.
move=> state_eq outcome.
exists (s :: added); rewrite state_eq -cats1 -catA /=; split=> //.
by case: (for_each _ _ _).1 outcome => [_ ->|e [lt_size ->]].
Qed.

(** X2.  [add] with a list of [n] new subjects, when every Subject can be
    built: the new Subjects are appended in order, [n_subjects] grows by
    [n], the prepared flag and the log are left alone, and, because
    [n_subjects] is increased before the loop, the identifiers handed to
    the new Subjects start at (old n_subjects) + n + 1, not at
    (old n_subjects) + 1. *)
Theorem add_appends_and_skips_ids (l : seq (item dtype)) (sf : frequency)
    (p : process) (added : seq Subject) :
  traverse (fun q => Subject_init q.1 "_ids" q.2 sf)
    (zip l (iota (n_subjects (self p) + size l + 1) (size l))) = Ok added ->
  add (SubjList l) sf p
  = (Ok tt,
     mkProcess (mkData (n_subjects (self p) + size l)
                       (subjects (self p) ++ added) (prepared (self p)))
               (root_log p)).
Proof.
move=> built; rewrite /VradData.add /bind /lift /= /modify /=.
set p1 := mkProcess _ _.
have [added' /= []] := add_loop sf l [::] p1.
rewrite addn0 built.
case: (for_each _ _ _) => [[[]|e] p2] /= -> //; last by case.
by case=> ->.
Qed.

(** X3.  [add] is not atomic.  When building one of the new Subjects
    raises, [add] raises the same exception, but [n_subjects] has already
    been increased by the number of new subjects while fewer Subjects
    (those built before the failure) have been appended: on an object
    whose [n_subjects] was the number of its subjects, it no longer is. *)
Theorem add_failure_leaves_count (l : seq (item dtype)) (sf : frequency)
    (p : process) (e : exception) :
  (add (SubjList l) sf p).1 = Raise e ->
  let p' := (add (SubjList l) sf p).2 in
  [/\ n_subjects (self p') = n_subjects (self p) + size l,
      exists2 added : seq Subject,
        subjects (self p') = subjects (self p) ++ added
        & (size added < size l)%N,
      prepared (self p') = prepared (self p) /\ root_log p' = root_log p
    & n_subjects (self p) = size (subjects (self p)) ->
      (size (subjects (self p')) < n_subjects (self p'))%N].
Proof.
rewrite /VradData.add /bind /lift /= /modify /=.
set p1 := mkProcess _ _.
have [added /= []] := add_loop sf l [::] p1.
case: (for_each _ _ _) => [[[]|e'] p2] /= -> // [lt_size _] _.
split=> //; first by exists added.
by move=> ->; rewrite size_cat ltn_add2l.
Qed.


(** ** remove *)

Local Notation with_subjects := (@with_subjects Subject).

Lemma remove_nil (p : process) : remove (IdsSeq [::]) p = (Ok tt, p).
Proof. by []. Qed.

Lemma remove_cons (i : int) (l : seq int) (p : process) :
  remove (IdsSeq (i :: l)) p
  = match list_delitem (subjects (self p)) (i - 1)%R with
    | Ok remaining => remove (IdsSeq l) (with_subjects remaining p)
    | Raise e => (Raise e, p)
    end.
Proof.
rewrite /VradData.remove /bind /lift /= /bind /get /lift.
by case: (list_delitem _ _).
Qed.

Lemma remove_int (i : int) (p : process) :
  remove (IdsInt i) p = remove (IdsSeq [:: i]) p.
Proof. by []. Qed.

(** Deleting the entry at the 1-based position [k]. *)
Lemma list_delitem_pos (A : Type) (l : seq A) (k : nat) :
  (0 < k <= size l)%N ->
  list_delitem l (Posz k - 1)%R = Ok (take k.-1 l ++ drop k l).
Proof.
case: k => [|k] //= lt_k; rewrite /list_delitem.
by rewrite -addn1 PoszD addrK /= ltz_nat lt_k addn1.
Qed.

Lemma size_delete (A : Type) (l : seq A) (k : nat) :
  (k < size l)%N -> (size (take k l ++ drop k.+1 l)).+1 = size l.
Proof.
move=> lt_k; rewrite size_cat size_take lt_k size_drop -addnS.
by rewrite subnSK // subnKC // ltnW.
Qed.

Lemma size_list_delitem (A : Type) (l remaining : seq A) (i : int) :
  list_delitem l i = Ok remaining -> (size remaining).+1 = size l.
Proof.
rewrite /list_delitem; set k := (if (i < 0)%R then _ else _).
case: ifP => // /andP[k_ge0 k_lt] [<-].
by apply: size_delete; rewrite -(ltz_nat `|k| (size l)) gez0_abs.
Qed.


Lemma remove_range (start stop : nat) (p : process) :
  remove (IdsRange start stop) p
  = remove (IdsSeq [seq Posz k | k <- iota start (stop - start)]) p.
Proof. by rewrite /VradData.remove /= -map_comp. Qed.

Lemma remove_str (s : string) (p : process) :
  remove (IdsStr s) p
  = (if s is EmptyString then Ok tt else Raise (TypeError minus_message), p).
Proof. by case: s. Qed.

Lemma remove_seq_frame (l : seq int) (p : process) :
  let r := remove (IdsSeq l) p in
  [/\ n_subjects (self r.2) = n_subjects (self p),
      prepared (self r.2) = prepared (self p),
      root_log r.2 = root_log p
    & r.1 = Ok tt ->
      (size (subjects (self r.2)) + size l)%N = size (subjects (self p))].
Proof.
elim: l p => [|i l IH] p; first by rewrite remove_nil /= addn0.
rewrite remove_cons.
case deleted: (list_delitem _ _) => [remaining|e] //=.
have [-> -> -> sizes] := IH (with_subjects remaining p); split=> //.
by move=> /sizes /= sizes'; rewrite addnS sizes' (size_list_delitem deleted).
Qed.

(** X4.  [remove] never updates [n_subjects] (nor the prepared flag, nor
    the log), whatever [ids] is and whether or not it raises.  When a list
    of ids has been removed without an error, the list of subjects is
    shorter by the number of ids, so on an object whose [n_subjects] was
    the number of its subjects, [n_subjects] is afterwards larger than
    the number of subjects as soon as one id was given. *)
Theorem remove_leaves_count (ids : ids_arg) (p : process) :
  let p' := (remove ids p).2 in
  [/\ n_subjects (self p') = n_subjects (self p),
      prepared (self p') = prepared (self p),
      root_log p' = root_log p
    & forall l : seq int,
        ids = IdsSeq l -> (remove ids p).1 = Ok tt ->
        (size (subjects (self p')) + size l)%N = size (subjects (self p))
        /\ (n_subjects (self p) = size (subjects (self p)) -> l != [::] ->
            (size (subjects (self p')) < n_subjects (self p'))%N)].
Proof.
case: ids => [i|l|s|start stop] p'; rewrite {}/p'.
- rewrite remove_int; have [-> -> ->] := remove_seq_frame [:: i] p.
  by split.
- have [count_eq -> -> sizes] := remove_seq_frame l p.
  split=> // l' [<-] /sizes sizes'; split=> //.
  rewrite count_eq => -> nonempty; rewrite -sizes' -[X in (X < _)%N]addn0.
  by rewrite ltn_add2l lt0n size_eq0.
- by rewrite remove_str; split.
- rewrite remove_range.
  have [-> -> ->] :=
    remove_seq_frame [seq Posz k | k <- iota start (stop - start)] p.
  by split.
Qed.

(** Deleting with an index that counts from the end. *)
Lemma list_delitem_neg (A : Type) (l : seq A) (m : nat) :
  (m < size l)%N ->
  list_delitem l (- Posz m - 1)%R
  = Ok (take (size l - m).-1 l ++ drop (size l - m) l).
Proof.
move=> lt_m; rewrite /list_delitem.
have -> : (- Posz m - 1 = Negz m)%R by rewrite NegzE -addn1 PoszD opprD.
rewrite [(Negz m < 0)%R]/=.
have -> : (Negz m + Posz (size l) = Posz (size l - m).-1)%R.
  rewrite -{1}(subnKC lt_m) NegzE PoszD addKr; congr Posz.
  by rewrite subnS.
rewrite /= ltz_nat prednK ?subn_gt0 //.
by rewrite leq_subr.
Qed.

Lemma list_delitem_out (A : Type) (l : seq A) (i : int) :
  (i <= - Posz (size l))%R || (Posz (size l) < i)%R ->
  list_delitem l (i - 1)%R
  = Raise (IndexError "list assignment index out of range").
Proof.
rewrite /list_delitem; case/orP=> [le_i|lt_i].
- have neg : (i - 1 < 0)%R.
    rewrite subr_lt0; apply: le_lt_trans le_i _.
    by apply: le_lt_trans ltr01; rewrite oppr_le0.
  rewrite neg.
  have -> // : (0 <= i - 1 + Posz (size l))%R = false.
  apply/negbTE; rewrite -ltNge addrAC subr_lt0.
  by apply: le_lt_trans ltr01; rewrite -lerBrDr sub0r.
- have pos : (i - 1 < 0)%R = false.
    apply/negbTE; rewrite -leNgt subr_ge0.
    have: (0 < i)%R by apply: le_lt_trans lt_i.
    by rewrite -gtz0_ge1.
  rewrite pos.
  have -> : (i - 1 < Posz (size l))%R = false; last by rewrite andbF.
  by apply/negbTE; rewrite -leNgt -ltzD1 subrK.
Qed.

(** X5.  [remove] with a single id [i], on an object with [n] subjects.
    For [1 <= i <= n] the subject at the 1-based position [i] is deleted.
    For [-n < i <= 0] the id counts from the end of the list: the subject
    at position [n + i] goes, so that id 0 deletes the last subject.  Any
    other id raises IndexError and changes nothing. *)
Theorem remove_single_id (i : int) (p : process) :
  let subs := subjects (self p) in
  let n := size subs in
  ((0 < i <= Posz n)%R ->
   remove (IdsInt i) p
   = (Ok tt, with_subjects (take `|i|.-1 subs ++ drop `|i| subs) p))
  /\ ((- Posz n < i <= 0)%R ->
      remove (IdsInt i) p
      = (Ok tt,
         with_subjects (take (n - `|i|).-1 subs ++ drop (n - `|i|) subs) p))
  /\ ((i <= - Posz n)%R || (Posz n < i)%R ->
      remove (IdsInt i) p
      = (Raise (IndexError "list assignment index out of range"), p)).
Proof.
move=> subs n; rewrite remove_int remove_cons.
split; [|split].
- case: i => [k|k] //; rewrite lez_nat ltz_nat => range.
  by rewrite list_delitem_pos.
- case/andP=> gt_i le_i.
  have i_eq : i = (- Posz `|i|)%R by rewrite abszE ler0_norm ?opprK.
  have lt_m : (`|i| < n)%N.
    by rewrite -ltz_nat abszE ler0_norm // ltrNl.
  by rewrite {1}i_eq list_delitem_neg.
- by move=> out; rewrite list_delitem_out.
Qed.


(** ** The positions that a list of ids removes *)

Lemma kept_from_cons (A : Type) (first : nat) (ks : seq nat) (x : A)
    (a : seq A) :
  kept_from first ks (x :: a)
  = (if first.+1 \notin ks then [:: x] else [::]) ++ kept_from first.+1 ks a.
Proof. by rewrite /kept_from /=; case: ifP. Qed.

Lemma kept_from_cat (A : Type) (first : nat) (ks : seq nat) (a b : seq A) :
  kept_from first ks (a ++ b)
  = kept_from first ks a ++ kept_from (first + size a) ks b.
Proof.
by rewrite /kept_from size_cat iotaD map_cat mask_cat // size_map size_iota.
Qed.

Lemma kept_from_ext (A : Type) (first first' : nat) (ks ks' : seq nat)
    (a : seq A) :
  (forall d, (d < size a)%N ->
     ((first + d).+1 \in ks) = ((first' + d).+1 \in ks')) ->
  kept_from first ks a = kept_from first' ks' a.
Proof.
elim: a first first' => [|x a IH] first first' same //.
rewrite !kept_from_cons -[first.+1 \in ks]/((first.+1 \in ks)).
have := same 0%N isT; rewrite !addn0 => ->.
congr (_ ++ _); apply: IH => d lt_d.
by have := same d.+1 lt_d; rewrite !addnS !addSn.
Qed.

Lemma kept_from_nil (A : Type) (first : nat) (a : seq A) :
  kept_from first [::] a = a.
Proof.
by elim: a first => [|x a IH] first //; rewrite kept_from_cons IH.
Qed.

Lemma kept_from_all (A : Type) (first : nat) (ks : seq nat) (a : seq A) :
  (forall d, (d < size a)%N -> (first + d).+1 \notin ks) ->
  kept_from first ks a = a.
Proof.
move=> out; rewrite -[RHS](kept_from_nil first); apply: kept_from_ext.
by move=> d /out /negbTE ->.
Qed.

(** Deleting the entry at position [j + 1] from a list in which the
    positions [ks], all at most [j], are still to be deleted. *)
Lemma without_delete (A : Type) (ks : seq nat) (j : nat) (l : seq A) :
  (j < size l)%N -> all (fun k => k <= j)%N ks ->
  without ks (take j l ++ drop j.+1 l) = without (j.+1 :: ks) l.
Proof.
move=> lt_j /allP small.
case: l lt_j => [|x0 l'] // lt_j; set l := x0 :: l' in lt_j *.
have size_a : size (take j l) = j by rewrite size_take lt_j.
rewrite -[in RHS](cat_take_drop j l) (drop_nth x0 lt_j) /without.
rewrite !kept_from_cat kept_from_cons size_a !add0n mem_head /=.
congr (_ ++ _).
  apply: kept_from_ext => d; rewrite size_a add0n => lt_d.
  by rewrite in_cons eqSS (ltn_eqF lt_d).
rewrite !kept_from_all // => d _.
  by apply/negP => /small; rewrite ltnNge leq_addr.
rewrite in_cons negb_or -addnS -[X in _ != X]addn0 eqn_add2l /=.
by apply/negP => /small; rewrite addnS ltnNge addSn leqW ?leq_addr.
Qed.

(** X6.  [remove] with a list of ids in strictly decreasing order, each
    between 1 and the number of subjects, removes exactly the subjects at
    those 1-based positions and keeps the others in order. *)
Theorem remove_descending (ks : seq nat) (p : process) :
  sorted gtn ks ->
  all (fun k => 0 < k <= size (subjects (self p)))%N ks ->
  remove (IdsSeq [seq Posz k | k <- ks]) p
  = (Ok tt, with_subjects (without ks (subjects (self p))) p).
Proof.
elim: ks p => [|k ks IH] p /=.
  by rewrite remove_nil /without kept_from_nil; case: p => [[n subs b] log].
move=> decreasing /andP[range in_range].
have gtn_trans : transitive gtn.
  by move=> y x z /= lt_yx lt_zy; apply: ltn_trans lt_zy lt_yx.
have below : all (gtn k) ks by apply: order_path_min decreasing.
rewrite remove_cons list_delitem_pos //.
have [gt0_k le_k] := andP range.
have lt_pred : (k.-1 < size (subjects (self p)))%N by rewrite prednK.
have sorted_ks : sorted gtn ks by exact: path_sorted decreasing.
set remaining := take _ _ ++ drop _ _.
have size_remaining : (size remaining).+1 = size (subjects (self p)).
  by rewrite /remaining -[X in drop X](prednK gt0_k) size_delete.
have range_ks : all (fun k' => 0 < k' <= size remaining)%N ks.
  apply/allP => k' in_ks; have /andP[-> _ /=] := allP in_range k' in_ks.
  rewrite -ltnS size_remaining.
  by apply: leq_trans le_k; apply: (allP below).
rewrite (IH (with_subjects remaining p) sorted_ks range_ks) /=.
congr (_, _); rewrite /with_subjects /=; congr (mkProcess (mkData _ _ _) _).
rewrite /remaining -[X in drop X](prednK gt0_k) without_delete ?prednK //.
by apply/allP => k' /(allP below) /= lt_k'; rewrite -ltnS prednK.
Qed.


Lemma delete_without (A : Type) (j : nat) (l : seq A) :
  (j < size l)%N -> take j l ++ drop j.+1 l = without [:: j.+1] l.
Proof.
by move=> lt_j; rewrite -without_delete // /without kept_from_nil.
Qed.

(** Deleting position [j] from a list from which position [m + 1 <= j]
    has been deleted takes out what was at position [j + 1]. *)
Lemma without_shift (A : Type) (m j : nat) (l : seq A) :
  (m < j)%N -> (m < size l)%N ->
  without [:: j] (take m l ++ drop m.+1 l) = without [:: m.+1; j.+1] l.
Proof.
move=> lt_mj lt_m.
case: l lt_m => [|x0 l'] // lt_m; set l := x0 :: l' in lt_m *.
have size_a : size (take m l) = m by rewrite size_take lt_m.
rewrite -[in RHS](cat_take_drop m l) (drop_nth x0 lt_m) /without.
rewrite !kept_from_cat kept_from_cons size_a !add0n mem_head /=.
congr (_ ++ _); apply: kept_from_ext => d.
  rewrite size_a add0n !inE !eqSS => lt_d.
  rewrite (ltn_eqF lt_d) (ltn_eqF (ltn_trans lt_d lt_mj)).
  by rewrite (ltn_eqF (leq_ltn_trans lt_d lt_mj)).
move=> _; rewrite !inE !eqSS addSn.
by rewrite [(_ == m)]gtn_eqF // ltnS leq_addr.
Qed.

(** X7.  [remove] reads every id against the list as the earlier
    deletions have left it.  With two ids in increasing order, [i <= j],
    the second deletion therefore takes out the subject that was at
    position [j + 1], not the one at position [j]: remove([1, 2]) removes
    the first and the third subject. *)
Theorem remove_increasing_pair (i j : nat) (p : process) :
  (0 < i <= j)%N -> (j < size (subjects (self p)))%N ->
  remove (IdsSeq [:: Posz i; Posz j]) p
  = (Ok tt, with_subjects (without [:: i; j.+1] (subjects (self p))) p).
Proof.
case: i => [|m] //; rewrite ltnS /= => lt_mj lt_j.
have lt_m : (m < size (subjects (self p)))%N by apply: ltn_trans lt_j.
rewrite remove_cons list_delitem_pos ?lt_m //= remove_cons /=.
have size_rest :
    (size (take m (subjects (self p)) ++ drop m.+1 (subjects (self p)))).+1
    = size (subjects (self p)) by apply: size_delete.
have gt0_j : (0 < j)%N by apply: leq_ltn_trans lt_mj.
set rest := take m _ ++ drop m.+1 _ in size_rest *.
have in_rest : (0 < j <= size rest)%N by rewrite gt0_j -ltnS size_rest.
have lt_pred : (j.-1 < size rest)%N by rewrite prednK //; case/andP: in_rest.
rewrite (list_delitem_pos in_rest) remove_nil /with_subjects /=.
congr (_, mkProcess (mkData _ _ _) _).
rewrite -[X in drop X _](prednK gt0_j) (delete_without lt_pred) prednK //.
exact: without_shift.
Qed.


(** ** __str__ *)

Lemma traverse_cat (A B : Type) (f : A -> result B) (xs ys : seq A) :
  traverse f (xs ++ ys)
  = rbind (traverse f xs) (fun a =>
    rbind (traverse f ys) (fun b => Ok (a ++ b))).
Proof.
elim: xs => [|x xs IH] /=; first by case: (traverse f ys).
rewrite IH; case: (f x) => [y|e] //=.
case: (traverse f xs) => [a|e] //=.
by case: (traverse f ys).
Qed.

Lemma list_getitem_cat (A : Type) (l1 l2 : seq A) (x : A) :
  list_getitem (l1 ++ x :: l2) (size l1) = Ok x.
Proof. by rewrite /list_getitem map_cat nth_cat size_map ltnn subnn. Qed.

Lemma list_getitem_out (A : Type) (l : seq A) (i : nat) :
  (size l <= i)%N ->
  list_getitem l i = Raise (IndexError "list index out of range").
Proof. by move=> le_i; rewrite /list_getitem nth_default ?size_map. Qed.

Lemma str_indices (l1 l2 : seq Subject) :
  traverse (fun i => rbind (list_getitem (l1 ++ l2) i) Subject_str)
           (iota (size l1) (size l2))
  = traverse Subject_str l2.
Proof.
elim: l2 l1 => [|s l2 IH] l1 //=.
rewrite list_getitem_cat /=; case: (Subject_str s) => [t|e] //=.
by rewrite -cat_rcons -(size_rcons l1 s) IH.
Qed.

(** X8.  On a Data object whose [n_subjects] is the number of its
    subjects, [str(data)] is the descriptions of the subjects, in order,
    joined by a blank line (two newline characters); it raises only what
    the description of a subject raises. *)
Theorem str_joins_subjects (d : Data) :
  n_subjects d = size (subjects d) ->
  __str__ d
  = rbind (traverse Subject_str (subjects d))
          (fun descriptions => Ok (String.concat blank_line descriptions)).
Proof.
by move=> consistent; rewrite /VradData.__str__ consistent (str_indices [::]).
Qed.

Lemma str_stale_count (d : Data) :
  (size (subjects d) < n_subjects d)%N ->
  __str__ d
  = rbind (traverse Subject_str (subjects d))
          (fun _ => Raise (IndexError "list index out of range")).
Proof.
move=> stale; rewrite /VradData.__str__ -(subnKC (ltnW stale)) iotaD.
rewrite traverse_cat add0n (str_indices [::]).
case: (traverse Subject_str _) => [descriptions|e] //=.
case extra: (n_subjects d - size (subjects d))%N => [|k] /=.
  by move/eqP: extra; rewrite subn_eq0 leqNgt stale.
by rewrite list_getitem_out.
Qed.

(** X9.  [remove] followed by [str].  After a non-empty list of ids has
    been removed, without an error, from a Data object whose [n_subjects]
    was the number of its subjects, [str(data)] raises: [__str__] indexes
    the subjects up to the stale [n_subjects].  The exception is
    IndexError unless the description of a remaining subject raises
    first. *)
Theorem str_after_remove (l : seq int) (p p' : process) :
  n_subjects (self p) = size (subjects (self p)) ->
  l != [::] ->
  remove (IdsSeq l) p = (Ok tt, p') ->
  (exists e, __str__ (self p') = Raise e)
  /\ ((forall s, exists t, Subject_str s = Ok t) ->
      __str__ (self p') = Raise (IndexError "list index out of range")).
Proof.
move=> consistent nonempty removed.
have [count_eq _ _] := remove_seq_frame l p.
rewrite removed /= in count_eq * => /(_ (erefl _)) sizes.
have stale : (size (subjects (self p')) < n_subjects (self p'))%N.
  rewrite count_eq consistent -sizes -[X in (X < _)%N]addn0 ltn_add2l.
  by rewrite lt0n size_eq0.
rewrite (str_stale_count stale); split.
  case: (traverse _ _) => [descriptions|e] /=; last by exists e.
  by eexists.
move=> total; suff [ds ->] : exists ds, traverse Subject_str (subjects (self p')) = Ok ds by [].
elim: (subjects (self p')) => [|s subs [ds IH]] /=; first by exists [::].
by have [t ->] := total s; rewrite IH /=; exists (t :: ds).
Qed.


(** ** add after prepare *)

Lemma prepare_warns (ids : ids_arg) (n_embeddings n_pca_components : option nat)
    (whiten : bool) (random_seed : option nat) (p : process) :
  ids_known ids -> prepared (self p) ->
  prepare ids n_embeddings n_pca_components whiten random_seed p
  = (Ok tt, warned p).
Proof.
move=> known is_prepared.
rewrite /VradData.prepare /bind /get /ret /raise.
case: ids known => [i|l|s|lo hi] //=; rewrite ?is_prepared //.
by move=> ->; rewrite /= is_prepared.
Qed.

(** X22.  Subjects added to prepared data are never prepared.  [add]
    leaves the prepared flag as it is, so after subjects have been added
    to a prepared Data object, [prepare] (with an accepted [ids]) only
    logs its warning: manipulation.prepare is not called and the added
    subjects stay as the Subject constructor built them. *)
Theorem add_after_prepare (l : seq (item dtype)) (sf : frequency)
    (p : process) (added : seq Subject) (ids : ids_arg)
    (n_embeddings n_pca_components : option nat) (whiten : bool)
    (random_seed : option nat) :
  prepared (self p) ->
  ids_known ids ->
  traverse (fun q => Subject_init q.1 "_ids" q.2 sf)
    (zip l (iota (n_subjects (self p) + size l + 1) (size l))) = Ok added ->
  bind (add (SubjList l) sf)
       (fun _ => prepare ids n_embeddings n_pca_components whiten random_seed)
       p
  = (Ok tt,
     warned (mkProcess (mkData (n_subjects (self p) + size l)
                               (subjects (self p) ++ added) true)
                       (root_log p))).
Proof.
move=> is_prepared known built.
rewrite /bind /VradData.add /bind /lift /= /modify /=.
set p1 := mkProcess _ _.
have [added' /= []] := add_loop sf l [::] p1.
rewrite addn0 built.
case: (for_each _ _ _) => [[[]|e] p2] /= -> //; last by case.
by case=> ->; rewrite prepare_warns // is_prepared.
Qed.

End DataContainer.

(* ===================================================================== *)
(** * Simulation: construction with simulate=True, errors of              *)
(** * simulate_data, structured covariances, standardize                  *)
(* ===================================================================== *)

Section SimulationRuns.

Import Numpy LinAlg VradSimulation.
Local Open Scope ring_scope.

Variable F : rcfType.
Variable n_channels : nat.
Variable Generator : Type.
Variable default_rng : option nat -> Generator.
Variable standard_normal : Generator -> F * Generator.
Variable multivariate_normal_draw :
  'rV[npfloat F]_n_channels -> 'M[npfloat F]_n_channels -> Generator ->
  'rV[npfloat F]_n_channels * Generator.
Variable foreign : Type.
Variable ndarray_getattr :
  seq 'rV[npfloat F]_n_channels -> string -> result foreign.

Local Notation state := (state F n_channels Generator).
Variable generate_states : M state (stc_array F).
Local Notation value := (value F Generator foreign).
Local Notation getattr := (getattr ndarray_getattr).
Local Notation standardize := (standardize ndarray_getattr).
Local Notation create_covariances :=
  (create_covariances standard_normal ndarray_getattr).
Local Notation simulate_data :=
  (simulate_data standard_normal multivariate_normal_draw ndarray_getattr).
Local Notation constructed := (constructed default_rng).
Local Notation is_draw := (is_draw multivariate_normal_draw).
Local Notation drawn_rows := (drawn_rows multivariate_normal_draw).
Local Notation Simulation := (Simulation F Generator).
Local Notation __init__ :=
  (__init__ default_rng standard_normal multivariate_normal_draw
     ndarray_getattr generate_states).
Local Notation simulate :=
  (simulate standard_normal multivariate_normal_draw ndarray_getattr
     generate_states).

Local Arguments VradSimulation.create_covariances : simpl never.
Local Arguments VradSimulation.simulate : simpl never.
Local Arguments VradSimulation.simulate_data : simpl never.
Local Arguments VradSimulation.normal_draws : simpl never.

(** What [same_but_rng] says about the object. *)
Lemma same_but_rng_self (st st' : state) :
  same_but_rng st st' ->
  exists2 g, _rng (self st') = Bound g
           & self st' = set__rng (Bound g) (self st).
Proof.
case=> _ [g rng_bound] /(_ (Bound g)) same; exists g => //; rewrite -same.
by case: (self st') rng_bound => ? ? ? ? ? ? ? ? rng ? ? /= ->.
Qed.


Local Notation advanced := (@advanced F n_channels Generator).
Local Notation allocated2 := (@allocated2 F n_channels Generator).

Lemma same_but_rng_advanced (st st' : state) :
  same_but_rng st st' -> exists g, st' = advanced g st.
Proof.
move=> same; have [mem_eq _ _] := same.
have [g _ self_eq] := same_but_rng_self same; exists g.
by case: st' mem_eq self_eq {same} => m s /= -> ->.
Qed.

(** ** simulate_data with zero means *)

(** The loop of lines 176-186 with zero means and consistent shapes: it
    completes, only the generator changes, and every row of the result is
    a draw with mean 0 and the covariance of its mixture. *)
Lemma loop_zero_means (st : state) (g : Generator) (lc : ref)
    (a : stc_array F) :
  _rng (self st) = Bound g ->
  covariances (self st) = Bound lc ->
  size (arrays3 (mem st) lc) = stc_width a ->
  n_states (self st) = stc_width a ->
  size (stc_rows a) = n_samples (self st) ->
  exists (data : seq 'rV[npfloat F]_n_channels) (g1 : Generator),
    [/\ for_fold (simulate_segment multivariate_normal_draw ndarray_getattr
                    (n_channels,
                     nseq (n_states (self st)) (nseq n_channels 0))
                    (stc := a))
          (np_unique_rows a)
          (nseq (n_samples (self st)) (const_mx (Fin 0))) st
        = (Ok data, advanced g1 st),
        size data = n_samples (self st)
      & forall t : nat, (t < n_samples (self st))%N ->
          is_draw (const_mx (Fin 0))
            (mixture_covariance (arrays3 (mem st) lc)
               (nth [tuple of nseq (stc_width a) 0] (stc_rows a) t))
            (nth (const_mx (Fin 0)) data t)].
Proof.
move=> rng_bound cov_bound sizes ns_eq rows_eq.
have size_zeros : size (nseq (n_samples (self st))
                          (const_mx (Fin 0) : 'rV[npfloat F]_n_channels))
                  = size (stc_rows a) by rewrite size_nseq.
have inv0 : drawn_rows (arrays3 (mem st) lc)
              (pred0 : pred ((stc_width a).-tuple F))
              (nseq (n_samples (self st)) (const_mx (Fin 0))).
  by move=> t lt_t /=; rewrite nth_nseq; case: ifP.
have [data [st1 [run size_data inv same]]] :=
  for_fold_zero_means ndarray_getattr (np_unique_rows a) cov_bound sizes ns_eq
    (same_but_rng_refl rng_bound) size_zeros inv0.
have [g1 st1_eq] := same_but_rng_advanced same.
exists data, g1; split; first by rewrite run st1_eq.
  by rewrite size_data size_nseq.
move=> t lt_t; have lt_t' : (t < size (stc_rows a))%N by rewrite rows_eq.
have := inv t lt_t'; rewrite /= /np_unique_rows mem_sort mem_undup.
by rewrite mem_nth.
Qed.

Lemma noisy_rows (sigma : F) (zs : seq F)
    (data : seq 'rV[npfloat F]_n_channels) :
  map (fun p : nat * 'rV[npfloat F]_n_channels =>
         \row_j fadd (p.2 0 j) (Fin (sigma * nth 0 zs (p.1 * n_channels + j)%N)))
      (zip (iota 0 (size data)) data)
  = [seq with_noise sigma zs data t | t <- iota 0 (size data)].
Proof.
apply: (@eq_from_nth _ (const_mx (Fin 0))).
  by rewrite !size_map size_zip size_iota minnn.
move=> t; rewrite size_map size_zip size_iota minnn => lt_t.
rewrite (nth_map (0%N, const_mx (Fin 0))) ?size_zip ?size_iota ?minnn //.
rewrite nth_zip ?size_iota //= nth_iota // add0n.
by rewrite (nth_map 0%N) ?size_iota // nth_iota // add0n.
Qed.

Lemma noisy_rows_sized (sigma : F) (zs : seq F)
    (data : seq 'rV[npfloat F]_n_channels) (n : nat) :
  size data = n ->
  map (fun p : nat * 'rV[npfloat F]_n_channels =>
         \row_j fadd (p.2 0 j) (Fin (sigma * nth 0 zs (p.1 * n_channels + j)%N)))
      (zip (iota 0 n) data)
  = [seq with_noise sigma zs data t | t <- iota 0 n].
Proof. by move=> <-; apply: noisy_rows. Qed.

(** [simulate_data] with zero means and consistent shapes, whatever the
    sign of the observation error. *)
Lemma simulate_data_zero_means_run (st : state) (g : Generator) (lc : ref)
    (a : stc_array F) :
  sim_varying_means (self st) = false ->
  _rng (self st) = Bound g ->
  state_time_course (self st) = Bound (Some a) ->
  covariances (self st) = Bound lc ->
  size (arrays3 (mem st) lc) = stc_width a ->
  n_states (self st) = stc_width a ->
  size (stc_rows a) = n_samples (self st) ->
  exists (data : seq 'rV[npfloat F]_n_channels) (g1 : Generator),
    [/\ size data = n_samples (self st),
        forall t : nat, (t < n_samples (self st))%N ->
          is_draw (const_mx (Fin 0))
            (mixture_covariance (arrays3 (mem st) lc)
               (nth [tuple of nseq (stc_width a) 0] (stc_rows a) t))
            (nth (const_mx (Fin 0)) data t)
      & simulate_data st
        = if observation_error (self st) < 0
          then (Raise (ValueError "scale < 0"), advanced g1 st)
          else
            let draws :=
              normal_draws standard_normal
                (n_samples (self st) * n_channels) g1 in
            (Ok (next_ref (mem st)),
             allocated2 (advanced draws.2 st)
               [seq with_noise (observation_error (self st)) draws.1 data t
               | t <- iota 0 (n_samples (self st))])].
Proof.
move=> zero_means rng_bound stc_bound cov_bound sizes ns_eq rows_eq.
have [data [g1 [run size_data draws]]] :=
  loop_zero_means rng_bound cov_bound sizes ns_eq rows_eq.
exists data, g1; split=> //.
rewrite /VradSimulation.simulate_data /bind /simulate_means /bind /get.
rewrite zero_means /ret /lift getattr_state_time_courseE stc_bound /= run.
rewrite -size_data /get_rng /bind /get /lift getattr_rngE /=.
case: ifP => // _.
rewrite /rng_normal /bind /get_rng /bind /get /lift getattr_rngE /=.
case: (normal_draws _ _ _) => zs g2 /=.
by rewrite /alloc2 /= noisy_rows; case: (st) => m [].
Qed.



(** X11.  A negative [observation_error] is detected late.  With zero
    means and consistent shapes, [simulate_data] first draws the samples
    for every timestep and only then raises ValueError (numpy's
    "scale < 0"): no array is allocated, no attribute changes, but the
    generator has advanced. *)
Theorem negative_observation_error (st : state) (g : Generator) (lc : ref)
    (a : stc_array F) :
  sim_varying_means (self st) = false ->
  _rng (self st) = Bound g ->
  state_time_course (self st) = Bound (Some a) ->
  covariances (self st) = Bound lc ->
  size (arrays3 (mem st) lc) = stc_width a ->
  n_states (self st) = stc_width a ->
  size (stc_rows a) = n_samples (self st) ->
  observation_error (self st) < 0 ->
  exists g1 : Generator,
    simulate_data st = (Raise (ValueError "scale < 0"), advanced g1 st)
    /\ exists2 data : seq 'rV[npfloat F]_n_channels,
         size data = n_samples (self st)
         & (for_fold (simulate_segment multivariate_normal_draw
                        ndarray_getattr
                        (n_channels,
                         nseq (n_states (self st)) (nseq n_channels 0))
                        (stc := a))
              (np_unique_rows a)
              (nseq (n_samples (self st)) (const_mx (Fin 0))) st)
           = (Ok data, advanced g1 st).
Proof.
move=> zero_means rng_bound stc_bound cov_bound sizes ns_eq rows_eq negative.
have [data [g1 [run size_data _]]] :=
  loop_zero_means rng_bound cov_bound sizes ns_eq rows_eq.
exists g1; split; last by exists data.
rewrite /VradSimulation.simulate_data /bind /simulate_means /bind /get.
rewrite zero_means /ret /lift getattr_state_time_courseE stc_bound /= run.
by rewrite /get_rng /bind /get /lift getattr_rngE /= negative.
Qed.


(** One pass through the loop body when the state time course and the
    data array differ in length: the samples are drawn, then the
    assignment through the boolean mask fails. *)
Lemma simulate_segment_wrong_length (st : state) (g : Generator) (lc : ref)
    (a : stc_array F) (data : seq 'rV[npfloat F]_n_channels)
    (alpha : (stc_width a).-tuple F) (ns : nat) :
  _rng (self st) = Bound g ->
  covariances (self st) = Bound lc ->
  size (arrays3 (mem st) lc) = stc_width a ->
  ns = stc_width a ->
  size (stc_rows a) != size data ->
  exists g1 : Generator,
    simulate_segment multivariate_normal_draw ndarray_getattr
      (n_channels, nseq ns (nseq n_channels 0)) data alpha st
    = (Raise (IndexError "boolean index did not match indexed array"),
       advanced g1 st).
Proof.
move=> rng_bound cov_bound sizes ns_eq mismatch.
rewrite /simulate_segment /bind /of_broadcast /=.
rewrite broadcast2_same_size ?size_nseq ?size_tuple //=.
rewrite /ret /get /lift getattr_covariancesE cov_bound /=.
rewrite broadcast2_same_size ?size_tuple //=.
rewrite /rng_multivariate_normal /bind /get_rng /bind /get /lift.
rewrite getattr_rngE rng_bound /= size_map size_iota eqxx /=.
case: (multivariate_normal_draws _ _ _ _ _) => xs g1 /=.
by rewrite size_map mismatch /raise; exists g1.
Qed.

(** X12.  A state time course whose number of rows differs from
    [n_samples] (zero means, consistent shapes otherwise).  If it has at
    least one row, [simulate_data] raises IndexError at the first
    assignment through the boolean mask, after the samples of the first
    mixture have been drawn: only the generator has changed.  If it has no
    row at all, the loop body never runs and, for a non-negative
    observation error, [simulate_data] returns [n_samples] rows of pure
    observation noise. *)
Theorem wrong_length_state_time_course (st : state) (g : Generator)
    (lc : ref) (a : stc_array F) :
  sim_varying_means (self st) = false ->
  _rng (self st) = Bound g ->
  state_time_course (self st) = Bound (Some a) ->
  covariances (self st) = Bound lc ->
  size (arrays3 (mem st) lc) = stc_width a ->
  n_states (self st) = stc_width a ->
  size (stc_rows a) != n_samples (self st) ->
  (stc_rows a != [::] ->
   exists g1 : Generator,
     simulate_data st
     = (Raise (IndexError "boolean index did not match indexed array"),
        advanced g1 st))
  /\ (stc_rows a = [::] -> 0 <= observation_error (self st) ->
      let draws :=
        normal_draws standard_normal (n_samples (self st) * n_channels) g in
      simulate_data st
      = (Ok (next_ref (mem st)),
         allocated2 (advanced draws.2 st)
           [seq \row_j Fin (observation_error (self st)
                            * nth 0 draws.1 (t * n_channels + j)%N)
           | t <- iota 0 (n_samples (self st))])).
Proof.
move=> zero_means rng_bound stc_bound cov_bound sizes ns_eq mismatch.
rewrite /VradSimulation.simulate_data /bind /simulate_means /bind /get.
rewrite zero_means /ret /lift getattr_state_time_courseE stc_bound /=.
split.
- move=> /np_unique_rows_nonempty.
  case: (np_unique_rows a) => [|alpha alphas] // _.
  rewrite [for_fold _ _ _ _]/= /bind.
  have mismatch' :
      size (stc_rows a)
      != size (nseq (n_samples (self st))
                 (const_mx (Fin 0) : 'rV[npfloat F]_n_channels)).
    by rewrite size_nseq.
  have [g1 ->] :=
    simulate_segment_wrong_length alpha rng_bound cov_bound sizes ns_eq
      mismatch'.
  by exists g1.
- move=> no_rows obs_ge0.
  rewrite /np_unique_rows no_rows /= /ret.
  rewrite /get_rng /bind /get /lift getattr_rngE rng_bound /=.
  rewrite ltNge obs_ge0 /=.
  rewrite /rng_normal /bind /get_rng /bind /get /lift getattr_rngE rng_bound.
  rewrite /= size_nseq.
  case: (normal_draws _ _ _) => zs g2 /=.
  rewrite /alloc2 /= (noisy_rows_sized _ _ (size_nseq _ _)).
  rewrite /allocated2 /advanced /=.
  congr (_, mkState (mkHeap _ (update _ _ _) _ _) _).
  apply: eq_map => t; apply/rowP => j.
  by rewrite /with_noise !mxE nth_nseq if_same mxE /= add0r.
Qed.


(** ** The structured covariances in closed form *)

Local Notation structured_covariance := (@structured_covariance F n_channels).

Lemma structured_weight_delta (k : nat) (lt_k : (k < n_channels)%N) :
  (\matrix_(i, j) ((i == k :> nat) && (j == k :> nat))%:R
   : 'M[F]_n_channels)
  = delta_mx (Ordinal lt_k) (Ordinal lt_k).
Proof. by apply/matrixP => i j; rewrite !mxE -!val_eqE. Qed.

Lemma trace_delta_scalar (k : 'I_n_channels) (f : F) :
  \tr (delta_mx k k + f%:M) = 1 + n_channels%:R * f.
Proof.
rewrite raddfD /= mxtrace_scalar mulr_natl; congr (_ + _).
rewrite /mxtrace (bigD1 k) //= mxE !eqxx big1 ?addr0 // => i neq_ik.
by rewrite mxE (negbTE neq_ik).
Qed.

Lemma normalise_structured (f : F) (k : nat) :
  0 <= f -> (k < n_channels)%N ->
  normalise
    (unnormalised_covariance f
       (\matrix_(i, j) ((i == k :> nat) && (j == k :> nat))%:R))
  = lift_mx (structured_covariance f k).
Proof.
move=> f_ge0 lt_k; rewrite (structured_weight_delta lt_k).
set k' := Ordinal lt_k.
rewrite unnormalised_covarianceE trmx_delta mul_delta_mx.
have trace_neq0 : 1 + n_channels%:R * f != 0.
  by apply: lt0r_neq0; rewrite ltr_wpDr ?ltr01 // mulr_ge0 ?ler0n.
apply/matrixP => i j; rewrite !mxE trace_delta_scalar /fdiv.
rewrite (negbTE trace_neq0) -!val_eqE /=; congr Fin.
have [eq_ij|neq_ij] := eqVneq (i : nat) j.
  by rewrite -eq_ij andbb mulr1n.
rewrite mulr0n addr0.
have -> : (i == k :> nat) && (j == k :> nat) = false.
  by apply/negP => /andP[/eqP eq_ik /eqP eq_jk]; rewrite eq_ik eq_jk eqxx in neq_ij.
by rewrite mul0r.
Qed.



(** ** standardize *)

(** Dividing by the outer product of [sd] is a congruence with a diagonal
    matrix. *)
Lemma rescaled_congruence (sd : 'rV[F]_n_channels) (A : 'M[F]_n_channels) :
  (\matrix_(i, j) (A i j / (sd 0 i * sd 0 j)) : 'M[F]_n_channels)
  = diag_mx (\row_i (sd 0 i)^-1) *m A *m (diag_mx (\row_i (sd 0 i)^-1))^T.
Proof.
rewrite tr_diag_mx mul_diag_mx mul_mx_diag.
by apply/matrixP => i j; rewrite !mxE invfM mulrCA mulrA.
Qed.

Lemma mul_diag_neq0 (sd x : 'rV[F]_n_channels) :
  (forall j, sd 0 j != 0) -> x != 0 ->
  x *m diag_mx (\row_i (sd 0 i)^-1) != 0.
Proof.
move=> sd_neq0; apply: contra_neq => product0; apply/rowP => j.
have := congr1 (fun y : 'rV[F]_n_channels => y 0 j) product0.
rewrite mul_mx_diag !mxE => /eqP; rewrite mulf_eq0 invr_eq0.
by rewrite (negbTE (sd_neq0 j)) orbF => /eqP.
Qed.



End SimulationRuns.

(* ===================================================================== *)
(** * The data flow of the M-DyNeMo observation model                     *)
(* ===================================================================== *)

Section ModelDataFlow.

Import LinAlg MDynemoObs.
Local Open Scope ring_scope.

Variable R : realFieldType.
Variables n_modes n_channels : nat.
Variable timestep : Type.

Lemma quad_sum (n : nat) (c : 'rV[R]_n_modes) (M : 'I_n_modes -> 'M[R]_n)
    (x : 'rV[R]_n) :
  quad (\sum_j c 0 j *: M j) x = \sum_j c 0 j * quad (M j) x.
Proof.
rewrite /quad mulmx_sumr mulmx_suml summxE; apply: eq_bigr => j _.
by rewrite -scalemxAr -scalemxAl mxE.
Qed.

Lemma symmetric_sum (n : nat) (c : 'rV[R]_n_modes)
    (M : 'I_n_modes -> 'M[R]_n) :
  (forall j, symmetric (M j)) -> symmetric (\sum_j c 0 j *: M j).
Proof.
move=> symM; rewrite /symmetric raddf_sum /=; apply: eq_bigr => j _.
by rewrite linearZ /= symM.
Qed.

(** A mixture with non-negative coefficients of positive semi-definite
    matrices is positive semi-definite; it is positive definite when the
    matrices are and one coefficient is positive. *)
Lemma mix_matrices_psd (D : 'I_n_modes -> 'M[R]_n_channels)
    (gamma : timestep -> 'rV[R]_n_modes) (t : timestep) :
  (forall k, psd (D k)) -> (forall k, 0 <= gamma t 0 k) ->
  psd (mix_matrices gamma D t).
Proof.
move=> psdD gamma_ge0; split.
  by apply: symmetric_sum => j; case: (psdD j).
move=> x; rewrite quad_sum; apply: sumr_ge0 => j _.
by apply: mulr_ge0 => //; case: (psdD j).
Qed.

Lemma mix_matrices_pd (D : 'I_n_modes -> 'M[R]_n_channels)
    (gamma : timestep -> 'rV[R]_n_modes) (t : timestep) :
  (forall k, pd (D k)) -> (forall k, 0 <= gamma t 0 k) ->
  (exists k, 0 < gamma t 0 k) ->
  pd (mix_matrices gamma D t).
Proof.
move=> pdD gamma_ge0 [k gamma_gt0]; split.
  by apply: symmetric_sum => j; case: (pdD j).
move=> x x_neq0; rewrite quad_sum (bigD1 k) //=.
apply: ltr_pwDl; first by apply: mulr_gt0 => //; case: (pdD k) => _; apply.
apply: sumr_ge0 => j _; apply: mulr_ge0 => //.
by apply: ltW; case: (pdD j) => _; apply.
Qed.

(** A mixture of diagonal matrices with positive diagonals maps non-zero
    row vectors to non-zero row vectors. *)
Lemma mix_diagonal_neq0 (E : 'I_n_modes -> 'M[R]_n_channels)
    (alpha : timestep -> 'rV[R]_n_modes) (t : timestep)
    (x : 'rV[R]_n_channels) :
  (forall k, diagonal (E k)) -> (forall k i, 0 < E k i i) ->
  (forall k, 0 <= alpha t 0 k) -> (exists k, 0 < alpha t 0 k) ->
  x != 0 -> x *m mix_matrices alpha E t != 0.
Proof.
move=> diagE posE alpha_ge0 [k alpha_gt0].
have diagG := mix_matrices_diagonal alpha t diagE.
have posG i : 0 < mix_matrices alpha E t i i.
  rewrite /mix_matrices summxE (bigD1 k) //=.
  apply: ltr_pwDl; first by rewrite mxE mulr_gt0.
  by apply: sumr_ge0 => j _; rewrite mxE mulr_ge0 // ltW.
apply: contra_neq => product0; apply/rowP => i.
have entry : (x *m mix_matrices alpha E t) 0 i
             = x 0 i * mix_matrices alpha E t i i.
  rewrite mxE (bigD1 i) //= big1 ?addr0 // => j neq_ji.
  by rewrite diagG ?mulr0.
have /eqP := congr1 (fun y : 'rV[R]_n_channels => y 0 i) product0.
by rewrite entry !mxE mulf_eq0 (gt_eqF (posG i)) orbF => /eqP.
Qed.



(** X17.  Hard assignments.  When [alpha t] is the indicator of mode [k]
    and [gamma t] the indicator of mode [l], the mean handed to the
    log-likelihood layer at [t] is the mean of mode [k], and the
    covariance is E_k D_l E_k^T: the standard deviations of mode [k]
    around the functional connectivity of mode [l]. *)
Theorem one_hot_selects_modes
    (mu : 'I_n_modes -> 'rV[R]_n_channels)
    (E D : 'I_n_modes -> 'M[R]_n_channels)
    (alpha gamma : timestep -> 'rV[R]_n_modes) (t : timestep)
    (k l : 'I_n_modes) :
  alpha t = delta_mx 0 k -> gamma t = delta_mx 0 l ->
  (_model_structure mu E D alpha gamma).1 t = mu k
  /\ (_model_structure mu E D alpha gamma).2 t = E k *m D l *m (E k)^T.
Proof.
move=> alpha_eq gamma_eq.
have select (V : lmodType R) (c : timestep -> 'rV[R]_n_modes)
    (v : 'I_n_modes -> V) (j : 'I_n_modes) :
    c t = delta_mx 0 j -> \sum_i c t 0 i *: v i = v j.
  move=> ->; rewrite (bigD1 j) //= mxE !eqxx scale1r big1 ?addr0 // => i neq_ij.
  by rewrite mxE eqxx (negbTE neq_ij) scale0r.
rewrite /= /combine /mix_vectors /mix_matrices.
by rewrite (select _ alpha mu k) // (select _ alpha E k) // (select _ gamma D l).
Qed.

End ModelDataFlow.

(* ===================================================================== *)
(** * The grid of rough_square_axes                                       *)
(* ===================================================================== *)

Section AxesGrid.

Import Plotting.
Local Open Scope ring_scope.

Variable F : archiRcfType.

(** The floor of the square root of [n] is the integer square root. *)
Lemma floor_sqrt (n : nat) :
  exists2 a : nat,
    Num.floor (Num.sqrt (n%:R : F)) = Posz a
    & (a * a <= n < a.+1 * a.+1)%N.
Proof.
set s := Num.sqrt _.
have s_ge0 : 0 <= s by apply: sqrtr_ge0.
have : 0 <= Num.floor s by rewrite floor_ge0.
case floor_eq: (Num.floor s) => [a|//] _; exists a => //.
have := floor_itv s; rewrite floor_eq intrD -!pmulrn natr1.
have a_ge0 : (a%:R : F) \is Num.nneg by rewrite nnegrE ler0n.
have a1_ge0 : (a.+1%:R : F) \is Num.nneg by rewrite nnegrE ler0n.
have s_nneg : s \is Num.nneg by rewrite nnegrE.
rewrite -(@ler_pXn2r _ 2) // -(@ltr_pXn2r _ 2) //.
by rewrite sqr_sqrtr ?ler0n // -!natrX ler_nat ltr_nat !expnS !expn0 !muln1.
Qed.


(** The ceiling of the square root of [n]. *)
Lemma ceil_sqrt (n a : nat) :
  Num.floor (Num.sqrt (n%:R : F)) = Posz a ->
  Num.ceil (Num.sqrt (n%:R : F)) = Posz (if n == (a * a)%N then a else a.+1).
Proof.
move=> floor_eq; rewrite ceil_floor intrEfloor floor_eq -pmulrn.
have <- : (a%:R ^+ 2 == Num.sqrt (n%:R : F) ^+ 2) = (a%:R == Num.sqrt (n%:R : F)).
  by rewrite eqrXn2 ?ler0n ?sqrtr_ge0.
rewrite sqr_sqrtr ?ler0n // -natrX eqr_nat expnS expn1 eq_sym.
by case: eqP => _ /=; rewrite -PoszD ?addn0 ?addn1.
Qed.


End AxesGrid.

(* ===================================================================== *)
(** * Topology: keep_channels and the bounding box                        *)
(* ===================================================================== *)

Section TopologyProperties.

Import Numpy Topoplots.
Local Open Scope ring_scope.

Variable F : rcfType.
Local Notation Topology := (Topology F).
Local Notation sensor := (sensor F).

Lemma present_rows_keep (names : seq string) (T : Topology) :
  present_rows (keep_channels names T)
  = [seq s <- present_rows T | channel_name s \in names].
Proof.
rewrite /present_rows /keep_channels /=.
elim: (layout T) => [|s rows IH] //=.
case: (boolP (channel_name s \in names)) => [in_names|out] /=.
  by case: ifP => _ /=; rewrite ?in_names IH.
by rewrite IH; case: ifP => //=; rewrite (negbTE out).
Qed.

(** X19.  [keep_channels] keeps, among the sensors that are present,
    those whose name is listed, in the order of the layout: the names of
    the present sensors afterwards are the names before, filtered by the
    list.  No row of the layout is deleted (the sensors taken out remain
    available as deleted sensors) and the outline is not touched. *)
Theorem keep_channels_filters_names (names : seq string) (T : Topology) :
  [/\ sensor_names (keep_channels names T)
      = [seq name <- sensor_names T | name \in names],
      all (fun name => name \in names) (sensor_names (keep_channels names T)),
      size (layout (keep_channels names T)) = size (layout T)
    & outline (keep_channels names T) = outline T].
Proof.
have names_eq : sensor_names (keep_channels names T)
                = [seq name <- sensor_names T | name \in names].
  by rewrite /sensor_names present_rows_keep filter_map.
split=> //; last by rewrite /= size_map.
by rewrite names_eq filter_all.
Qed.

Lemma keep_channels_twice (A B : seq string) (T : Topology) :
  keep_channels B (keep_channels A T)
  = keep_channels [seq name <- A | name \in B] T.
Proof.
rewrite /keep_channels /= -map_comp; congr mkTopology.
apply: eq_map => s /=; rewrite mem_filter.
by case: (channel_name s \in A) => /=; case: (channel_name s \in B).
Qed.

(** X20.  Successive calls of [keep_channels] intersect.  A call with the
    list [A] followed by a call with the list [B] is one call with the
    names of [A] that are in [B]; two calls commute; a repeated call
    changes nothing; and after calls with the
    lists [A] and [B] the present sensors are those that were present and
    are named in both lists: a sensor taken out by one call is not brought
    back by a later call that lists it. *)
Theorem keep_channels_intersects (A B : seq string) (T : Topology) :
  [/\ keep_channels B (keep_channels A T)
      = keep_channels [seq name <- A | name \in B] T,
      keep_channels B (keep_channels A T) = keep_channels A (keep_channels B T),
      keep_channels A (keep_channels A T) = keep_channels A T,
      sensor_names (keep_channels B (keep_channels A T))
      = [seq name <- sensor_names T | (name \in A) && (name \in B)]
    & forall name, name \notin A ->
        name \notin sensor_names (keep_channels B (keep_channels A T))].
Proof.
have names_eq : sensor_names (keep_channels B (keep_channels A T))
                = [seq name <- sensor_names T | (name \in A) && (name \in B)].
  rewrite /sensor_names !present_rows_keep -filter_predI filter_map.
  by congr map; apply: eq_filter => s /=; rewrite andbC.
split=> //.
- exact: keep_channels_twice.
- rewrite /keep_channels /= -!map_comp; congr mkTopology.
  apply: eq_map => s /=; rewrite !(fun_if (@channel_name F)) /= !if_same.
  by case: (channel_name s \in A) => /=; case: (channel_name s \in B).
- rewrite /keep_channels /= -!map_comp; congr mkTopology.
  apply: eq_map => s /=; rewrite !(fun_if (@channel_name F)) /= !if_same.
  by case: (channel_name s \in A).
- by move=> name out; rewrite names_eq mem_filter (negbTE out).
Qed.


(** ** The bounding box *)

Lemma foldr_min_le (v : F) (values : seq F) (z : F) :
  z \in v :: values -> foldr Num.min v values <= z.
Proof.
elim: values z => [|w values IH] z /=; first by rewrite inE => /eqP ->.
rewrite !inE => /or3P[/eqP ->|/eqP ->|in_values].
- by rewrite ge_min IH ?orbT ?mem_head.
- by rewrite ge_min lexx.
- by rewrite ge_min IH ?orbT // inE in_values orbT.
Qed.

Lemma foldr_max_ge (v : F) (values : seq F) (z : F) :
  z \in v :: values -> z <= foldr Num.max v values.
Proof.
elim: values z => [|w values IH] z /=; first by rewrite inE => /eqP ->.
rewrite !inE => /or3P[/eqP ->|/eqP ->|in_values].
- by rewrite le_max IH ?orbT ?mem_head.
- by rewrite le_max lexx.
- by rewrite le_max IH ?orbT // inE in_values orbT.
Qed.

Lemma foldr_min_mem (v : F) (values : seq F) :
  foldr Num.min v values \in v :: values.
Proof.
elim: values => [|w values IH] /=; first exact: mem_head.
rewrite minEle; case: ifP => _; first by rewrite !inE eqxx orbT.
by move: IH; rewrite !inE => /orP[->|->]; rewrite ?orbT.
Qed.

Lemma foldr_max_mem (v : F) (values : seq F) :
  foldr Num.max v values \in v :: values.
Proof.
elim: values => [|w values IH] /=; first exact: mem_head.
rewrite maxEle; case: ifP => _; last by rewrite !inE eqxx orbT.
by move: IH; rewrite !inE => /orP[->|->]; rewrite ?orbT.
Qed.

Lemma map_filter_sub (A : Type) (f : A -> F) (p : pred A) (l : seq A) :
  {subset [seq f a | a <- l & p a] <= [seq f a | a <- l]}.
Proof.
elim: l => [|a l IH] z //=; case: ifP => _ /=; rewrite !inE.
  by case/orP=> [->|/IH ->] //; rewrite orbT.
by move/IH=> ->; rewrite orbT.
Qed.

(** The extent of a selection and of a part of it. *)
Lemma extent_shrinks (values kept : seq F) :
  {subset kept <= values} ->
  match kept with
  | [::] => fsub (series_max kept) (series_min kept) = NaN
  | _ =>
      exists w w' : F,
        [/\ fsub (series_max values) (series_min values) = Fin w,
            fsub (series_max kept) (series_min kept) = Fin w'
          & 0 <= w' <= w]
  end.
Proof.
case: kept => [|k kept] // sub_values.
case: values sub_values => [|v values] sub_values.
  by have := sub_values k (mem_head _ _).
exists (foldr Num.max v values - foldr Num.min v values).
exists (foldr Num.max k kept - foldr Num.min k kept); split=> //.
have min_in := sub_values _ (foldr_min_mem k kept).
have max_in := sub_values _ (foldr_max_mem k kept).
rewrite subr_ge0 (foldr_max_ge (foldr_min_mem k kept)) /=.
by rewrite lerB ?foldr_max_ge ?foldr_min_le.
Qed.

(** X21.  The bounding box after [keep_channels].  If no listed sensor is
    present, [width] and [height] are nan (pandas' minimum and maximum of
    an empty selection).  Otherwise they are finite and non-negative
    before and after the call, and the call does not enlarge them. *)
Theorem keep_channels_shrinks_box (names : seq string) (T : Topology) :
  let T' := keep_channels names T in
  (sensor_names T' = [::] -> width T' = NaN /\ height T' = NaN)
  /\ (sensor_names T' != [::] ->
      exists w w' h h' : F,
        [/\ width T = Fin w /\ width T' = Fin w',
            height T = Fin h /\ height T' = Fin h',
            0 <= w' <= w
          & 0 <= h' <= h]).
Proof.
move=> T'; rewrite /width /height /min_x /max_x /min_y /max_y /sensor_names.
rewrite present_rows_keep; set rows := present_rows T.
have := extent_shrinks (@map_filter_sub _ (@x F)
                          (fun s => channel_name s \in names) rows).
have := extent_shrinks (@map_filter_sub _ (@y F)
                          (fun s => channel_name s \in names) rows).
case: [seq s <- rows | _] => [|s kept] /=; first by split.
move=> [h [h' [height_eq height_eq' le_h]]] [w [w' [width_eq width_eq' le_w]]].
by split=> // _; exists w, w', h, h'.
Qed.

End TopologyProperties.

(* ===================================================================== *)
(** * Topology.plot_data                                                  *)
(* ===================================================================== *)

Section PlotDataFailure.

Import Numpy Topoplots.
Local Open Scope string_scope.

Variable F : rcfType.
Variables (world figure axes colormap mappable pyobject : Type).
Variable plt_subplots : M world (figure * axes).
Variable get_figure : axes -> M world figure.
Variable set_aspect : axes -> string -> M world unit.
Variable cm_get_cmap : string -> M world colormap.
Variable cm_ScalarMappable : result (pyobject -> colormap -> M world mappable).
Variable builtins : seq string.
Variable global_value : string -> pyobject.

Local Notation drawing :=
  (Topology F -> seq (npfloat F) -> bool -> bool -> option string -> bool ->
   bool -> figure -> axes -> mappable -> M world unit).
Local Notation plot_data draw :=
  (@plot_data F world figure axes colormap mappable pyobject plt_subplots
     get_figure set_aspect cm_get_cmap cm_ScalarMappable draw builtins
     global_value).

Lemma load_global_norm :
  "norm" \notin builtins ->
  load_global builtins global_value "norm"
  = Raise (NameError "name 'norm' is not defined").
Proof. by rewrite /load_global => /negbTE ->. Qed.

(** X23.  [Topology.plot_data] reads the name [norm] at line 199, and the
    statement that bound it (line 193) is a comment: [norm] is no local
    of the function and no global of the module.  So, [norm] being no
    built-in of Python, no call of [plot_data] returns a figure, whatever
    the topology, the data, the options and the behaviour of matplotlib;
    nothing of lines 201-291 runs (the outcome and the state matplotlib is
    left in are the same whatever these lines do); and when the figure and
    the colour map of lines 186-198 are obtained the call raises
    NameError, after these calls have had their effect. *)
Theorem plot_data_norm_undefined (draw : drawing) (self : Topology F)
    (data : seq (npfloat F)) (plot_boxes show_names : bool)
    (title : option string) (show_deleted_sensors colorbar : bool)
    (axis : option axes) (max_value min_value : option F) (w : world) :
  "norm" \notin builtins ->
  let call (d : drawing) :=
    plot_data d self data plot_boxes show_names title show_deleted_sensors
      colorbar axis max_value min_value w in
  [/\ forall fig : figure, (call draw).1 <> Ok fig,
      forall draw' : drawing, call draw' = call draw
    & forall (fig : figure) (ax : axes) (cmap : colormap) (w1 w2 w3 : world)
             (class : pyobject -> colormap -> M world mappable),
        match axis with
        | Some given => get_figure given w = (Ok fig, w1) /\ ax = given
        | None => plt_subplots w = (Ok (fig, ax), w1)
        end ->
        set_aspect ax "equal" w1 = (Ok tt, w2) ->
        cm_get_cmap "plasma" w2 = (Ok cmap, w3) ->
        cm_ScalarMappable = Ok class ->
        call draw = (Raise (NameError "name 'norm' is not defined"), w3)].
Proof.
move=> no_builtin call.
have shape (d : drawing) :
    call d
    = (fig_axis <- (if axis is Some given
                    then fig <- get_figure given ;; ret (fig, given)
                    else plt_subplots) ;;
       set_aspect fig_axis.2 "equal" ;;;
       cmap <- cm_get_cmap "plasma" ;;
       class <- lift cm_ScalarMappable ;;
       raise (NameError "name 'norm' is not defined"))%py w.
  rewrite /call /Topoplots.plot_data /bind.
  case: (match axis with Some _ => _ | None => _ end w) => [[[fig ax]|e] w1] //=.
  case: (set_aspect _ _ _) => [[u|e] w2] //.
  case: (cm_get_cmap _ _) => [[cmap|e] w3] //.
  rewrite /lift; case: cm_ScalarMappable => [class|e] //.
  by rewrite load_global_norm.
split.
- move=> fig; rewrite shape /bind.
  case: (match axis with Some _ => _ | None => _ end w) => [[[fig' ax]|e] w1] //=.
  case: (set_aspect _ _ _) => [[u|e] w2] //.
  case: (cm_get_cmap _ _) => [[cmap|e] w3] //.
  by rewrite /lift; case: cm_ScalarMappable.
- by move=> draw'; rewrite !shape.
- move=> fig ax cmap w1 w2 w3 class opened aspect got_cmap is_class.
  rewrite shape /bind.
  have -> : (if axis is Some given
             then fun s => match get_figure given s with
                           | (Ok fig0, s') => ret (fig0, given) s'
                           | (Raise e, s') => (Raise e, s')
                           end
             else plt_subplots) w = (Ok (fig, ax), w1).
    by case: axis opened {call shape} => [given [-> ->]|->].
  by rewrite /= aspect got_cmap /lift is_class.
Qed.

End PlotDataFailure.

(* ===================================================================== *)
(** * Concrete containers, simulations, models, grids and topologies      *)
(* ===================================================================== *)

Section DataExamples.

Import VradData.

(** Witness for [init_numbers_from_one]: two files get the identifiers 1
    and 2. *)
Lemma init_numbers_from_one_witness :
  __init__ numbered (SubjList two_files) tt
  = Ok (mkData 2 [:: 1; 2]%N false).
Proof.
by have [-> _] := init_numbers_from_one numbered two_files tt.
Defined.

(** Witness for [add_appends_and_skips_ids]: two files added to one
    subject get the identifiers 4 and 5. *)
Lemma add_appends_and_skips_ids_witness :
  add numbered (SubjList two_files) tt one_subject
  = (Ok tt, mkProcess (mkData 3 [:: 1; 4; 5]%N false) [::]).
Proof.
exact: (@add_appends_and_skips_ids unit unit nat numbered two_files tt
          one_subject [:: 4; 5]%N (erefl _)).
Defined.

(** Witness for [add_failure_leaves_count]: the second Subject cannot be
    built; the count is 3 and there are 2 subjects. *)
Lemma add_failure_leaves_count_witness :
  let p' := (add (numbered_unless 5) (SubjList two_files) tt one_subject).2 in
  n_subjects (self p') = 3%N /\ subjects (self p') = [:: 1; 4]%N.
Proof.
have [count [added subs _] _ _] :=
  @add_failure_leaves_count unit unit nat (numbered_unless 5) two_files tt
    one_subject (TypeError "unexpected keyword argument") (erefl _).
by split.
Defined.

(** Witness for [add_after_prepare]: two files added to prepared data
    and [prepare] asked for all subjects. *)
Lemma add_after_prepare_witness :
  let grow := fun (s : seq nat) (_ : ids_arg) (_ _ : option nat) (_ : bool)
                  (_ : option nat) => Ok [seq x.+1 | x <- s] in
  let p := mkProcess (mkData 1 [:: 1%N] true) [::] in
  bind (add numbered (SubjList two_files) tt)
       (fun _ => prepare grow (IdsStr "all") None None false None) p
  = (Ok tt,
     warned (mkProcess (mkData 3 [:: 1; 4; 5]%N true) [::])).
Proof.
move=> grow p.
exact: (@add_after_prepare unit unit nat numbered grow two_files tt p
          [:: 4; 5]%N (IdsStr "all") None None false None (erefl _)
          (erefl _) (erefl _)).
Defined.

(** Witness for [remove_leaves_count]: one of three subjects removed. *)
Lemma remove_leaves_count_witness :
  let p' := (remove (IdsSeq [:: Posz 1]) three_subjects).2 in
  n_subjects (self p') = 3%N /\ (size (subjects (self p')) < 3)%N.
Proof.
have [count _ _ sizes] :=
  remove_leaves_count (IdsSeq [:: Posz 1]) three_subjects.
have [_ stale] := sizes [:: Posz 1] (erefl _) (erefl _).
by split; [exact: count | exact: (stale (erefl _) (erefl _))].
Defined.

(** Witness for [remove_single_id]: id 0 removes the last subject. *)
Lemma remove_single_id_witness :
  remove (IdsInt 0) three_subjects
  = (Ok tt, mkProcess (mkData 3 [:: 10; 20]%N false) [::]).
Proof.
have [_ [from_end _]] := remove_single_id 0 three_subjects.
exact: (from_end (erefl _)).
Defined.

(** Witness for [remove_descending]: ids 3 and 1. *)
Lemma remove_descending_witness :
  remove (IdsSeq [:: Posz 3; Posz 1]) three_subjects
  = (Ok tt, mkProcess (mkData 3 [:: 20%N] false) [::]).
Proof.
exact: (@remove_descending nat [:: 3; 1]%N three_subjects (erefl _) (erefl _)).
Defined.

(** Witness for [remove_increasing_pair]: ids 1 and 2 remove the first
    and the third subject. *)
Lemma remove_increasing_pair_witness :
  remove (IdsSeq [:: Posz 1; Posz 2]) three_subjects
  = (Ok tt, mkProcess (mkData 3 [:: 20%N] false) [::]).
Proof.
exact: (@remove_increasing_pair nat 1 2 three_subjects (erefl _) (erefl _)).
Defined.

(** Witness for [str_joins_subjects]. *)
Lemma str_joins_subjects_witness :
  __str__ described (VradData.self three_subjects)
  = Ok (String.concat blank_line [:: "subject"; "subject"; "subject"])%string.
Proof.
exact: (@str_joins_subjects nat described (VradData.self three_subjects)
          (erefl _)).
Defined.

(** Witness for [str_after_remove]. *)
Lemma str_after_remove_witness :
  __str__ described
    (VradData.self (remove (IdsSeq [:: Posz 1]) three_subjects).2)
  = Raise (IndexError "list index out of range").
Proof.
have [_ raised] :=
  @str_after_remove nat described [:: Posz 1] three_subjects
    (remove (IdsSeq [:: Posz 1]) three_subjects).2 (erefl _) (erefl _)
    (erefl _).
by apply: raised => s; exists "subject"%string.
Defined.

End DataExamples.

Section SimulationExamples.

Import Numpy LinAlg VradSimulation.
Local Open Scope ring_scope.


Local Notation simulate_data1 :=
  (@simulate_data algR 1 unit zero_normal (@mean_draw 1) unit
     (@no_attribute 1)).

(** Witness for [negative_observation_error]. *)
Lemma negative_observation_error_witness :
  (simulate_data1 (generated_state 1 (-1) 1)).1
  = Raise (ValueError "scale < 0").
Proof.
have [g1 [-> _]] :=
  @negative_observation_error algR 1 unit zero_normal (@mean_draw 1) unit
    (@no_attribute 1) (generated_state 1 (-1) 1) tt 0%N
    (StcArray (nseq 1 [tuple (1 : algR)]))
    (erefl _) (erefl _) (erefl _) (erefl _) (erefl _) (erefl _) (erefl _)
    (ltrN10 algR).
by [].
Defined.

(** Witness for [wrong_length_state_time_course]: two samples asked, one
    row of states. *)
Lemma wrong_length_state_time_course_witness :
  (simulate_data1 (generated_state 2 0 1)).1
  = Raise (IndexError "boolean index did not match indexed array").
Proof.
have [raises _] :=
  @wrong_length_state_time_course algR 1 unit zero_normal (@mean_draw 1) unit
    (@no_attribute 1) (generated_state 2 0 1) tt 0%N
    (StcArray (nseq 1 [tuple (1 : algR)]))
    (erefl _) (erefl _) (erefl _) (erefl _) (erefl _) (erefl _) (erefl _).
by have [g1 ->] := raises (erefl _).
Defined.


Local Notation standardize1 := (standardize (@no_attribute 1)).



End SimulationExamples.

Section ModelExamples.

Import LinAlg MDynemoObs.
Local Open Scope ring_scope.

Lemma identity_pd : pd (1%:M : 'M[rat]_1).
Proof.
split; first by rewrite /symmetric trmx1.
move=> x x_neq0; rewrite /quad mulmx1 mxE big_ord1 mxE -expr2.
rewrite exprn_even_gt0 //=; apply: contra_neq x_neq0 => x0.
by apply/rowP => i; rewrite !ord1 x0 mxE.
Qed.


(** Witness for [one_hot_selects_modes]: two modes, the second one
    active. *)
Lemma one_hot_selects_modes_witness :
  let mu (k : 'I_2) : 'rV[rat]_1 := const_mx k%:R in
  (_model_structure mu (fun _ => 1%:M) (fun _ => 1%:M)
     (fun _ : unit => delta_mx 0 1) (fun _ : unit => delta_mx 0 1)).1 tt
  = const_mx 1.
Proof.
move=> mu.
have [-> _] :=
  @one_hot_selects_modes rat 2 1 unit mu (fun _ => 1%:M) (fun _ => 1%:M)
    (fun _ => delta_mx 0 1) (fun _ => delta_mx 0 1) tt 1 1 (erefl _)
    (erefl _).
by [].
Defined.

End ModelExamples.

Section GridExamples.

Import Plotting.


End GridExamples.

Section TopologyExamples.

Import Numpy Topoplots.
Local Open Scope ring_scope.

(** Witness for [keep_channels_intersects]: "B" is taken out by the first
    call and not brought back by the second. *)
Lemma keep_channels_intersects_witness :
  "B"%string
    \notin sensor_names
             (keep_channels [:: "A"; "B"]%string
                (keep_channels [:: "A"]%string two_sensors)).
Proof.
have [_ _ _ _ stays_out] :=
  keep_channels_intersects [:: "A"]%string [:: "A"; "B"]%string two_sensors.
exact: (stays_out "B"%string (erefl _)).
Defined.

(** Witness for [keep_channels_shrinks_box]: keeping "A" alone. *)
Lemma keep_channels_shrinks_box_witness :
  exists w w' : algR,
    [/\ width two_sensors = Fin w,
        width (keep_channels [:: "A"]%string two_sensors) = Fin w'
      & w' <= w].
Proof.
have [_ shrinks] := keep_channels_shrinks_box [:: "A"]%string two_sensors.
have [w [w' [h [h' [[width_eq width_eq'] _ /andP[_ le_w] _]]]]] :=
  shrinks (erefl _).
by exists w, w'.
Defined.

(** Witness for [plot_data_norm_undefined]: with a library that accepts
    every call, on a new figure, the call raises after the three calls of
    lines 187-198. *)
Lemma plot_data_norm_undefined_witness :
  plot_data (counted (tt, tt)) (fun _ => counted tt) (fun _ _ => counted tt)
    (fun _ => counted tt) (Ok (fun (_ _ : unit) => counted tt))
    (fun _ _ _ _ _ _ _ _ _ _ => counted tt) python_builtins (fun _ => tt)
    two_sensors [:: Fin 1; Fin 2] false false None false true None None None
    0%N
  = (Raise (NameError "name 'norm' is not defined"), 3%N).
Proof.
have [_ _ raises] :=
  @plot_data_norm_undefined algR nat unit unit unit unit unit
    (counted (tt, tt)) (fun _ => counted tt) (fun _ _ => counted tt)
    (fun _ => counted tt) (Ok (fun (_ _ : unit) => counted tt))
    python_builtins (fun _ => tt) (fun _ _ _ _ _ _ _ _ _ _ => counted tt)
    two_sensors [:: Fin 1; Fin 2] false false None false true None None None
    0%N (erefl _).
exact: (raises tt tt tt 1%N 2%N 3%N (fun _ _ => counted tt)
          (erefl _) (erefl _) (erefl _) (erefl _)).
Defined.

End TopologyExamples.
